(** * fs-app: the financial statement aggregation core

    A shallow embedding of the aggregation logic of the dashboard:
    - [utils.safe_convert]                                  (src/utils.py)
    - [ChartService.create_balance_sheet_chart],
      [create_income_statement_chart],
      [create_profitability_radar_chart],
      [create_debt_ratio_donut_chart],
      [create_combined_financial_ratios_chart],
      [create_financial_charts], [create_period_charts],
      [create_ratio_trend_chart],
      [create_indicator_trend_chart]                        (src/chart_service.py)
    - [FinancialDashboardApp._create_analysis_summary]      (src/app.py)
    - [format_amount], [get_report_name],
      [create_user_friendly_error_message], [search_company] (src/utils.py)
    - [FinancialDataService.get_financial_data] and the two
      fetchers with error handling                           (src/data_service.py)
    - [OpenDartClient.get_financial_info],
      [get_financial_info_range]                             (src/opendart_client.py)

    Python values are a small tagged union, Python floats are IEEE 754
    binary64 numbers ([spec_float] at precision 53 and maximal exponent
    1024, rounding to nearest even), exceptions are an explicit [result]
    type, and Python dictionaries are insertion-ordered association
    lists.  Strings are byte strings in UTF-8; [float], [int] and
    [str.lower] work on their code points with the tables of Unicode
    14.0.  Rendering through the plotting library is not
    modelled: a chart is represented by the data handed to the plotting
    calls, and console output is left out. *)

From Stdlib Require Import ZArith List Bool Ascii String Lia.
From Stdlib Require Import Sorted Permutation SpecFloat.
Import ListNotations.

Local Open Scope string_scope.
Local Open Scope Z_scope.

(** ** Exceptions *)

Inductive exn : Type :=
| ValueError
| TypeError
| OverflowError
| KeyError.

Inductive result (A : Type) : Type :=
| Ok (a : A)
| Raise (e : exn).

Arguments Ok {A} a.
Arguments Raise {A} e.

Definition bind {A B : Type} (r : result A) (k : A -> result B) : result B :=
  match r with
  | Ok a => k a
  | Raise e => Raise e
  end.

Notation "x <- r ;; k" := (bind r (fun x => k))
  (at level 61, r at next level, right associativity).

(** ** Texts

    A Python [str] is held as the bytes of its UTF-8 form; a lone
    surrogate, which a [str] can hold, as the three bytes of its code
    point.  The tables are those of Unicode 14.0, the version of
    CPython 3.11. *)

Module Unicode.

Definition byte (c : ascii) : Z := Z.of_nat (nat_of_ascii c).

Definition of_byte (n : Z) : ascii := ascii_of_nat (Z.to_nat n).

(** A continuation byte, [10xxxxxx], and the six bits it carries. *)
Definition is_cont (c : ascii) : bool := (128 <=? byte c) && (byte c <? 192).

Definition cont (c : ascii) : Z := byte c - 128.

(** The first code point of a text and the bytes after it; [None] for
    bytes that are not the UTF-8 form of a code point. *)
Definition next_code_point (l : list ascii) : option (Z * list ascii) :=
  match l with
  | [] => None
  | b0 :: r0 =>
      let n0 := byte b0 in
      if n0 <? 128 then Some (n0, r0)
      else if n0 <? 192 then None
      else if n0 <? 224 then
        match r0 with
        | b1 :: r1 =>
            let cp := (n0 - 192) * 64 + cont b1 in
            if is_cont b1 && (128 <=? cp) then Some (cp, r1) else None
        | _ => None
        end
      else if n0 <? 240 then
        match r0 with
        | b1 :: b2 :: r2 =>
            let cp := ((n0 - 224) * 64 + cont b1) * 64 + cont b2 in
            if is_cont b1 && is_cont b2 && (2048 <=? cp) then Some (cp, r2) else None
        | _ => None
        end
      else if n0 <? 248 then
        match r0 with
        | b1 :: b2 :: b3 :: r3 =>
            let cp := (((n0 - 240) * 64 + cont b1) * 64 + cont b2) * 64 + cont b3 in
            if is_cont b1 && is_cont b2 && is_cont b3 && (65536 <=? cp) && (cp <=? 1114111)
            then Some (cp, r3)
            else None
        | _ => None
        end
      else None
  end.

(** The code points of a text; the fuel is the number of bytes. *)
Fixpoint decode_fuel (fuel : nat) (l : list ascii) : option (list Z) :=
  match l with
  | [] => Some []
  | _ =>
      match fuel with
      | O => None
      | S f =>
          match next_code_point l with
          | Some (cp, rest) => option_map (cons cp) (decode_fuel f rest)
          | None => None
          end
      end
  end.

Definition decode (l : list ascii) : option (list Z) := decode_fuel (List.length l) l.

(** The UTF-8 form of a code point. *)
Definition encode (cp : Z) : list ascii :=
  if cp <? 128 then [of_byte cp]
  else if cp <? 2048 then [of_byte (192 + cp / 64); of_byte (128 + cp mod 64)]
  else if cp <? 65536 then
    [of_byte (224 + cp / 4096); of_byte (128 + (cp / 64) mod 64); of_byte (128 + cp mod 64)]
  else
    [of_byte (240 + cp / 262144); of_byte (128 + (cp / 4096) mod 64);
     of_byte (128 + (cp / 64) mod 64); of_byte (128 + cp mod 64)].

(** [len(s)]: the number of code points, one for each byte that is not
    a continuation byte. *)
Definition char_count (l : list ascii) : nat :=
  List.length (filter (fun c => negb (is_cont c)) l).

Definition in_ranges (cp : Z) (rs : list (Z * Z)) : bool :=
  existsb (fun r => (fst r <=? cp) && (cp <=? snd r)) rs.

(** The code points of the digit zero of every decimal script: the nine
    code points after each are its digits one to nine. *)
Definition decimal_zeros : list Z :=
  [ 48; 1632; 1776; 1984; 2406; 2534; 2662; 2790; 2918; 3046;
    3174; 3302; 3430; 3558; 3664; 3792; 3872; 4160; 4240; 6112;
    6160; 6470; 6608; 6784; 6800; 6992; 7088; 7232; 7248; 42528;
    43216; 43264; 43472; 43504; 43600; 44016; 65296; 66720; 68912; 69734;
    69872; 69942; 70096; 70384; 70736; 70864; 71248; 71360; 71472; 71904;
    72016; 72784; 73040; 73120; 92768; 92864; 93008; 120782; 120792; 120802;
    120812; 120822; 123200; 123632; 125264; 130032 ].

(** White space beyond ASCII. *)
Definition wide_spaces : list (Z * Z) :=
  [ (133, 133); (160, 160); (5760, 5760); (8192, 8202); (8232, 8233); (8239, 8239);
    (8287, 8287); (12288, 12288) ].

(** The lower-case mapping as ranges [(first, last, step, offset)]: a code
    point [first + k * step <= last] maps to itself plus [offset]. *)
Definition lower_ranges : list (Z * Z * Z * Z) :=
  [ (65, 90, 1, 32); (192, 214, 1, 32); (216, 222, 1, 32); (256, 302, 2, 1);
    (306, 310, 2, 1); (313, 327, 2, 1); (330, 374, 2, 1); (376, 376, 1, -121);
    (377, 381, 2, 1); (385, 385, 1, 210); (386, 388, 2, 1); (390, 390, 1, 206);
    (391, 391, 1, 1); (393, 394, 1, 205); (395, 395, 1, 1); (398, 398, 1, 79);
    (399, 399, 1, 202); (400, 400, 1, 203); (401, 401, 1, 1); (403, 403, 1, 205);
    (404, 404, 1, 207); (406, 406, 1, 211); (407, 407, 1, 209); (408, 408, 1, 1);
    (412, 412, 1, 211); (413, 413, 1, 213); (415, 415, 1, 214); (416, 420, 2, 1);
    (422, 422, 1, 218); (423, 423, 1, 1); (425, 425, 1, 218); (428, 428, 1, 1);
    (430, 430, 1, 218); (431, 431, 1, 1); (433, 434, 1, 217); (435, 437, 2, 1);
    (439, 439, 1, 219); (440, 440, 1, 1); (444, 444, 1, 1); (452, 452, 1, 2);
    (453, 453, 1, 1); (455, 455, 1, 2); (456, 456, 1, 1); (458, 458, 1, 2);
    (459, 475, 2, 1); (478, 494, 2, 1); (497, 497, 1, 2); (498, 500, 2, 1);
    (502, 502, 1, -97); (503, 503, 1, -56); (504, 542, 2, 1); (544, 544, 1, -130);
    (546, 562, 2, 1); (570, 570, 1, 10795); (571, 571, 1, 1); (573, 573, 1, -163);
    (574, 574, 1, 10792); (577, 577, 1, 1); (579, 579, 1, -195); (580, 580, 1, 69);
    (581, 581, 1, 71); (582, 590, 2, 1); (880, 882, 2, 1); (886, 886, 1, 1);
    (895, 895, 1, 116); (902, 902, 1, 38); (904, 906, 1, 37); (908, 908, 1, 64);
    (910, 911, 1, 63); (913, 929, 1, 32); (931, 939, 1, 32); (975, 975, 1, 8);
    (984, 1006, 2, 1); (1012, 1012, 1, -60); (1015, 1015, 1, 1); (1017, 1017, 1, -7);
    (1018, 1018, 1, 1); (1021, 1023, 1, -130); (1024, 1039, 1, 80); (1040, 1071, 1, 32);
    (1120, 1152, 2, 1); (1162, 1214, 2, 1); (1216, 1216, 1, 15); (1217, 1229, 2, 1);
    (1232, 1326, 2, 1); (1329, 1366, 1, 48); (4256, 4293, 1, 7264); (4295, 4295, 1, 7264);
    (4301, 4301, 1, 7264); (5024, 5103, 1, 38864); (5104, 5109, 1, 8); (7312, 7354, 1, -3008);
    (7357, 7359, 1, -3008); (7680, 7828, 2, 1); (7838, 7838, 1, -7615); (7840, 7934, 2, 1);
    (7944, 7951, 1, -8); (7960, 7965, 1, -8); (7976, 7983, 1, -8); (7992, 7999, 1, -8);
    (8008, 8013, 1, -8); (8025, 8031, 2, -8); (8040, 8047, 1, -8); (8072, 8079, 1, -8);
    (8088, 8095, 1, -8); (8104, 8111, 1, -8); (8120, 8121, 1, -8); (8122, 8123, 1, -74);
    (8124, 8124, 1, -9); (8136, 8139, 1, -86); (8140, 8140, 1, -9); (8152, 8153, 1, -8);
    (8154, 8155, 1, -100); (8168, 8169, 1, -8); (8170, 8171, 1, -112); (8172, 8172, 1, -7);
    (8184, 8185, 1, -128); (8186, 8187, 1, -126); (8188, 8188, 1, -9); (8486, 8486, 1, -7517);
    (8490, 8490, 1, -8383); (8491, 8491, 1, -8262); (8498, 8498, 1, 28); (8544, 8559, 1, 16);
    (8579, 8579, 1, 1); (9398, 9423, 1, 26); (11264, 11311, 1, 48); (11360, 11360, 1, 1);
    (11362, 11362, 1, -10743); (11363, 11363, 1, -3814); (11364, 11364, 1, -10727); (11367, 11371, 2, 1);
    (11373, 11373, 1, -10780); (11374, 11374, 1, -10749); (11375, 11375, 1, -10783); (11376, 11376, 1, -10782);
    (11378, 11378, 1, 1); (11381, 11381, 1, 1); (11390, 11391, 1, -10815); (11392, 11490, 2, 1);
    (11499, 11501, 2, 1); (11506, 11506, 1, 1); (42560, 42604, 2, 1); (42624, 42650, 2, 1);
    (42786, 42798, 2, 1); (42802, 42862, 2, 1); (42873, 42875, 2, 1); (42877, 42877, 1, -35332);
    (42878, 42886, 2, 1); (42891, 42891, 1, 1); (42893, 42893, 1, -42280); (42896, 42898, 2, 1);
    (42902, 42920, 2, 1); (42922, 42922, 1, -42308); (42923, 42923, 1, -42319); (42924, 42924, 1, -42315);
    (42925, 42925, 1, -42305); (42926, 42926, 1, -42308); (42928, 42928, 1, -42258); (42929, 42929, 1, -42282);
    (42930, 42930, 1, -42261); (42931, 42931, 1, 928); (42932, 42946, 2, 1); (42948, 42948, 1, -48);
    (42949, 42949, 1, -42307); (42950, 42950, 1, -35384); (42951, 42953, 2, 1); (42960, 42960, 1, 1);
    (42966, 42968, 2, 1); (42997, 42997, 1, 1); (65313, 65338, 1, 32); (66560, 66599, 1, 40);
    (66736, 66771, 1, 40); (66928, 66938, 1, 39); (66940, 66954, 1, 39); (66956, 66962, 1, 39);
    (66964, 66965, 1, 39); (68736, 68786, 1, 64); (71840, 71871, 1, 32); (93760, 93791, 1, 32);
    (125184, 125217, 1, 34) ].

(** The code points with the property Cased. *)
Definition cased_ranges : list (Z * Z) :=
  [ (65, 90); (97, 122); (170, 170); (181, 181); (186, 186); (192, 214);
    (216, 246); (248, 442); (444, 447); (452, 659); (661, 696); (704, 705);
    (736, 740); (837, 837); (880, 883); (886, 887); (890, 893); (895, 895);
    (902, 902); (904, 906); (908, 908); (910, 929); (931, 1013); (1015, 1153);
    (1162, 1327); (1329, 1366); (1376, 1416); (4256, 4293); (4295, 4295); (4301, 4301);
    (4304, 4346); (4349, 4351); (5024, 5109); (5112, 5117); (7296, 7304); (7312, 7354);
    (7357, 7359); (7424, 7615); (7680, 7957); (7960, 7965); (7968, 8005); (8008, 8013);
    (8016, 8023); (8025, 8025); (8027, 8027); (8029, 8029); (8031, 8061); (8064, 8116);
    (8118, 8124); (8126, 8126); (8130, 8132); (8134, 8140); (8144, 8147); (8150, 8155);
    (8160, 8172); (8178, 8180); (8182, 8188); (8305, 8305); (8319, 8319); (8336, 8348);
    (8450, 8450); (8455, 8455); (8458, 8467); (8469, 8469); (8473, 8477); (8484, 8484);
    (8486, 8486); (8488, 8488); (8490, 8493); (8495, 8500); (8505, 8505); (8508, 8511);
    (8517, 8521); (8526, 8526); (8544, 8575); (8579, 8580); (9398, 9449); (11264, 11492);
    (11499, 11502); (11506, 11507); (11520, 11557); (11559, 11559); (11565, 11565); (42560, 42605);
    (42624, 42653); (42786, 42887); (42891, 42894); (42896, 42954); (42960, 42961); (42963, 42963);
    (42965, 42969); (42997, 42998); (43000, 43002); (43824, 43866); (43868, 43880); (43888, 43967);
    (64256, 64262); (64275, 64279); (65313, 65338); (65345, 65370); (66560, 66639); (66736, 66771);
    (66776, 66811); (66928, 66938); (66940, 66954); (66956, 66962); (66964, 66965); (66967, 66977);
    (66979, 66993); (66995, 67001); (67003, 67004); (67456, 67456); (67459, 67461); (67463, 67504);
    (67506, 67514); (68736, 68786); (68800, 68850); (71840, 71903); (93760, 93823); (119808, 119892);
    (119894, 119964); (119966, 119967); (119970, 119970); (119973, 119974); (119977, 119980); (119982, 119993);
    (119995, 119995); (119997, 120003); (120005, 120069); (120071, 120074); (120077, 120084); (120086, 120092);
    (120094, 120121); (120123, 120126); (120128, 120132); (120134, 120134); (120138, 120144); (120146, 120485);
    (120488, 120512); (120514, 120538); (120540, 120570); (120572, 120596); (120598, 120628); (120630, 120654);
    (120656, 120686); (120688, 120712); (120714, 120744); (120746, 120770); (120772, 120779); (122624, 122633);
    (122635, 122654); (125184, 125251); (127280, 127305); (127312, 127337); (127344, 127369) ].

(** The code points with the property Case_Ignorable. *)
Definition case_ignorable_ranges : list (Z * Z) :=
  [ (39, 39); (46, 46); (58, 58); (94, 94); (96, 96); (168, 168);
    (173, 173); (175, 175); (180, 180); (183, 184); (688, 879); (884, 885);
    (890, 890); (900, 901); (903, 903); (1155, 1161); (1369, 1369); (1375, 1375);
    (1425, 1469); (1471, 1471); (1473, 1474); (1476, 1477); (1479, 1479); (1524, 1524);
    (1536, 1541); (1552, 1562); (1564, 1564); (1600, 1600); (1611, 1631); (1648, 1648);
    (1750, 1757); (1759, 1768); (1770, 1773); (1807, 1807); (1809, 1809); (1840, 1866);
    (1958, 1968); (2027, 2037); (2042, 2042); (2045, 2045); (2070, 2093); (2137, 2139);
    (2184, 2184); (2192, 2193); (2200, 2207); (2249, 2306); (2362, 2362); (2364, 2364);
    (2369, 2376); (2381, 2381); (2385, 2391); (2402, 2403); (2417, 2417); (2433, 2433);
    (2492, 2492); (2497, 2500); (2509, 2509); (2530, 2531); (2558, 2558); (2561, 2562);
    (2620, 2620); (2625, 2626); (2631, 2632); (2635, 2637); (2641, 2641); (2672, 2673);
    (2677, 2677); (2689, 2690); (2748, 2748); (2753, 2757); (2759, 2760); (2765, 2765);
    (2786, 2787); (2810, 2815); (2817, 2817); (2876, 2876); (2879, 2879); (2881, 2884);
    (2893, 2893); (2901, 2902); (2914, 2915); (2946, 2946); (3008, 3008); (3021, 3021);
    (3072, 3072); (3076, 3076); (3132, 3132); (3134, 3136); (3142, 3144); (3146, 3149);
    (3157, 3158); (3170, 3171); (3201, 3201); (3260, 3260); (3263, 3263); (3270, 3270);
    (3276, 3277); (3298, 3299); (3328, 3329); (3387, 3388); (3393, 3396); (3405, 3405);
    (3426, 3427); (3457, 3457); (3530, 3530); (3538, 3540); (3542, 3542); (3633, 3633);
    (3636, 3642); (3654, 3662); (3761, 3761); (3764, 3772); (3782, 3782); (3784, 3789);
    (3864, 3865); (3893, 3893); (3895, 3895); (3897, 3897); (3953, 3966); (3968, 3972);
    (3974, 3975); (3981, 3991); (3993, 4028); (4038, 4038); (4141, 4144); (4146, 4151);
    (4153, 4154); (4157, 4158); (4184, 4185); (4190, 4192); (4209, 4212); (4226, 4226);
    (4229, 4230); (4237, 4237); (4253, 4253); (4348, 4348); (4957, 4959); (5906, 5908);
    (5938, 5939); (5970, 5971); (6002, 6003); (6068, 6069); (6071, 6077); (6086, 6086);
    (6089, 6099); (6103, 6103); (6109, 6109); (6155, 6159); (6211, 6211); (6277, 6278);
    (6313, 6313); (6432, 6434); (6439, 6440); (6450, 6450); (6457, 6459); (6679, 6680);
    (6683, 6683); (6742, 6742); (6744, 6750); (6752, 6752); (6754, 6754); (6757, 6764);
    (6771, 6780); (6783, 6783); (6823, 6823); (6832, 6862); (6912, 6915); (6964, 6964);
    (6966, 6970); (6972, 6972); (6978, 6978); (7019, 7027); (7040, 7041); (7074, 7077);
    (7080, 7081); (7083, 7085); (7142, 7142); (7144, 7145); (7149, 7149); (7151, 7153);
    (7212, 7219); (7222, 7223); (7288, 7293); (7376, 7378); (7380, 7392); (7394, 7400);
    (7405, 7405); (7412, 7412); (7416, 7417); (7468, 7530); (7544, 7544); (7579, 7679);
    (8125, 8125); (8127, 8129); (8141, 8143); (8157, 8159); (8173, 8175); (8189, 8190);
    (8203, 8207); (8216, 8217); (8228, 8228); (8231, 8231); (8234, 8238); (8288, 8292);
    (8294, 8303); (8305, 8305); (8319, 8319); (8336, 8348); (8400, 8432); (11388, 11389);
    (11503, 11505); (11631, 11631); (11647, 11647); (11744, 11775); (11823, 11823); (12293, 12293);
    (12330, 12333); (12337, 12341); (12347, 12347); (12441, 12446); (12540, 12542); (40981, 40981);
    (42232, 42237); (42508, 42508); (42607, 42610); (42612, 42621); (42623, 42623); (42652, 42655);
    (42736, 42737); (42752, 42785); (42864, 42864); (42888, 42890); (42994, 42996); (43000, 43001);
    (43010, 43010); (43014, 43014); (43019, 43019); (43045, 43046); (43052, 43052); (43204, 43205);
    (43232, 43249); (43263, 43263); (43302, 43309); (43335, 43345); (43392, 43394); (43443, 43443);
    (43446, 43449); (43452, 43453); (43471, 43471); (43493, 43494); (43561, 43566); (43569, 43570);
    (43573, 43574); (43587, 43587); (43596, 43596); (43632, 43632); (43644, 43644); (43696, 43696);
    (43698, 43700); (43703, 43704); (43710, 43711); (43713, 43713); (43741, 43741); (43756, 43757);
    (43763, 43764); (43766, 43766); (43867, 43871); (43881, 43883); (44005, 44005); (44008, 44008);
    (44013, 44013); (64286, 64286); (64434, 64450); (65024, 65039); (65043, 65043); (65056, 65071);
    (65106, 65106); (65109, 65109); (65279, 65279); (65287, 65287); (65294, 65294); (65306, 65306);
    (65342, 65342); (65344, 65344); (65392, 65392); (65438, 65439); (65507, 65507); (65529, 65531);
    (66045, 66045); (66272, 66272); (66422, 66426); (67456, 67461); (67463, 67504); (67506, 67514);
    (68097, 68099); (68101, 68102); (68108, 68111); (68152, 68154); (68159, 68159); (68325, 68326);
    (68900, 68903); (69291, 69292); (69446, 69456); (69506, 69509); (69633, 69633); (69688, 69702);
    (69744, 69744); (69747, 69748); (69759, 69761); (69811, 69814); (69817, 69818); (69821, 69821);
    (69826, 69826); (69837, 69837); (69888, 69890); (69927, 69931); (69933, 69940); (70003, 70003);
    (70016, 70017); (70070, 70078); (70089, 70092); (70095, 70095); (70191, 70193); (70196, 70196);
    (70198, 70199); (70206, 70206); (70367, 70367); (70371, 70378); (70400, 70401); (70459, 70460);
    (70464, 70464); (70502, 70508); (70512, 70516); (70712, 70719); (70722, 70724); (70726, 70726);
    (70750, 70750); (70835, 70840); (70842, 70842); (70847, 70848); (70850, 70851); (71090, 71093);
    (71100, 71101); (71103, 71104); (71132, 71133); (71219, 71226); (71229, 71229); (71231, 71232);
    (71339, 71339); (71341, 71341); (71344, 71349); (71351, 71351); (71453, 71455); (71458, 71461);
    (71463, 71467); (71727, 71735); (71737, 71738); (71995, 71996); (71998, 71998); (72003, 72003);
    (72148, 72151); (72154, 72155); (72160, 72160); (72193, 72202); (72243, 72248); (72251, 72254);
    (72263, 72263); (72273, 72278); (72281, 72283); (72330, 72342); (72344, 72345); (72752, 72758);
    (72760, 72765); (72767, 72767); (72850, 72871); (72874, 72880); (72882, 72883); (72885, 72886);
    (73009, 73014); (73018, 73018); (73020, 73021); (73023, 73029); (73031, 73031); (73104, 73105);
    (73109, 73109); (73111, 73111); (73459, 73460); (78896, 78904); (92912, 92916); (92976, 92982);
    (92992, 92995); (94031, 94031); (94095, 94111); (94176, 94177); (94179, 94180); (110576, 110579);
    (110581, 110587); (110589, 110590); (113821, 113822); (113824, 113827); (118528, 118573); (118576, 118598);
    (119143, 119145); (119155, 119170); (119173, 119179); (119210, 119213); (119362, 119364); (121344, 121398);
    (121403, 121452); (121461, 121461); (121476, 121476); (121499, 121503); (121505, 121519); (122880, 122886);
    (122888, 122904); (122907, 122913); (122915, 122916); (122918, 122922); (123184, 123197); (123566, 123566);
    (123628, 123631); (125136, 125142); (125252, 125259); (127995, 127999); (917505, 917505); (917536, 917631);
    (917760, 917999) ].

(** [Py_UNICODE_ISSPACE] beyond ASCII. *)
Definition is_wide_space (cp : Z) : bool := in_ranges cp wide_spaces.

(** [Py_UNICODE_TODECIMAL]: the value of a decimal digit of any script. *)
Definition decimal (cp : Z) : option Z :=
  match find (fun z => (z <=? cp) && (cp <=? z + 9)) decimal_zeros with
  | Some z => Some (cp - z)
  | None => None
  end.

(** What [float] and [int] do to a text before they read it
    ([_PyUnicode_TransformDecimalAndSpaceToASCII]): white space beyond
    ASCII becomes a blank, a decimal digit of any script its ASCII
    digit, and the text ends in a question mark at the first other code
    point from 127 on.  CPython leaves an ASCII text as it is; the
    conversion changes such a text only at the code point 127, which no
    number holds.  The fuel is the number of bytes. *)
Fixpoint to_ascii_fuel (fuel : nat) (l : list ascii) : list ascii :=
  match l with
  | [] => []
  | _ =>
      match fuel with
      | O => []
      | S f =>
          match next_code_point l with
          | None => ["?"%char]
          | Some (cp, rest) =>
              if cp <? 127 then of_byte cp :: to_ascii_fuel f rest
              else if is_wide_space cp then " "%char :: to_ascii_fuel f rest
              else
                match decimal cp with
                | Some d => of_byte (48 + d) :: to_ascii_fuel f rest
                | None => ["?"%char]
                end
          end
      end
  end.

Definition to_ascii (l : list ascii) : list ascii := to_ascii_fuel (List.length l) l.

(** [_PyUnicode_ToLowerFull]: the lower-case form of one code point. *)
Definition lower_code_point (cp : Z) : list Z :=
  if cp =? 304 then [105; 775]
  else
    match find (fun r => let '(lo, hi, step, _) := r in
                         (lo <=? cp) && (cp <=? hi) && ((cp - lo) mod step =? 0))
               lower_ranges with
    | Some (_, _, _, off) => [cp + off]
    | None => [cp]
    end.

Definition cased (cp : Z) : bool := in_ranges cp cased_ranges.

Definition case_ignorable (cp : Z) : bool := in_ranges cp case_ignorable_ranges.

(** The first code point that is not case-ignorable. *)
Fixpoint skip_ignorable (l : list Z) : option Z :=
  match l with
  | [] => None
  | c :: r => if case_ignorable c then skip_ignorable r else Some c
  end.

(** [handle_capital_sigma]: a capital sigma is final when, case-ignorable
    code points skipped, a cased one stands before it and none after
    it. *)
Definition final_sigma (before_rev after : list Z) : bool :=
  match skip_ignorable before_rev with
  | Some c =>
      cased c &&
      match skip_ignorable after with
      | Some d => negb (cased d)
      | None => true
      end
  | None => false
  end.

(** The loop of [str.lower] over the code points; [before_rev] holds
    the code points already passed, the last one first. *)
Fixpoint lower_from (before_rev : list Z) (l : list Z) : list Z :=
  match l with
  | [] => []
  | c :: r =>
      ((if c =? 931 then [if final_sigma before_rev r then 962 else 963]
        else lower_code_point c)
       ++ lower_from (c :: before_rev) r)%list
  end.

(** [s.lower()]; bytes that are no text are left as they are. *)
Definition lower (l : list ascii) : list ascii :=
  match decode l with
  | Some cps => flat_map encode (lower_from [] cps)
  | None => l
  end.

End Unicode.

(** ** Python floats: IEEE 754 binary64 *)

Module PyFloat.

Definition prec : Z := 53.
Definition emax : Z := 1024.

Definition t : Type := spec_float.

Definition pzero : t := S754_zero false.

(** [x > 0] on floats: false on NaN. *)
Definition gt0 (x : t) : bool := SFltb pzero x.

(** [x == 0] on floats: both signed zeros. *)
Definition is_zero (x : t) : bool := SFeqb x pzero.

Definition lt0 (x : t) : bool := SFltb x pzero.

Definition div (x y : t) : t := SFdiv prec emax x y.
Definition mul (x y : t) : t := SFmul prec emax x y.
Definition sub (x y : t) : t := SFsub prec emax x y.

(** [float(n)] for a Python [int]: the nearest binary64 number, and
    [OverflowError] when that is out of range. *)
Definition of_int (z : Z) : result t :=
  match binary_normalize prec emax z 0 false with
  | S754_infinity _ => Raise OverflowError
  | f => Ok f
  end.

(** The float of a small integer literal such as [100]. *)
Definition of_small_int (z : Z) : t := binary_normalize prec emax z 0 false.

(** [int(x)] for a float: truncation toward zero; [ValueError] on NaN,
    [OverflowError] on an infinity. *)
Definition to_int (x : t) : result Z :=
  match x with
  | S754_zero _ => Ok 0
  | S754_nan => Raise ValueError
  | S754_infinity _ => Raise OverflowError
  | S754_finite s m e =>
      let a := if 0 <=? e then Z.shiftl (Zpos m) e else Z.shiftr (Zpos m) (- e) in
      Ok (if s then - a else a)
  end.

(** *** [float(s)] for a string *)

Definition is_digit (c : ascii) : bool :=
  let n := nat_of_ascii c in (48 <=? n)%nat && (n <=? 57)%nat.

Definition digit_val (c : ascii) : Z := Z.of_nat (nat_of_ascii c) - 48.

(** ASCII white space as [float] and [int] skip it ([Py_ISSPACE]): tab,
    line feed, vertical tab, form feed, carriage return and blank. *)
Definition is_space (c : ascii) : bool :=
  let n := nat_of_ascii c in
  ((9 <=? n)%nat && (n <=? 13)%nat) || (n =? 32)%nat.

Definition lower (c : ascii) : ascii :=
  let n := nat_of_ascii c in
  if (65 <=? n)%nat && (n <=? 90)%nat then ascii_of_nat (n + 32) else c.

Fixpoint drop_while (p : ascii -> bool) (l : list ascii) : list ascii :=
  match l with
  | [] => []
  | c :: r => if p c then drop_while p r else l
  end.

Definition strip (l : list ascii) : list ascii :=
  rev (drop_while is_space (rev (drop_while is_space l))).

Fixpoint span (p : ascii -> bool) (l : list ascii) : list ascii * list ascii :=
  match l with
  | [] => ([], [])
  | c :: r =>
      if p c then let (a, b) := span p r in (c :: a, b) else ([], l)
  end.

(** Underscores are accepted between two digits only and are removed
    before the number is read. *)
Fixpoint remove_underscores (prev : ascii) (l : list ascii) : option (list ascii) :=
  match l with
  | [] => if Ascii.eqb prev "_" then None else Some []
  | c :: r =>
      if Ascii.eqb c "_" then
        if is_digit prev then remove_underscores c r else None
      else if Ascii.eqb prev "_" && negb (is_digit c) then None
      else option_map (cons c) (remove_underscores c r)
  end.

Definition digits_value (ds : list ascii) : Z :=
  fold_left (fun acc c => 10 * acc + digit_val c) ds 0.

(** The correctly rounded binary64 value of [m * 10^e10]. *)
Definition of_decimal (neg : bool) (m : Z) (e10 : Z) : t :=
  match m with
  | Zpos p =>
      if 0 <=? e10 then
        binary_round prec emax neg (p * Z.to_pos (10 ^ e10)) 0
      else
        let '(q, e, l) := SFdiv_core_binary prec emax (Zpos p) 0 (10 ^ (- e10)) 0 in
        binary_round_aux prec emax neg q e l
  | _ => S754_zero neg
  end.

(** An optional sign: [true] for a minus. *)
Definition split_sign (l : list ascii) : bool * list ascii :=
  match l with
  | c :: r =>
      if Ascii.eqb c "-" then (true, r)
      else if Ascii.eqb c "+" then (false, r)
      else (false, l)
  | [] => (false, [])
  end.

(** The optional exponent part, which must end the string:
    [e] or [E], an optional sign, at least one digit. *)
Definition parse_exponent (l : list ascii) : option Z :=
  match l with
  | [] => Some 0
  | c :: r =>
      if Ascii.eqb (lower c) "e" then
        let '(neg, r') := split_sign r in
        match span is_digit r' with
        | (d :: ds, []) =>
            let v := digits_value (d :: ds) in Some (if neg then - v else v)
        | _ => None
        end
      else None
  end.

(** Digits, an optional point, digits (one digit at least), and the
    optional exponent. *)
Definition parse_decimal (neg : bool) (l : list ascii) : option t :=
  let '(ip, r1) := span is_digit l in
  let '(fp, r2) :=
    match r1 with
    | c :: r => if Ascii.eqb c "." then span is_digit r else ([], r1)
    | [] => ([], r1)
    end in
  match (ip ++ fp)%list with
  | [] => None
  | ds =>
      match parse_exponent r2 with
      | Some ex => Some (of_decimal neg (digits_value ds) (ex - Z.of_nat (List.length fp)))
      | None => None
      end
  end.

Definition parse_special (neg : bool) (l : list ascii) : option t :=
  let w := string_of_list_ascii (map lower l) in
  if String.eqb w "inf" || String.eqb w "infinity" then Some (S754_infinity neg)
  else if String.eqb w "nan" then Some S754_nan
  else None.

Definition parse_number (l : list ascii) : option t :=
  let '(neg, body) := split_sign l in
  match parse_decimal neg body with
  | Some f => Some f
  | None => parse_special neg body
  end.

(** [float(s)]: [None] stands for the [ValueError] of a string that is
    not a number.  The text is first brought to ASCII, which reads the
    decimal digits and the white space of every script. *)
Definition of_string (s : string) : option t :=
  match remove_underscores "000"%char
          (strip (Unicode.to_ascii (list_ascii_of_string s))) with
  | Some l => parse_number l
  | None => None
  end.

End PyFloat.

(** ** Python values *)

(** The values an amount field can hold.  [VOther] stands for an object
    that is neither a number nor a string and has no float conversion
    (a list, a dict). *)
Inductive pyval : Type :=
| VNone
| VBool (b : bool)
| VInt (z : Z)
| VFloat (f : PyFloat.t)
| VStr (s : string)
| VOther.

(** The builtin [float(v)]. *)
Definition py_float (v : pyval) : result PyFloat.t :=
  match v with
  | VStr s =>
      match PyFloat.of_string s with
      | Some f => Ok f
      | None => Raise ValueError
      end
  | VInt z => PyFloat.of_int z
  | VBool b => PyFloat.of_int (if b then 1 else 0)
  | VFloat f => Ok f
  | VNone | VOther => Raise TypeError
  end.

(** [s.replace(',', '')] *)
Fixpoint remove_commas (s : string) : string :=
  match s with
  | EmptyString => EmptyString
  | String c r =>
      if Ascii.eqb c "," then remove_commas r else String c (remove_commas r)
  end.

(** [try: body  except (ValueError, TypeError): return dflt] *)
Definition except_value_or_type {A : Type} (body : result A) (dflt : A) : result A :=
  match body with
  | Raise ValueError | Raise TypeError => Ok dflt
  | r => r
  end.

(** ** utils.py *)

(** [safe_convert], src/utils.py lines 53-64. *)
Definition safe_convert (value : pyval) : result PyFloat.t :=
  except_value_or_type
    (match value with
     | VStr s => py_float (VStr (remove_commas s))
     | VInt _ | VBool _ | VFloat _ => py_float value
     | _ => Ok PyFloat.pzero
     end)
    PyFloat.pzero.

(** ** Line items *)

(** One row of the disclosure API, with the fields the aggregation reads.
    Every row carries every field and, in the answers of the API, every
    amount is a text.  A data frame keeps such rows as they are, and the
    round trip of the multi-year paths through [pandas.DataFrame],
    [iterrows] and [to_dict] is therefore left out of the embedding.
    Where an amount column holds numbers and [None] only, pandas would
    make it a column of floats and turn [None] into NaN: for such rows
    the multi-year definitions below follow the source only up to that
    conversion. *)
Record item : Type := {
  bsns_year : string;
  fs_div : string;
  sj_div : string;
  account_nm : string;
  thstrm_amount : pyval;
  frmtrm_amount : pyval
}.

(** ** Python dictionaries with string keys, in insertion order *)

Module Dict.

Definition t (V : Type) : Type := list (string * V).

Definition empty {V : Type} : t V := [].

Fixpoint get {V : Type} (d : t V) (k : string) : option V :=
  match d with
  | [] => None
  | (k', v) :: r => if String.eqb k' k then Some v else get r k
  end.

Definition mem {V : Type} (d : t V) (k : string) : bool :=
  match get d k with Some _ => true | None => false end.

(** [d[k] = v]: an existing key keeps its position. *)
Fixpoint set {V : Type} (d : t V) (k : string) (v : V) : t V :=
  match d with
  | [] => [(k, v)]
  | (k', v') :: r =>
      if String.eqb k' k then (k', v) :: r else (k', v') :: set r k v
  end.

Definition keys {V : Type} (d : t V) : list string := map fst d.

Definition len {V : Type} (d : t V) : nat := List.length d.

End Dict.

(** [{item['account_nm']: item for item in data}] *)
Definition account_dict (data : list item) : Dict.t item :=
  fold_left (fun d it => Dict.set d (account_nm it) it) data Dict.empty.

(** [d.get(name, {}).get('thstrm_amount', 0)] *)
Definition current_amount (d : Dict.t item) (name : string) : pyval :=
  match Dict.get d name with
  | Some it => thstrm_amount it
  | None => VInt 0
  end.

(** The account names, as UTF-8 strings. *)
Definition acc_total_assets : string := "자산총계".
Definition acc_total_liabilities : string := "부채총계".
Definition acc_total_equity : string := "자본총계".
Definition acc_revenue : string := "매출액".
Definition acc_operating_income : string := "영업이익".
Definition acc_net_income : string := "당기순이익".

(** ** chart_service.py *)

Definition hundred : PyFloat.t := PyFloat.of_small_int 100.

(** [(a / b) * 100] *)
Definition percent (a b : PyFloat.t) : PyFloat.t :=
  PyFloat.mul (PyFloat.div a b) hundred.

(** The lists handed to the bar traces and the table of a statement
    chart.  The text lists hold the integers [int(amount)] that
    [format_amount] then prints. *)
Record bar_chart : Type := {
  bar_account_names : list string;
  bar_current_amounts : list PyFloat.t;
  bar_previous_amounts : list PyFloat.t;
  bar_current_cho : list PyFloat.t;
  bar_previous_cho : list PyFloat.t;
  bar_tick_vals : list Z;
  bar_current_text : list Z;
  bar_previous_text : list Z;
  bar_delta_text : list Z
}.

(** One entry of the radar chart: the lists [ratio_names], [ratios],
    [account_names], [numerator_amounts] and [base_amounts] of the source
    grow together, so they are kept as one list of records.  The two
    amounts are the integers [int(x)] that [format_amount] then prints. *)
Record ratio_record : Type := {
  ratio_name : string;
  ratio : PyFloat.t;
  formula : string;
  numerator_amount : Z;
  base_amount : Z
}.

Record donut_chart : Type := {
  donut_debt : PyFloat.t;
  donut_equity : PyFloat.t;
  donut_debt_text : Z;
  donut_equity_text : Z
}.

Record trend_chart : Type := {
  trend_years : list string;
  trend_first : list pyval;
  trend_second : list pyval
}.

Inductive chart : Type :=
| BarChart (b : bar_chart)
| RadarChart (l : list ratio_record)
| DonutChart (d : donut_chart)
| TrendChart (c : trend_chart).

(** [charts.update(more)] *)
Definition dict_update {V : Type} (d more : Dict.t V) : Dict.t V :=
  fold_left (fun acc kv => Dict.set acc (fst kv) (snd kv)) more d.

Definition in_list (k : string) (l : list string) : bool :=
  existsb (String.eqb k) l.

(** The loop that keeps, for each account name, the first item only
    (lines 42-46 and 170-174). *)
Definition unique_by_account (data : list item) : Dict.t item :=
  fold_left
    (fun d it => if Dict.mem d (account_nm it) then d else Dict.set d (account_nm it) it)
    data Dict.empty.

Fixpoint bar_rows (unique_data : Dict.t item) (key_accounts : list string)
  : result (list (string * PyFloat.t * PyFloat.t)) :=
  match key_accounts with
  | [] => Ok []
  | account_name :: rest =>
      match Dict.get unique_data account_name with
      | Some it =>
          cur <- safe_convert (thstrm_amount it) ;;
          prev <- safe_convert (frmtrm_amount it) ;;
          rows <- bar_rows unique_data rest ;;
          Ok ((account_name, cur, prev) :: rows)
      | None => bar_rows unique_data rest
      end
  end.

Definition trillion : PyFloat.t := PyFloat.of_small_int 1000000000000.

(** [max(l) if l else dflt]: the first maximal element. *)
Definition py_max (l : list PyFloat.t) (dflt : PyFloat.t) : PyFloat.t :=
  match l with
  | [] => dflt
  | x :: r => fold_left (fun m y => if SFltb m y then y else m) r x
  end.

Definition tick_vals (max_val : Z) : list Z :=
  if max_val <=? 100 then [0; 25; 50; 75; 100]
  else if max_val <=? 200 then [0; 50; 100; 150; 200]
  else if max_val <=? 500 then [0; 100; 200; 300; 400; 500]
  else if max_val <=? 1000 then [0; 200; 400; 600; 800; 1000]
  else [0; 500; 1000; 1500; 2000].

(** A list comprehension whose element expression can raise. *)
Fixpoint map_result {A B : Type} (f : A -> result B) (l : list A) : result (list B) :=
  match l with
  | [] => Ok []
  | a :: r => b <- f a ;; bs <- map_result f r ;; Ok (b :: bs)
  end.

(** The body shared, line for line, by
    [create_balance_sheet_chart] and [create_income_statement_chart]. *)
Definition statement_chart (key_accounts : list string) (name : string)
    (data : list item) : result (Dict.t chart) :=
  match data with
  | [] => Ok Dict.empty
  | _ =>
      let filtered_data := filter (fun it => in_list (account_nm it) key_accounts) data in
      match filtered_data with
      | [] => Ok Dict.empty
      | _ =>
          rows <- bar_rows (unique_by_account filtered_data) key_accounts ;;
          let current_amounts := map (fun r => snd (fst r)) rows in
          let previous_amounts := map snd rows in
          let current_amounts_cho := map (fun a => PyFloat.div a trillion) current_amounts in
          let previous_amounts_cho := map (fun a => PyFloat.div a trillion) previous_amounts in
          let all_amounts := (current_amounts_cho ++ previous_amounts_cho)%list in
          let max_amount := py_max all_amounts hundred in
          max_val <- PyFloat.to_int max_amount ;;
          cur_text <- map_result PyFloat.to_int current_amounts ;;
          prev_text <- map_result PyFloat.to_int previous_amounts ;;
          delta_text <- map_result (fun cp => PyFloat.to_int (PyFloat.sub (fst cp) (snd cp)))
                          (combine current_amounts previous_amounts) ;;
          let b := {| bar_account_names := map (fun r => fst (fst r)) rows;
                      bar_current_amounts := current_amounts;
                      bar_previous_amounts := previous_amounts;
                      bar_current_cho := current_amounts_cho;
                      bar_previous_cho := previous_amounts_cho;
                      bar_tick_vals := tick_vals max_val;
                      bar_current_text := cur_text;
                      bar_previous_text := prev_text;
                      bar_delta_text := delta_text |} in
          Ok [(name, BarChart b); (name ++ "_table", BarChart b)]
      end
  end.

Definition create_balance_sheet_chart (bs_data : list item) : result (Dict.t chart) :=
  statement_chart [acc_total_assets; acc_total_liabilities; acc_total_equity]
    "balance_sheet" bs_data.

Definition create_income_statement_chart (is_data : list item) : result (Dict.t chart) :=
  statement_chart [acc_revenue; acc_operating_income; acc_net_income]
    "income_statement" is_data.

Definition name_roe : string := "ROE<br>(자기자본이익률)".
Definition name_roa : string := "ROA<br>(총자산이익률)".
Definition name_operating_margin : string := "영업이익률".
Definition name_net_margin : string := "순이익률".

(** One guarded block of the radar chart:
    [if base > 0: ratios.append((num / base) * 100); ...] *)
Definition ratio_block (name form : string) (num base : PyFloat.t)
  : result (list ratio_record) :=
  if PyFloat.gt0 base then
    n <- PyFloat.to_int num ;;
    b <- PyFloat.to_int base ;;
    Ok [{| ratio_name := name; ratio := percent num base; formula := form;
           numerator_amount := n; base_amount := b |}]
  else Ok [].

(** The ratio records computed by [create_profitability_radar_chart],
    lines 291-344. *)
Definition profitability_ratios (bs_data is_data : list item)
  : result (list ratio_record) :=
  match bs_data, is_data with
  | [], _ | _, [] => Ok []
  | _, _ =>
      let bs_dict := account_dict bs_data in
      let is_dict := account_dict is_data in
      net_income <- safe_convert (current_amount is_dict acc_net_income) ;;
      total_equity <- safe_convert (current_amount bs_dict acc_total_equity) ;;
      r1 <- ratio_block name_roe "당기순이익 / 자본총계" net_income total_equity ;;
      total_assets <- safe_convert (current_amount bs_dict acc_total_assets) ;;
      r2 <- ratio_block name_roa "당기순이익 / 자산총계" net_income total_assets ;;
      operating_income <- safe_convert (current_amount is_dict acc_operating_income) ;;
      revenue <- safe_convert (current_amount is_dict acc_revenue) ;;
      r3 <- ratio_block name_operating_margin "영업이익 / 매출액" operating_income revenue ;;
      r4 <- ratio_block name_net_margin "당기순이익 / 매출액" net_income revenue ;;
      Ok (r1 ++ r2 ++ r3 ++ r4)%list
  end.

(** [create_profitability_radar_chart]: no chart when no ratio was computed. *)
Definition create_profitability_radar_chart (bs_data is_data : list item)
  : result (Dict.t chart) :=
  ratios <- profitability_ratios bs_data is_data ;;
  match ratios with
  | [] => Ok Dict.empty
  | _ => Ok [("profitability_radar", RadarChart ratios)]
  end.

(** [create_debt_ratio_donut_chart], lines 401-431. *)
Definition create_debt_ratio_donut_chart (bs_data : list item) : result (Dict.t chart) :=
  match bs_data with
  | [] => Ok Dict.empty
  | _ =>
      let bs_dict := account_dict bs_data in
      total_debt <- safe_convert (current_amount bs_dict acc_total_liabilities) ;;
      total_equity <- safe_convert (current_amount bs_dict acc_total_equity) ;;
      if PyFloat.is_zero total_debt && PyFloat.is_zero total_equity then Ok Dict.empty
      else
        d <- PyFloat.to_int total_debt ;;
        e <- PyFloat.to_int total_equity ;;
        Ok [("debt_ratio_donut",
             DonutChart {| donut_debt := total_debt; donut_equity := total_equity;
                           donut_debt_text := d; donut_equity_text := e |})]
  end.

(** [create_combined_financial_ratios_chart], lines 383-399. *)
Definition create_combined_financial_ratios_chart (bs_data is_data : list item)
  : result (Dict.t chart) :=
  profitability_chart <- create_profitability_radar_chart bs_data is_data ;;
  let charts := dict_update Dict.empty profitability_chart in
  debt_chart <- create_debt_ratio_donut_chart bs_data ;;
  Ok (dict_update charts debt_chart).

Definition nonempty {A : Type} (l : list A) : bool :=
  match l with [] => false | _ => true end.

(** The split of the single-year path, lines 440-441. *)
Definition single_year_bs (financial_data : list item) : list item :=
  filter (fun it => String.eqb (sj_div it) "BS") financial_data.

Definition single_year_is (financial_data : list item) : list item :=
  filter (fun it => String.eqb (sj_div it) "IS") financial_data.

(** The four numbered steps of [create_financial_charts], lines 445-483,
    on the two lists of the split. *)
Definition financial_charts_of (bs_data is_data : list item) : result (Dict.t chart) :=
  let charts := Dict.empty in
  charts <- (if nonempty bs_data then
               bs_chart <- create_balance_sheet_chart bs_data ;;
               Ok (dict_update charts bs_chart)
             else Ok charts) ;;
  charts <- (if nonempty is_data then
               is_chart <- create_income_statement_chart is_data ;;
               Ok (dict_update charts is_chart)
             else Ok charts) ;;
  charts <- (if nonempty bs_data && nonempty is_data then
               profitability_chart <- create_profitability_radar_chart bs_data is_data ;;
               debt_ratio_chart <- create_debt_ratio_donut_chart bs_data ;;
               Ok (dict_update (dict_update charts profitability_chart) debt_ratio_chart)
             else Ok charts) ;;
  charts <- (if nonempty bs_data && nonempty is_data then
               combined_charts <- create_combined_financial_ratios_chart bs_data is_data ;;
               Ok (dict_update charts combined_charts)
             else Ok charts) ;;
  Ok charts.

(** [create_financial_charts], lines 433-483. *)
Definition create_financial_charts (financial_data : list item) : result (Dict.t chart) :=
  match financial_data with
  | [] => Ok Dict.empty
  | _ =>
      financial_charts_of (single_year_bs financial_data) (single_year_is financial_data)
  end.

(** *** The multi-year path *)

Record year_groups : Type := {
  BS : list item;
  IS : list item
}.

Definition append_BS (row : item) (g : year_groups) : year_groups :=
  {| BS := (BS g ++ [row])%list; IS := IS g |}.

Definition append_IS (row : item) (g : year_groups) : year_groups :=
  {| BS := BS g; IS := (IS g ++ [row])%list |}.

(** [d[k] = f(d[k])] for a key that is present. *)
Definition dict_modify {V : Type} (d : Dict.t V) (k : string) (f : V -> V) : Dict.t V :=
  match Dict.get d k with
  | Some v => Dict.set d k (f v)
  | None => d
  end.

(** One turn of the grouping loop (chart_service.py lines 495-507,
    app.py lines 237-249; the two loops are the same text), on the rows
    as the data frame hands them back: see [item]. *)
Definition group_row (year_data : Dict.t year_groups) (row : item) : Dict.t year_groups :=
  let year := bsns_year row in
  let year_data :=
    if Dict.mem year_data year then year_data
    else Dict.set year_data year {| BS := []; IS := [] |} in
  let fs := fs_div row in
  if in_list fs ["BS"; "IS"; "CFS"] then
    if String.eqb fs "CFS" then
      dict_modify (dict_modify year_data year (append_BS row)) year (append_IS row)
    else if String.eqb fs "BS" then dict_modify year_data year (append_BS row)
    else dict_modify year_data year (append_IS row)
  else year_data.

Definition group_by_year (financial_data : list item) : Dict.t year_groups :=
  fold_left group_row financial_data Dict.empty.

(** [sorted] on strings: a stable insertion sort by the order of [str],
    which compares code points, that is, the bytes of the UTF-8 form. *)
Fixpoint insert_sorted (x : string) (l : list string) : list string :=
  match l with
  | [] => [x]
  | y :: r => if String.ltb x y then x :: l else y :: insert_sorted x r
  end.

Definition sorted (l : list string) : list string :=
  fold_left (fun acc x => insert_sorted x acc) l [].

(** [(num / base) * 100 if base > 0 else 0]: the else branch is the
    integer [0]. *)
Definition ratio_or_zero (num base : PyFloat.t) : pyval :=
  if PyFloat.gt0 base then VFloat (percent num base) else VInt 0.

(** The loop of [create_ratio_trend_chart], lines 529-548. *)
Fixpoint ratio_trend_values (year_data : Dict.t year_groups) (years : list string)
  : result (list pyval * list pyval) :=
  match years with
  | [] => Ok ([], [])
  | year :: rest =>
      match Dict.get year_data year with
      | None => Raise KeyError
      | Some g =>
          if negb (nonempty (BS g)) || negb (nonempty (IS g)) then
            ratio_trend_values year_data rest
          else
            let bs_dict := account_dict (BS g) in
            let is_dict := account_dict (IS g) in
            net_income <- safe_convert (current_amount is_dict acc_net_income) ;;
            total_equity <- safe_convert (current_amount bs_dict acc_total_equity) ;;
            let roe := ratio_or_zero net_income total_equity in
            total_assets <- safe_convert (current_amount bs_dict acc_total_assets) ;;
            let roa := ratio_or_zero net_income total_assets in
            vs <- ratio_trend_values year_data rest ;;
            Ok (roe :: fst vs, roa :: snd vs)
      end
  end.

Definition create_ratio_trend_chart (year_data : Dict.t year_groups) : result (Dict.t chart) :=
  let years := sorted (Dict.keys year_data) in
  vs <- ratio_trend_values year_data years ;;
  match fst vs with
  | [] => Ok Dict.empty
  | _ => Ok [("ratio_trend",
              TrendChart {| trend_years := years; trend_first := fst vs;
                            trend_second := snd vs |})]
  end.

(** The loop of [create_indicator_trend_chart], lines 590-602. *)
Fixpoint indicator_trend_values (year_data : Dict.t year_groups) (years : list string)
  : result (list pyval * list pyval) :=
  match years with
  | [] => Ok ([], [])
  | year :: rest =>
      match Dict.get year_data year with
      | None => Raise KeyError
      | Some g =>
          if negb (nonempty (IS g)) then indicator_trend_values year_data rest
          else
            let is_dict := account_dict (IS g) in
            revenue <- safe_convert (current_amount is_dict acc_revenue) ;;
            net_income <- safe_convert (current_amount is_dict acc_net_income) ;;
            vs <- indicator_trend_values year_data rest ;;
            Ok (VFloat revenue :: fst vs, VFloat net_income :: snd vs)
      end
  end.

Definition create_indicator_trend_chart (year_data : Dict.t year_groups)
  : result (Dict.t chart) :=
  let years := sorted (Dict.keys year_data) in
  vs <- indicator_trend_values year_data years ;;
  match fst vs with
  | [] => Ok Dict.empty
  | _ => Ok [("indicator_trend",
              TrendChart {| trend_years := years; trend_first := fst vs;
                            trend_second := snd vs |})]
  end.

(** [create_period_charts], lines 485-521. *)
Definition create_period_charts (financial_data : list item) : result (Dict.t chart) :=
  match financial_data with
  | [] => Ok Dict.empty
  | _ =>
      let year_data := group_by_year financial_data in
      ratio_trends <- create_ratio_trend_chart year_data ;;
      let charts := dict_update Dict.empty ratio_trends in
      indicator_trends <- create_indicator_trend_chart year_data ;;
      Ok (dict_update charts indicator_trends)
  end.

(** ** app.py *)

Record metrics : Type := {
  revenue : PyFloat.t;
  net_income : PyFloat.t;
  total_assets : PyFloat.t;
  total_equity : PyFloat.t;
  roe : pyval;
  roa : pyval
}.

Record summary : Type := {
  period : string;
  total_years : nat;
  years : list string;
  key_metrics : Dict.t metrics
}.

(** The loop of [_create_analysis_summary] over the sorted years,
    lines 260-283.  The amounts go through the builtin [float]. *)
Fixpoint summary_metrics (year_data : Dict.t year_groups) (ys : list string)
    (key_metrics : Dict.t metrics) : result (Dict.t metrics) :=
  match ys with
  | [] => Ok key_metrics
  | year :: rest =>
      match Dict.get year_data year with
      | None => Raise KeyError
      | Some g =>
          if negb (nonempty (BS g)) || negb (nonempty (IS g)) then
            summary_metrics year_data rest key_metrics
          else
            let bs_dict := account_dict (BS g) in
            let is_dict := account_dict (IS g) in
            revenue <- py_float (current_amount is_dict acc_revenue) ;;
            net_income <- py_float (current_amount is_dict acc_net_income) ;;
            total_assets <- py_float (current_amount bs_dict acc_total_assets) ;;
            total_equity <- py_float (current_amount bs_dict acc_total_equity) ;;
            summary_metrics year_data rest
              (Dict.set key_metrics year
                 {| revenue := revenue;
                    net_income := net_income;
                    total_assets := total_assets;
                    total_equity := total_equity;
                    roe := ratio_or_zero net_income total_equity;
                    roa := ratio_or_zero net_income total_assets |})
      end
  end.

(** The [try] block of [_create_analysis_summary], lines 231-285. *)
Definition analysis_summary_body (financial_data : list item) (start_year end_year : string)
  : result summary :=
  let year_data := group_by_year financial_data in
  km <- summary_metrics year_data (sorted (Dict.keys year_data)) Dict.empty ;;
  Ok {| period := start_year ++ "년 ~ " ++ end_year ++ "년";
        total_years := Dict.len year_data;
        years := sorted (Dict.keys year_data);
        key_metrics := km |}.

(** [_create_analysis_summary], lines 228-289: every exception of the
    body is caught and the method then returns [None]. *)
Definition _create_analysis_summary (financial_data : list item)
    (start_year end_year : string) : option summary :=
  match analysis_summary_body financial_data start_year end_year with
  | Ok s => Some s
  | Raise _ => None
  end.

(** ** More builtins: [str(n)], [int(s)], [in], [lower], [zfill], [/] *)

Definition digit_char (d : Z) : ascii := ascii_of_nat (Z.to_nat (48 + d)).

(** The decimal digits of [n >= 0], most significant first, in front of
    [acc]. *)
Fixpoint digits_of (fuel : nat) (n : Z) (acc : list ascii) : list ascii :=
  match fuel with
  | O => acc
  | S f =>
      let acc' := digit_char (n mod 10) :: acc in
      if n <? 10 then acc' else digits_of f (n / 10) acc'
  end.

Definition decimal_digits (n : Z) : list ascii :=
  digits_of (S (Z.to_nat (Z.log2 n))) n [].

(** [str(n)] for an int. *)
Definition py_str_int (n : Z) : string :=
  string_of_list_ascii
    (if n <? 0 then "-"%char :: decimal_digits (- n) else decimal_digits n).

(** [int(s)] in base 10: the text brought to ASCII as for [float], white
    space around, an optional sign, digits with single underscores
    between them; [None] stands for [ValueError].  The digit limit of
    Python 3.11 is left out. *)
Definition py_int (s : string) : option Z :=
  match PyFloat.remove_underscores "000"%char
          (PyFloat.strip (Unicode.to_ascii (list_ascii_of_string s))) with
  | Some l =>
      let '(neg, body) := PyFloat.split_sign l in
      match PyFloat.span PyFloat.is_digit body with
      | (d :: ds, []) =>
          let v := PyFloat.digits_value (d :: ds) in Some (if neg then - v else v)
      | _ => None
      end
  | None => None
  end.

(** [needle in hay] on strings. *)
Fixpoint str_contains (needle hay : string) : bool :=
  String.prefix needle hay ||
  match hay with
  | String _ r => str_contains needle r
  | EmptyString => false
  end.

(** [s.lower()] *)
Definition str_lower (s : string) : string :=
  string_of_list_ascii (Unicode.lower (list_ascii_of_string s)).

(** [s.zfill(width)]; the width counts code points. *)
Definition zfill (width : nat) (s : string) : string :=
  let n := Unicode.char_count (list_ascii_of_string s) in
  if (width <=? n)%nat then s
  else
    let zeros := string_of_list_ascii (repeat "0"%char (width - n)) in
    match s with
    | String c r =>
        if Ascii.eqb c "+" || Ascii.eqb c "-" then String c (zeros ++ r)
        else zeros ++ s
    | EmptyString => zeros
    end.

(** [a / b] on ints, for a positive [b]: the nearest binary64 number to
    the quotient, [OverflowError] when it is out of range. *)
Definition true_div (a : Z) (b : positive) : result PyFloat.t :=
  let round (s : bool) (p : positive) :=
    let '(q, e, l) :=
      SFdiv_core_binary PyFloat.prec PyFloat.emax (Zpos p) 0 (Zpos b) 0 in
    match binary_round_aux PyFloat.prec PyFloat.emax s q e l with
    | S754_infinity _ => Raise OverflowError
    | f => Ok f
    end in
  match a with
  | Z0 => Ok PyFloat.pzero
  | Zpos p => round false p
  | Zneg p => round true p
  end.

(** [num / den] rounded to the nearest integer, ties to even. *)
Definition round_half_even (num den : Z) : Z :=
  let q := num / den in
  match 2 * (num mod den) ?= den with
  | Lt => q
  | Gt => q + 1
  | Eq => if Z.even q then q else q + 1
  end.

(** [f"{x:.1f}"]: the exact value of the float, rounded to one decimal,
    ties to even. *)
Definition format_1f (x : PyFloat.t) : string :=
  match x with
  | S754_zero s => (if s then "-" else "") ++ "0.0"
  | S754_infinity s => if s then "-inf" else "inf"
  | S754_nan => "nan"
  | S754_finite s m e =>
      let tenths :=
        if 0 <=? e then Zpos m * 2 ^ e * 10
        else round_half_even (Zpos m * 10) (2 ^ (- e)) in
      (if s then "-" else "") ++ py_str_int (tenths / 10) ++ "." ++ py_str_int (tenths mod 10)
  end.

(** Commas between groups of three digits, on the reversed digits. *)
Fixpoint group_thousands_rev (l : list ascii) : list ascii :=
  match l with
  | a :: b :: c :: ((_ :: _) as r) => a :: b :: c :: ","%char :: group_thousands_rev r
  | _ => l
  end.

(** [f"{n:,}"] *)
Definition format_comma (n : Z) : string :=
  let ds := rev (group_thousands_rev (rev (decimal_digits (Z.abs n)))) in
  string_of_list_ascii (if n <? 0 then "-"%char :: ds else ds).

(** ** utils.py: formatting, messages, search *)

(** The argument of [format_amount]: [Union[str, int, float]]. *)
Inductive amount_arg : Type :=
| AStr (s : string)
| AInt (z : Z)
| AFloat (f : PyFloat.t).

(** What [format_amount] returns: a text, or [str(f)] of a float, whose
    digits are not modelled. *)
Inductive amount_text : Type :=
| Text (s : string)
| FloatStr (f : PyFloat.t).

(** Lines 41-48 of [format_amount], on the parsed amount. *)
Definition format_units (amount : Z) : result string :=
  if 1000000000000 <=? Z.abs amount then
    x <- true_div amount 1000000000000 ;; Ok (format_1f x ++ "조")
  else if 100000000 <=? Z.abs amount then
    x <- true_div amount 100000000 ;; Ok (format_1f x ++ "억")
  else if 10000 <=? Z.abs amount then
    x <- true_div amount 10000 ;; Ok (format_1f x ++ "만")
  else Ok (format_comma amount).

(** [format_amount], src/utils.py lines 31-50.  [str] of a float always
    holds a point, an exponent, [inf] or [nan], so [int] raises on it
    and the float is returned as its own [str]. *)
Definition format_amount (amount_str : amount_arg) : result amount_text :=
  let parse (s : string) :=
    match py_int (remove_commas s) with
    | Some amount => t <- format_units amount ;; Ok (Text t)
    | None => Ok (Text s)
    end in
  match amount_str with
  | AStr s =>
      if String.eqb s "" || String.eqb s "-" then Ok (Text "0") else parse s
  | AInt z => if z =? 0 then Ok (Text "0") else parse (py_str_int z)
  | AFloat f => if PyFloat.is_zero f then Ok (Text "0") else Ok (FloatStr f)
  end.

(** [get_report_name], lines 67-75. *)
Definition report_names : Dict.t string :=
  [ ("11011", "사업보고서");
    ("11012", "반기보고서");
    ("11013", "1분기보고서");
    ("11014", "3분기보고서") ].

Definition get_report_name (report_code : string) : string :=
  match Dict.get report_names report_code with
  | Some name => name
  | None => report_code
  end.

Definition newline : string := String "010"%char EmptyString.

Definition no_data_phrase : string := "조회된 데이타가 없습니다".

(** The tail the two messages share. *)
Definition message_hint : string :=
  newline ++ newline ++ "💡 다른 연도나 보고서 유형을 선택해보세요.".

(** [status == '013' and message and '조회된 데이타가 없습니다' in message] *)
Definition no_data_status (status message : option string) : bool :=
  match status, message with
  | Some st, Some msg =>
      String.eqb st "013" && negb (String.eqb msg "") && str_contains no_data_phrase msg
  | _, _ => false
  end.

(** [create_user_friendly_error_message], lines 78-92. *)
Definition create_user_friendly_error_message
    (corp_name corp_code year report_code : string)
    (status message : option string) : string :=
  let report_name := get_report_name report_code in
  if no_data_status status message then
    "📊 " ++ corp_name ++ "(" ++ corp_code ++ ")의 " ++ year ++ "년 " ++ report_name
      ++ " 데이터를 찾을 수 없습니다." ++ message_hint
  else
    "📊 " ++ corp_name ++ "(" ++ corp_code ++ ")의 " ++ year ++ "년 " ++ report_name
      ++ " 데이터 조회 중 오류가 발생했습니다." ++ message_hint.

(** One result of the company search. *)
Record search_hit : Type := {
  hit_corp_name : string;
  hit_corp_code : string;
  hit_stock_code : string
}.

(** [d[k]]: [KeyError] for a missing key. *)
Definition dict_item {V : Type} (d : Dict.t V) (k : string) : result V :=
  match Dict.get d k with
  | Some v => Ok v
  | None => Raise KeyError
  end.

(** The loop of [search_company], lines 121-127. *)
Fixpoint search_loop (company_name_lower : string)
    (entries : list (string * Dict.t string)) : result (list search_hit) :=
  match entries with
  | [] => Ok []
  | (corp_name, corp_info) :: rest =>
      if str_contains company_name_lower (str_lower corp_name) then
        code <- dict_item corp_info "corp_code" ;;
        stock <- dict_item corp_info "stock_code" ;;
        hits <- search_loop company_name_lower rest ;;
        Ok ({| hit_corp_name := corp_name; hit_corp_code := code;
               hit_stock_code := stock |} :: hits)
      else search_loop company_name_lower rest
  end.

(** [search_company], lines 113-129. *)
Definition search_company (company_name : string)
    (corp_database : Dict.t (Dict.t string)) : result (list search_hit) :=
  if String.eqb company_name "" || negb (nonempty corp_database) then Ok []
  else
    results <- search_loop (str_lower company_name) corp_database ;;
    Ok (firstn 10 results).

(** ** data_service.py and the range query of opendart_client.py *)

(** A value of the parsed JSON answer. *)
Inductive json : Type :=
| JNull
| JStr (s : string)
| JItems (l : list item)
| JInts (l : list Z).

(** The answer of the API client, when it is not [None]: a JSON object. *)
Definition response : Type := Dict.t json.

(** Truth value of a JSON value. *)
Definition truthy (v : json) : bool :=
  match v with
  | JNull => false
  | JStr s => negb (String.eqb s "")
  | JItems l => nonempty l
  | JInts l => nonempty l
  end.

(** ['status' in data and data.get('status') != '000'] *)
Definition error_status (data : response) : bool :=
  match Dict.get data "status" with
  | Some (JStr s) => negb (String.eqb s "000")
  | Some _ => true
  | None => false
  end.

(** [data.get(key)] as the optional string the message builder tests;
    [data.get('message', '')] is the string itself or [''] when absent. *)
Definition json_string (v : option json) : option string :=
  match v with
  | Some (JStr s) => Some s
  | _ => None
  end.

(** The second component of the pair the service returns. *)
Inductive error_message : Type :=
| Friendly (text : string)
| FormatError (data : response)
| FetchError (e : exn).

(** The body shared by [get_financial_data_with_error_handling] (lines
    57-95) and [get_financial_data_range_with_error_handling] (lines
    97-136), on the outcome of the client call; [year] is the year, or
    the text [start-end]. *)
Definition handle_response (fetched : result (option response))
    (corp_name corp_code year report_code : string)
  : option json * option error_message :=
  match fetched with
  | Raise e => (None, Some (FetchError e))
  | Ok None =>
      (None, Some (Friendly (create_user_friendly_error_message
                               corp_name corp_code year report_code None None)))
  | Ok (Some data) =>
      if negb (nonempty data) then
        (None, Some (Friendly (create_user_friendly_error_message
                                 corp_name corp_code year report_code None None)))
      else if error_status data then
        (None, Some (Friendly (create_user_friendly_error_message
                                 corp_name corp_code year report_code
                                 (json_string (Dict.get data "status"))
                                 (match Dict.get data "message" with
                                  | None => Some ""
                                  | v => json_string v
                                  end))))
      else
        match Dict.get data "list" with
        | None => (None, Some (FormatError data))
        | Some l =>
            if negb (truthy l) then
              (None, Some (Friendly (create_user_friendly_error_message
                                       corp_name corp_code year report_code None None)))
            else (Some l, None)
        end
  end.

(** The client: [get_financial_info] is the request with the padded
    company code, an opaque function here. *)
Definition api : Type := string -> string -> string -> result (option response).

Definition get_financial_info (request : api) (corp_code year report_code : string)
  : result (option response) :=
  request (zfill 8 corp_code) year report_code.

Definition get_financial_data_with_error_handling (request : api)
    (corp_code year report_code corp_name : string)
  : option json * option error_message :=
  handle_response (get_financial_info request corp_code year report_code)
    corp_name corp_code year report_code.

(** [item['bsns_year'] = str(year)] *)
Definition set_year (year : Z) (it : item) : item :=
  {| bsns_year := py_str_int year; fs_div := fs_div it; sj_div := sj_div it;
     account_nm := account_nm it; thstrm_amount := thstrm_amount it;
     frmtrm_amount := frmtrm_amount it |}.

(** The rows one year adds in [get_financial_info_range], lines 184-208:
    nothing on an exception, on an error status, or on an empty or
    missing list. *)
Definition year_rows (request : api) (corp_code report_code : string) (year : Z)
  : list item :=
  match get_financial_info request corp_code (py_str_int year) report_code with
  | Ok (Some data) =>
      if error_status data then []
      else if nonempty data then
        match Dict.get data "list" with
        | Some (JItems l) => map (set_year year) l
        | _ => []
        end
      else []
  | _ => []
  end.

(** [range(a, b + 1)] *)
Definition py_range_incl (a b : Z) : list Z :=
  map (fun i => a + Z.of_nat i) (seq 0 (Z.to_nat (b + 1 - a))).

(** The loop of [get_financial_info_range], lines 182-208. *)
Fixpoint range_loop (request : api) (corp_code report_code : string) (years : list Z)
  : list item * list Z :=
  match years with
  | [] => ([], [])
  | year :: rest =>
      let rows := year_rows request corp_code report_code year in
      let '(all_data, successful_years) := range_loop request corp_code report_code rest in
      match rows with
      | [] => (all_data, successful_years)
      | _ => ((rows ++ all_data)%list, year :: successful_years)
      end
  end.

(** [get_financial_info_range], lines 176-215; the [ValueError] of
    [int(start_year)] leaves the method. *)
Definition get_financial_info_range (request : api)
    (corp_code start_year end_year report_code : string) : result (option response) :=
  let corp_code := zfill 8 corp_code in
  match py_int start_year, py_int end_year with
  | Some a, Some b =>
      let '(all_data, successful_years) :=
        range_loop request corp_code report_code (py_range_incl a b) in
      if nonempty all_data then
        Ok (Some [("list", JItems all_data); ("years", JInts successful_years)])
      else Ok None
  | _, _ => Raise ValueError
  end.

Definition get_financial_data_range_with_error_handling (request : api)
    (corp_code start_year end_year report_code corp_name : string)
  : option json * option error_message :=
  handle_response (get_financial_info_range request corp_code start_year end_year report_code)
    corp_name corp_code (start_year ++ "-" ++ end_year) report_code.

(** [get_financial_data], src/data_service.py lines 22-55: the fetcher
    without messages; it does not look at the status. *)
Definition get_financial_data (request : api) (corp_code year report_code : string)
  : option json :=
  match get_financial_info request corp_code year report_code with
  | Ok (Some data) =>
      if negb (nonempty data) then None
      else
        match Dict.get data "list" with
        | None => None
        | Some l => if negb (truthy l) then None else Some l
        end
  | _ => None
  end.

(** ** Vocabulary of the properties, and sample inputs *)

Definition named (k : string) (it : item) : bool := String.eqb (account_nm it) k.

Definition empty_groups : year_groups := {| BS := []; IS := [] |}.

(** What one row does to the groups of its own year. *)
Definition route (row : item) (g : year_groups) : year_groups :=
  let fs := fs_div row in
  if in_list fs ["BS"; "IS"; "CFS"] then
    if String.eqb fs "CFS" then append_IS row (append_BS row g)
    else if String.eqb fs "BS" then append_BS row g
    else append_IS row g
  else g.

Definition to_BS (y : string) (row : item) : bool :=
  String.eqb (bsns_year row) y &&
  (String.eqb (fs_div row) "BS" || String.eqb (fs_div row) "CFS").

Definition to_IS (y : string) (row : item) : bool :=
  String.eqb (bsns_year row) y &&
  (String.eqb (fs_div row) "IS" || String.eqb (fs_div row) "CFS").

Definition in_year (y : string) (row : item) : bool := String.eqb (bsns_year row) y.

(** A row as the API delivers it: every field a string. *)
Definition mk_item (year fs sj name amount : string) : item :=
  {| bsns_year := year; fs_div := fs; sj_div := sj; account_nm := name;
     thstrm_amount := VStr amount; frmtrm_amount := VStr "0" |}.

Definition sample_cfs_row : item := mk_item "2022" "CFS" "IS" acc_revenue "500,000".

Definition sample_rows : list item :=
  [ mk_item "2022" "BS" "BS" acc_total_assets "1,000,000";
    sample_cfs_row;
    mk_item "2022" "OFS" "BS" acc_total_equity "600,000";
    mk_item "2021" "IS" "IS" acc_net_income "60,000" ].

(** The amount of account [name] in a group, as the ratio deriver reads
    it: looked up in the account dictionary, then normalized. *)
Definition normalized (data : list item) (name : string) : result PyFloat.t :=
  safe_convert (current_amount (account_dict data) name).


(** A ratio of that name is in the output; an output that raised holds
    no ratio. *)
Definition emits (name : string) (out : result (list ratio_record)) : Prop :=
  match out with
  | Ok recs => In name (map ratio_name recs)
  | Raise _ => False
  end.


(** A balance sheet group with total equity only, and an income
    statement group with revenue but no net income. *)
Definition equity_only_bs : list item :=
  [ mk_item "2022" "BS" "BS" acc_total_equity "600,000" ].

Definition revenue_only_is : list item :=
  [ mk_item "2022" "IS" "IS" acc_revenue "500,000" ].

(** A year in which total equity is listed twice. *)
Definition duplicate_equity_rows : list item :=
  [ mk_item "2022" "BS" "BS" acc_total_equity "100";
    mk_item "2022" "BS" "BS" acc_total_equity "200";
    mk_item "2022" "IS" "IS" acc_net_income "50" ].

Definition comma_amount_rows : list item :=
  [ mk_item "2022" "BS" "BS" acc_total_equity "600,000";
    mk_item "2022" "IS" "IS" acc_net_income "60,000" ].

Definition dash_amount_rows : list item :=
  [ mk_item "2022" "BS" "BS" acc_total_equity "600000";
    mk_item "2022" "IS" "IS" acc_net_income "60000";
    mk_item "2022" "IS" "IS" acc_revenue "-" ].


Definition str_le (a b : string) : Prop := String.leb a b = true.

(** The number a string of ASCII digits denotes: [int(s)]. *)
Definition year_number (s : string) : Z :=
  PyFloat.digits_value (list_ascii_of_string s).

(** A string of exactly [n] ASCII digits. *)
Definition digits_of_width (n : nat) (s : string) : Prop :=
  String.length s = n /\
  Forall (fun c => PyFloat.is_digit c = true) (list_ascii_of_string s).

(** The metric bundle the summary computes from the groups of a year. *)
Definition bundle_of (g : year_groups) (b : metrics) : Prop :=
  py_float (current_amount (account_dict (IS g)) acc_revenue) = Ok (revenue b) /\
  py_float (current_amount (account_dict (IS g)) acc_net_income) = Ok (net_income b) /\
  py_float (current_amount (account_dict (BS g)) acc_total_assets) = Ok (total_assets b) /\
  py_float (current_amount (account_dict (BS g)) acc_total_equity) = Ok (total_equity b) /\
  roe b = ratio_or_zero (net_income b) (total_equity b) /\
  roa b = ratio_or_zero (net_income b) (total_assets b).

(** The test of line 264: both groups of the year hold an item. *)
Definition included (year_data : Dict.t year_groups) (y : string) : bool :=
  match Dict.get year_data y with
  | Some g => nonempty (BS g) && nonempty (IS g)
  | None => false
  end.

(** The range 2021-2022 in which 2021 has an income statement only. *)
Definition income_only_2021_rows : list item :=
  [ mk_item "2021" "IS" "IS" acc_net_income "50";
    mk_item "2022" "BS" "BS" acc_total_equity "200";
    mk_item "2022" "IS" "IS" acc_net_income "50" ].

(** Two years of different width. *)
Definition mixed_width_rows : list item :=
  [ mk_item "999" "IS" "IS" acc_net_income "50";
    mk_item "2021" "BS" "BS" acc_total_equity "200" ].

Definition three_year_rows : list item :=
  [ mk_item "2019" "BS" "BS" acc_total_equity "200";
    mk_item "2021" "BS" "BS" acc_total_equity "200";
    mk_item "2020" "BS" "BS" acc_total_equity "200" ].

Definition zero_equity_rows : list item :=
  [ mk_item "2022" "BS" "BS" acc_total_equity "0";
    mk_item "2022" "BS" "BS" acc_total_assets "1000000";
    mk_item "2022" "IS" "IS" acc_net_income "60000" ].

Definition negative_equity_rows : list item :=
  [ mk_item "2022" "BS" "BS" acc_total_equity "-500";
    mk_item "2022" "BS" "BS" acc_total_assets "1000000";
    mk_item "2022" "IS" "IS" acc_net_income "60000";
    mk_item "2022" "IS" "IS" acc_revenue "-10" ].

(** The example of the specification: total assets 1,000,000, total
    liabilities 400,000, total equity 600,000; revenue 500,000, operating
    income 100,000, net income 60,000. *)
Definition spec_example_bs : list item :=
  [ mk_item "2022" "BS" "BS" acc_total_assets "1,000,000";
    mk_item "2022" "BS" "BS" acc_total_liabilities "400,000";
    mk_item "2022" "BS" "BS" acc_total_equity "600,000" ].

Definition spec_example_is : list item :=
  [ mk_item "2022" "IS" "IS" acc_revenue "500,000";
    mk_item "2022" "IS" "IS" acc_operating_income "100,000";
    mk_item "2022" "IS" "IS" acc_net_income "60,000" ].

(** The bundle of a year as the dictionary of lines 276-283. *)
Definition metrics_dict (b : metrics) : Dict.t pyval :=
  [ ("revenue", VFloat (revenue b));
    ("net_income", VFloat (net_income b));
    ("total_assets", VFloat (total_assets b));
    ("total_equity", VFloat (total_equity b));
    ("roe", roe b);
    ("roa", roa b) ].

(** The number zero, as the integer or as a float. *)
Definition is_zero_value (v : pyval) : bool :=
  match v with
  | VInt z => z =? 0
  | VFloat f => PyFloat.is_zero f
  | _ => false
  end.

Definition negative_revenue_rows : list item :=
  [ mk_item "2022" "BS" "BS" acc_total_equity "600000";
    mk_item "2022" "BS" "BS" acc_total_assets "1000000";
    mk_item "2022" "IS" "IS" acc_net_income "60000";
    mk_item "2022" "IS" "IS" acc_operating_income "100000";
    mk_item "2022" "IS" "IS" acc_revenue "-10" ].

(** ** Vocabulary of the properties *)

(** A float that is a number: neither NaN nor an infinity. *)
Definition is_finite (x : PyFloat.t) : bool :=
  match x with
  | S754_zero _ | S754_finite _ _ _ => true
  | _ => false
  end.

Definition nan_income_is : list item :=
  [ mk_item "2022" "IS" "IS" acc_net_income "nan" ].

(** The four amounts the summary reads for a year are accepted by the
    builtin [float]. *)
Definition amounts_readable (g : year_groups) : bool :=
  let ok (r : result PyFloat.t) := match r with Ok _ => true | Raise _ => false end in
  ok (py_float (current_amount (account_dict (IS g)) acc_revenue)) &&
  ok (py_float (current_amount (account_dict (IS g)) acc_net_income)) &&
  ok (py_float (current_amount (account_dict (BS g)) acc_total_assets)) &&
  ok (py_float (current_amount (account_dict (BS g)) acc_total_equity)).



(** A list of decimal digits, as [str] prints them. *)
Definition plain_digits (l : list ascii) : Prop :=
  Forall (fun c => exists d, 0 <= d <= 9 /\ c = digit_char d) l.

(** The digit limit of the conversions between [int] and [str]
    (Python 3.11): the embedding of [str(n)] and [int(s)] leaves it
    out, the properties are stated within it. *)
Definition int_within_limit (n : Z) : Prop := Z.abs n < 10 ^ 4300.

Definition text_within_limit (s : string) : Prop := (String.length s <= 4300)%nat.

(** The characters [int] accepts. *)
Definition int_char (c : ascii) : bool :=
  PyFloat.is_space c || PyFloat.is_digit c || Ascii.eqb c "_" || Ascii.eqb c "-" ||
  Ascii.eqb c "+".

(** The unit suffixes of [format_amount]. *)
Definition unit_suffixes : list string := ["조"; "억"; "만"].

(** The argument is within the digit limit of [int] and [str]. *)
Definition arg_within_limit (a : amount_arg) : Prop :=
  match a with
  | AStr s => text_within_limit s
  | AInt n => int_within_limit n
  | AFloat _ => True
  end.

(** The test of line 122: the lowered query occurs in the lowered name. *)
Definition name_matches (company_name : string) (entry : string * Dict.t string) : bool :=
  str_contains (str_lower company_name) (str_lower (fst entry)).

(** The hit built from an entry that holds both codes. *)
Definition hit_of (entry : string * Dict.t string) (h : search_hit) : Prop :=
  hit_corp_name h = fst entry /\
  Dict.get (snd entry) "corp_code" = Some (hit_corp_code h) /\
  Dict.get (snd entry) "stock_code" = Some (hit_stock_code h).

(** A small company database, and one whose eleventh entry has no
    stock code. *)
Definition sample_database : Dict.t (Dict.t string) :=
  [ ("삼성전자", [("corp_code", "00126380"); ("stock_code", "005930")]);
    ("Samsung SDI", [("corp_code", "00126362"); ("stock_code", "006400")]);
    ("LG", [("corp_code", "00120021"); ("stock_code", "003550")]) ].

Definition eleven_entries : Dict.t (Dict.t string) :=
  (map (fun n => (("corp" ++ n)%string, [("corp_code", n); ("stock_code", n)]))
       ["01"; "02"; "03"; "04"; "05"; "06"; "07"; "08"; "09"; "10"]
   ++ [("corp11", [("corp_code", "11")])])%list.

(** An entry that lacks one of the two codes. *)
Definition lacks_code (entry : string * Dict.t string) : bool :=
  match Dict.get (snd entry) "corp_code", Dict.get (snd entry) "stock_code" with
  | Some _, Some _ => false
  | _, _ => true
  end.

(** The two texts of the message builder. *)
Definition not_found_message (corp_name corp_code year report_code : string) : string :=
  "📊 " ++ corp_name ++ "(" ++ corp_code ++ ")의 " ++ year ++ "년 "
    ++ get_report_name report_code ++ " 데이터를 찾을 수 없습니다." ++ message_hint.

Definition failure_message (corp_name corp_code year report_code : string) : string :=
  "📊 " ++ corp_name ++ "(" ++ corp_code ++ ")의 " ++ year ++ "년 "
    ++ get_report_name report_code ++ " 데이터 조회 중 오류가 발생했습니다." ++ message_hint.

(** The years of a range, in the order the loop asks for them, that
    delivered rows. *)
Definition delivered_years (request : api) (corp_code report_code : string) (a b : Z)
  : list Z :=
  filter (fun y => nonempty (year_rows request (zfill 8 corp_code) report_code y))
         (py_range_incl a b).

(** A service that answers some years only, and one that has no data
    for any year. *)
Definition no_data_answer : response :=
  [("status", JStr "013"); ("message", JStr "조회된 데이타가 없습니다.")].

Definition sample_api : api := fun _ year _ =>
  if String.eqb year "2020" then Raise TypeError
  else if String.eqb year "2021" then
    Ok (Some [("status", JStr "000");
              ("list", JItems [mk_item "2000" "BS" "BS" acc_total_equity "600";
                               mk_item "2000" "IS" "IS" acc_net_income "60"])])
  else if String.eqb year "2022" then
    Ok (Some [("status", JStr "000");
              ("list", JItems [mk_item "2021" "BS" "BS" acc_total_equity "700"])])
  else Ok (Some no_data_answer).

Definition no_data_api : api := fun _ _ _ => Ok (Some no_data_answer).

(** The answer of a service that has no data for the year. *)
Definition says_no_data (answer : response) : Prop :=
  answer <> [] /\
  Dict.get answer "status" = Some (JStr "013") /\
  exists m, Dict.get answer "message" = Some (JStr m) /\
            str_contains no_data_phrase m = true.

(** The test of line 593: the year has income-statement rows. *)
Definition has_income (year_data : Dict.t year_groups) (y : string) : bool :=
  match Dict.get year_data y with
  | Some g => nonempty (IS g)
  | None => false
  end.

(** A balance sheet with more debt than assets: the equity is negative. *)
Definition negative_equity_bs : list item :=
  [ mk_item "2022" "BS" "BS" acc_total_liabilities "500";
    mk_item "2022" "BS" "BS" acc_total_equity "-100" ].

(** An answer with an error status that still carries rows. *)
Definition error_with_rows : response :=
  [("status", JStr "020"); ("message", JStr "요청 제한을 초과하였습니다.");
   ("list", JItems [mk_item "2022" "BS" "BS" acc_total_equity "600"])].



(** An amount that is a text, as the API delivers every amount. *)
Definition is_text (v : pyval) : bool :=
  match v with
  | VStr _ => true
  | _ => false
  end.

(** The current amounts of all rows are texts: the data frame of the
    summary then keeps every value as it is. *)
Definition amounts_are_text (data : list item) : bool :=
  forallb (fun it => is_text (thstrm_amount it)) data.

(** * Properties *)

(** ** Facts on floats and on [float(s)] *)


Lemma gt0_not_neg (x : PyFloat.t) : PyFloat.lt0 x = true -> PyFloat.gt0 x = false.
Proof. destruct x as [s|s| |s m e]; try destruct s; cbv; congruence. Qed.

Lemma neg_not_zero (x : PyFloat.t) : PyFloat.lt0 x = true -> PyFloat.is_zero x = false.
Proof. destruct x as [s|s| |s m e]; try destruct s; cbv; congruence. Qed.



Lemma drop_while_keeps (p : ascii -> bool) (c : ascii) (l : list ascii) :
  p c = false -> In c l -> In c (PyFloat.drop_while p l).
Proof.
  intros Hp. induction l as [|a r IH]; simpl; intros Hin; [easy|].
  destruct (p a) eqn:Ha.
  - destruct Hin as [->|Hin]; [congruence | auto].
  - exact Hin.
Qed.

Lemma strip_keeps (c : ascii) (l : list ascii) :
  PyFloat.is_space c = false -> In c l -> In c (PyFloat.strip l).
Proof.
  intros Hs Hin. unfold PyFloat.strip.
  apply in_rev. rewrite rev_involutive.
  apply drop_while_keeps; [exact Hs|].
  apply -> in_rev. apply drop_while_keeps; assumption.
Qed.

Lemma remove_underscores_keeps (c : ascii) (l : list ascii) :
  Ascii.eqb c "_" = false ->
  forall prev l', PyFloat.remove_underscores prev l = Some l' -> In c l -> In c l'.
Proof.
  intros Hc. induction l as [|a r IH]; simpl; intros prev l' H Hin; [easy|].
  destruct (Ascii.eqb a "_") eqn:Ha.
  - destruct (PyFloat.is_digit prev); [|discriminate].
    destruct Hin as [->|Hin]; [congruence | eauto].
  - destruct (Ascii.eqb prev "_" && negb (PyFloat.is_digit a)); [discriminate|].
    destruct (PyFloat.remove_underscores a r) as [l''|] eqn:Hr; [|discriminate].
    simpl in H. injection H as <-.
    destruct Hin as [->|Hin]; [now left | right; eauto].
Qed.

Lemma span_split (p : ascii -> bool) (l a b : list ascii) :
  PyFloat.span p l = (a, b) -> l = (a ++ b)%list /\ Forall (fun c => p c = true) a.
Proof.
  revert a b. induction l as [|c r IH]; simpl; intros a b H.
  - injection H as <- <-. split; [reflexivity | constructor].
  - destruct (p c) eqn:Hc.
    + destruct (PyFloat.span p r) as [a' b'] eqn:Hs.
      injection H as <- <-. destruct (IH a' b' eq_refl) as [-> Hall].
      split; [reflexivity | constructor; assumption].
    + injection H as <- <-. split; [reflexivity | constructor].
Qed.

(** *** Characters no number holds *)

Section BadChar.

Variable bad : ascii.
Hypothesis bad_digit : PyFloat.is_digit bad = false.
Hypothesis bad_minus : Ascii.eqb bad "-" = false.
Hypothesis bad_plus : Ascii.eqb bad "+" = false.
Hypothesis bad_point : Ascii.eqb bad "." = false.
Hypothesis bad_e : Ascii.eqb (PyFloat.lower bad) "e" = false.
Hypothesis bad_letter :
  forall k, In k ["inf"; "infinity"; "nan"] ->
            ~ In (PyFloat.lower bad) (list_ascii_of_string k).

Lemma digits_not_bad (l : list ascii) :
  Forall (fun c => PyFloat.is_digit c = true) l -> ~ In bad l.
Proof.
  intros Hall Hin. rewrite Forall_forall in Hall.
  specialize (Hall _ Hin). congruence.
Qed.

Lemma split_sign_keeps (l : list ascii) :
  In bad l -> In bad (snd (PyFloat.split_sign l)).
Proof.
  destruct l as [|d r]; simpl; [easy|].
  destruct (Ascii.eqb d "-") eqn:Hm.
  { simpl. intros [H|H]; [subst d; congruence | exact H]. }
  destruct (Ascii.eqb d "+") eqn:Hp.
  { simpl. intros [H|H]; [subst d; congruence | exact H]. }
  exact (fun H => H).
Qed.

Lemma parse_exponent_rejects (l : list ascii) (z : Z) :
  PyFloat.parse_exponent l = Some z -> ~ In bad l.
Proof.
  destruct l as [|c r]; simpl; [easy|].
  destruct (Ascii.eqb (PyFloat.lower c) "e") eqn:Hc; [|discriminate].
  assert (Hcc : c <> bad) by (intros ->; congruence).
  pose proof (split_sign_keeps r) as Hsr.
  destruct (PyFloat.split_sign r) as [neg r']. simpl in Hsr.
  destruct (PyFloat.span PyFloat.is_digit r') as [ds rest] eqn:Hs.
  destruct ds as [|d ds]; [discriminate|].
  destruct rest; [|discriminate].
  intros _ [Heq|Hin]; [congruence|].
  apply span_split in Hs. destruct Hs as [-> Hall].
  rewrite app_nil_r in Hsr. exact (digits_not_bad _ Hall (Hsr Hin)).
Qed.

Lemma parse_decimal_rejects (neg : bool) (l : list ascii) (f : PyFloat.t) :
  PyFloat.parse_decimal neg l = Some f -> ~ In bad l.
Proof.
  unfold PyFloat.parse_decimal.
  destruct (PyFloat.span PyFloat.is_digit l) as [ip r1] eqn:H1.
  apply span_split in H1. destruct H1 as [-> Hip].
  set (fr := match r1 with
             | c :: r => if Ascii.eqb c "." then PyFloat.span PyFloat.is_digit r else ([], r1)
             | [] => ([], r1)
             end).
  assert (Hfr : In bad r1 -> In bad (snd fr)).
  { subst fr. destruct r1 as [|d r]; [easy|].
    destruct (Ascii.eqb d ".") eqn:Hd; [|exact (fun H => H)].
    destruct (PyFloat.span PyFloat.is_digit r) as [a b] eqn:Hs.
    apply span_split in Hs. destruct Hs as [-> Ha]. simpl.
    intros [H|H]; [subst d; congruence|].
    apply in_app_or in H. destruct H as [H|H]; [|exact H].
    exfalso. exact (digits_not_bad _ Ha H). }
  destruct fr as [fp r2]. simpl in Hfr.
  destruct (ip ++ fp)%list; [discriminate|].
  destruct (PyFloat.parse_exponent r2) as [ex|] eqn:He; [|discriminate].
  intros _ Hin. apply in_app_or in Hin. destruct Hin as [Hin|Hin].
  - exact (digits_not_bad _ Hip Hin).
  - exact (parse_exponent_rejects _ _ He (Hfr Hin)).
Qed.

Lemma parse_special_rejects (neg : bool) (l : list ascii) (f : PyFloat.t) :
  PyFloat.parse_special neg l = Some f -> ~ In bad l.
Proof.
  unfold PyFloat.parse_special. intros H Hin.
  apply (in_map PyFloat.lower) in Hin.
  set (w := map PyFloat.lower l) in *.
  assert (Hw : forall k : string, In k ["inf"; "infinity"; "nan"] ->
                         String.eqb (string_of_list_ascii w) k = false).
  { intros k Hk. destruct (String.eqb (string_of_list_ascii w) k) eqn:E; [|reflexivity].
    apply String.eqb_eq in E. exfalso. apply (bad_letter k Hk). rewrite <- E.
    rewrite list_ascii_of_string_of_list_ascii. exact Hin. }
  rewrite (Hw "inf"), (Hw "infinity"), (Hw "nan") in H by (simpl; auto).
  discriminate H.
Qed.

Lemma parse_number_rejects (l : list ascii) (f : PyFloat.t) :
  PyFloat.parse_number l = Some f -> ~ In bad l.
Proof.
  unfold PyFloat.parse_number.
  pose proof (split_sign_keeps l) as Hsb.
  destruct (PyFloat.split_sign l) as [neg body]. simpl in Hsb.
  destruct (PyFloat.parse_decimal neg body) as [g|] eqn:Hd.
  - intros _ Hin. exact (parse_decimal_rejects _ _ _ Hd (Hsb Hin)).
  - intros Hs Hin. exact (parse_special_rejects _ _ _ Hs (Hsb Hin)).
Qed.

End BadChar.

(** No number holds a comma or a question mark. *)
Lemma parse_number_no_mark (c : ascii) (l : list ascii) (f : PyFloat.t) :
  c = ","%char \/ c = "?"%char ->
  PyFloat.parse_number l = Some f -> ~ In c l.
Proof.
  intros [->| ->]; apply parse_number_rejects; try reflexivity;
    intros k [<-|[<-|[<-|[]]]]; simpl; intuition discriminate.
Qed.

(** *** Texts and their ASCII form *)

Lemma of_byte_byte (c : ascii) : Unicode.of_byte (Unicode.byte c) = c.
Proof.
  unfold Unicode.of_byte, Unicode.byte. rewrite Nat2Z.id. apply ascii_nat_embedding.
Qed.

Lemma is_cont_high (c : ascii) : Unicode.is_cont c = true -> 128 <= Unicode.byte c.
Proof.
  unfold Unicode.is_cont. intros H. apply andb_true_iff in H.
  destruct H as [H _]. now apply Z.leb_le.
Qed.

(** A code point below 128 is one byte; any other is made of bytes from
    128 on. *)
Lemma next_code_point_spec (l : list ascii) (cp : Z) (rest : list ascii) :
  Unicode.next_code_point l = Some (cp, rest) ->
  (exists b, l = b :: rest /\ cp = Unicode.byte b /\ cp < 128) \/
  (128 <= cp /\
   exists pre, l = (pre ++ rest)%list /\ pre <> [] /\
               Forall (fun c => 128 <= Unicode.byte c) pre).
Proof.
  unfold Unicode.next_code_point. destruct l as [|b0 r0]; [discriminate|].
  destruct (Z.ltb_spec (Unicode.byte b0) 128) as [H0|H0].
  { intros H. injection H as <- <-. left. exists b0. auto. }
  destruct (Unicode.byte b0 <? 192); [discriminate|].
  destruct (Unicode.byte b0 <? 224).
  { destruct r0 as [|b1 r1]; [discriminate|].
    destruct (Unicode.is_cont b1) eqn:C1; [|discriminate]. cbn [andb].
    destruct (Z.leb_spec 128 ((Unicode.byte b0 - 192) * 64 + Unicode.cont b1)) as [Hcp|Hcp];
      [|discriminate].
    intros H. injection H as <- <-. right. split; [assumption|].
    exists [b0; b1]. split; [reflexivity|]. split; [discriminate|].
    repeat constructor; [exact H0 | now apply is_cont_high]. }
  destruct (Unicode.byte b0 <? 240).
  { destruct r0 as [|b1 [|b2 r2]]; try discriminate.
    destruct (Unicode.is_cont b1) eqn:C1; [|discriminate].
    destruct (Unicode.is_cont b2) eqn:C2; [|discriminate]. cbn [andb].
    destruct (Z.leb_spec 2048
                (((Unicode.byte b0 - 224) * 64 + Unicode.cont b1) * 64 + Unicode.cont b2))
      as [Hcp|Hcp]; [|discriminate].
    intros H. injection H as <- <-. right. split; [lia|].
    exists [b0; b1; b2]. split; [reflexivity|]. split; [discriminate|].
    repeat constructor; [exact H0 | now apply is_cont_high | now apply is_cont_high]. }
  destruct (Unicode.byte b0 <? 248); [|discriminate].
  destruct r0 as [|b1 [|b2 [|b3 r3]]]; try discriminate.
  destruct (Unicode.is_cont b1) eqn:C1; [|discriminate].
  destruct (Unicode.is_cont b2) eqn:C2; [|discriminate].
  destruct (Unicode.is_cont b3) eqn:C3; [|discriminate]. cbn [andb].
  destruct (Z.leb_spec 65536
              ((((Unicode.byte b0 - 240) * 64 + Unicode.cont b1) * 64 + Unicode.cont b2) * 64
               + Unicode.cont b3)) as [Hcp|Hcp]; [|discriminate].
  cbn [andb].
  destruct (_ <=? 1114111); [|discriminate].
  intros H. injection H as <- <-. right. split; [lia|].
  exists [b0; b1; b2; b3]. split; [reflexivity|]. split; [discriminate|].
  repeat constructor; [exact H0 | now apply is_cont_high..].
Qed.

(** An ASCII character the text holds is in its ASCII form, or that form
    ends in a question mark. *)
Lemma to_ascii_fuel_keeps (c : ascii) (fuel : nat) :
  Unicode.byte c < 127 ->
  forall l, (List.length l <= fuel)%nat -> In c l ->
  In c (Unicode.to_ascii_fuel fuel l) \/ In "?"%char (Unicode.to_ascii_fuel fuel l).
Proof.
  intros Hc. induction fuel as [|f IH]; intros l Hl Hin.
  { destruct l; [destruct Hin | simpl in Hl; lia]. }
  destruct l as [|b0 r0]; [destruct Hin|].
  cbn [Unicode.to_ascii_fuel].
  destruct (Unicode.next_code_point (b0 :: r0)) as [[cp rest]|] eqn:Hn;
    [|right; now left].
  assert (Hrest : (List.length rest <= f)%nat /\ (In c (b0 :: r0) -> cp < 127 ->
                   Unicode.of_byte cp = c \/ In c rest) /\
                  (In c (b0 :: r0) -> 127 <= cp -> cp = 127 \/ In c rest)).
  { destruct (next_code_point_spec _ _ _ Hn) as [(b & E & -> & Hb)|(Hcp & pre & E & Hne & Hpre)].
    - injection E as -> ->. split; [simpl in Hl; lia|]. split.
      + intros [->|H] _; [left; apply of_byte_byte | now right].
      + intros _ H. left. lia.
    - rewrite E in Hl, Hin. rewrite length_app in Hl.
      assert (0 < List.length pre)%nat by (destruct pre; [congruence | simpl; lia]).
      split; [lia|].
      assert (Hr : In c rest).
      { rewrite <- E in Hin. rewrite E in Hin. apply in_app_or in Hin.
        destruct Hin as [Hin|Hin]; [|exact Hin].
        rewrite Forall_forall in Hpre. specialize (Hpre _ Hin). lia. }
      split; intros; now right. }
  destruct Hrest as (Hlen & Hlow & Hhigh).
  destruct (Z.ltb_spec cp 127) as [H127|H127].
  { destruct (Hlow Hin H127) as [E|Hr]; [left; now left|].
    destruct (IH rest Hlen Hr) as [H|H]; [left | right]; now right. }
  destruct (Hhigh Hin H127) as [E|Hr].
  { subst cp. right. now left. }
  destruct (Unicode.is_wide_space cp).
  { destruct (IH rest Hlen Hr) as [H|H]; [left | right]; now right. }
  destruct (Unicode.decimal cp) as [d|]; [|right; now left].
  destruct (IH rest Hlen Hr) as [H|H]; [left | right]; now right.
Qed.

(** ASCII characters in front stay as they are. *)
Lemma to_ascii_fuel_plain (x rest : list ascii) (k : nat) :
  Forall (fun c => Unicode.byte c < 127) x ->
  Unicode.to_ascii_fuel (List.length x + k) (x ++ rest) =
  (x ++ Unicode.to_ascii_fuel k rest)%list.
Proof.
  induction 1 as [|b x Hb Hx IH]; [reflexivity|].
  cbn [List.length Nat.add app Unicode.to_ascii_fuel Unicode.next_code_point].
  destruct (Z.ltb_spec (Unicode.byte b) 128); [|lia].
  destruct (Z.ltb_spec (Unicode.byte b) 127); [|lia].
  now rewrite of_byte_byte, IH.
Qed.

Lemma to_ascii_plain (l : list ascii) :
  Forall (fun c => Unicode.byte c < 127) l -> Unicode.to_ascii l = l.
Proof.
  intros H. unfold Unicode.to_ascii.
  pose proof (to_ascii_fuel_plain l [] 0 H) as E.
  rewrite Nat.add_0_r, app_nil_r in E. rewrite E. destruct l; simpl; now rewrite ?app_nil_r.
Qed.

Lemma to_ascii_plain_app (x rest : list ascii) :
  Forall (fun c => Unicode.byte c < 127) x ->
  Unicode.to_ascii (x ++ rest) = (x ++ Unicode.to_ascii rest)%list.
Proof.
  intros H. unfold Unicode.to_ascii. rewrite length_app. now apply to_ascii_fuel_plain.
Qed.

(** A text [float] accepts holds no comma: what is read has no comma and
    no question mark. *)
Lemma accepted_text_no_comma (l body : list ascii) (f : PyFloat.t) :
  PyFloat.remove_underscores "000" (PyFloat.strip (Unicode.to_ascii l)) = Some body ->
  PyFloat.parse_number body = Some f -> ~ In ","%char l.
Proof.
  intros Hr Hp Hin.
  destruct (to_ascii_fuel_keeps ","%char (List.length l) ltac:(reflexivity) l (le_n _) Hin)
    as [H|H].
  - apply (parse_number_no_mark ","%char _ _ (or_introl eq_refl) Hp).
    apply (remove_underscores_keeps ","%char _ eq_refl _ _ Hr).
    apply strip_keeps; [reflexivity | exact H].
  - apply (parse_number_no_mark "?"%char _ _ (or_intror eq_refl) Hp).
    apply (remove_underscores_keeps "?"%char _ eq_refl _ _ Hr).
    apply strip_keeps; [reflexivity | exact H].
Qed.

Section NoComma.

Let comma : ascii := ","%char.

(** A string that [float] accepts holds no comma. *)
Lemma of_string_no_comma (s : string) (f : PyFloat.t) :
  PyFloat.of_string s = Some f -> ~ In comma (list_ascii_of_string s).
Proof.
  unfold PyFloat.of_string. intros H Hin.
  destruct (PyFloat.remove_underscores "000"
              (PyFloat.strip (Unicode.to_ascii (list_ascii_of_string s))))
    as [l|] eqn:Hr; [|discriminate].
  exact (accepted_text_no_comma _ _ _ Hr H Hin).
Qed.

Lemma remove_commas_id (s : string) :
  ~ In comma (list_ascii_of_string s) -> remove_commas s = s.
Proof.
  induction s as [|c r IH]; simpl; intros H; [reflexivity|].
  destruct (Ascii.eqb c ",") eqn:Hc.
  - apply Ascii.eqb_eq in Hc. exfalso. apply H. now left.
  - f_equal. apply IH. intros Hin. apply H. now right.
Qed.

End NoComma.

Lemma remove_commas_no_comma (s : string) :
  ~ In ","%char (list_ascii_of_string (remove_commas s)).
Proof.
  induction s as [|c r IH]; simpl; [easy|].
  destruct (Ascii.eqb c ",") eqn:Hc; [exact IH|].
  simpl. intros [H|H]; [|exact (IH H)].
  subst c. discriminate.
Qed.

Lemma remove_commas_idempotent (s : string) :
  remove_commas (remove_commas s) = remove_commas s.
Proof. apply remove_commas_id, remove_commas_no_comma. Qed.

(** Whenever the builtin [float] accepts a value, [safe_convert] returns
    the same number. *)
Lemma safe_convert_of_py_float (v : pyval) (f : PyFloat.t) :
  py_float v = Ok f -> safe_convert v = Ok f.
Proof.
  destruct v as [ |b|z|g|s| ]; simpl; intros H; try discriminate.
  - unfold safe_convert. simpl. rewrite H. reflexivity.
  - unfold safe_convert. simpl. rewrite H. reflexivity.
  - unfold safe_convert. simpl. rewrite H. reflexivity.
  - unfold safe_convert. simpl.
    destruct (PyFloat.of_string s) as [g|] eqn:Hs; [|discriminate].
    rewrite (remove_commas_id s (of_string_no_comma _ _ Hs)), Hs.
    exact H.
Qed.

(** ** The amount normalizer [safe_convert] *)

Lemma of_int_raises_overflow_only (z : Z) (e : exn) :
  PyFloat.of_int z = Raise e -> e = OverflowError.
Proof.
  unfold PyFloat.of_int.
  destruct (binary_normalize PyFloat.prec PyFloat.emax z 0 false); congruence.
Qed.

(** Every string is normalized to a float: no exception escapes. *)
Lemma safe_convert_string_total (s : string) :
  exists f, safe_convert (VStr s) = Ok f.
Proof.
  unfold safe_convert. simpl.
  destruct (PyFloat.of_string (remove_commas s)) as [f|]; simpl; eauto.
Qed.

(** The only exception that leaves [safe_convert] is the [OverflowError]
    of [float(n)] on an [int]. *)
Lemma safe_convert_raises_on_int_only (v : pyval) (e : exn) :
  safe_convert v = Raise e -> e = OverflowError /\ exists z, v = VInt z.
Proof.
  destruct v as [ |b|z|g|s| ]; unfold safe_convert; simpl; try discriminate.
  - destruct b; vm_compute; discriminate.
  - destruct (PyFloat.of_int z) as [f|e'] eqn:Hz; simpl; [discriminate|].
    apply of_int_raises_overflow_only in Hz. subst e'. simpl.
    intros H. injection H as <-. eauto.
  - destruct (PyFloat.of_string (remove_commas s)); simpl; discriminate.
Qed.

Lemma safe_convert_total_but_int (v : pyval) :
  (forall z, v <> VInt z) -> exists f, safe_convert v = Ok f.
Proof.
  intros Hv. destruct (safe_convert v) as [f|e] eqn:H; [eauto|].
  apply safe_convert_raises_on_int_only in H. destruct H as [_ [z ->]].
  now destruct (Hv z).
Qed.

Lemma safe_convert_dash : safe_convert (VStr "-") = Ok PyFloat.pzero.
Proof. reflexivity. Qed.

Lemma safe_convert_empty : safe_convert (VStr "") = Ok PyFloat.pzero.
Proof. reflexivity. Qed.

Lemma safe_convert_None : safe_convert VNone = Ok PyFloat.pzero.
Proof. reflexivity. Qed.

(** [normalize(s) == normalize(strip_commas(s))] *)
Lemma safe_convert_strip_commas (s : string) :
  safe_convert (VStr s) = safe_convert (VStr (remove_commas s)).
Proof. unfold safe_convert. simpl. now rewrite remove_commas_idempotent. Qed.

Example safe_convert_thousands :
  safe_convert (VStr "1,234,500,000,000") = PyFloat.of_int 1234500000000.
Proof. vm_compute. reflexivity. Qed.

(** C5 (defect): [safe_convert] is not total.  On the Python [int]
    [10 ** 400] the call [float(value)] raises [OverflowError], which the
    handler [except (ValueError, TypeError)] does not catch, so the
    exception leaves the function.  That is the only way out: every value
    that is not an int is normalized to a float, "-", the empty string
    and [None] to 0.0, and a string and the same string without its
    commas to the same float. *)
Theorem safe_convert_int_overflow_escapes :
  safe_convert (VInt (10 ^ 400)) = Raise OverflowError /\
  (forall v e, safe_convert v = Raise e -> e = OverflowError /\ exists z, v = VInt z) /\
  (forall v, (forall z, v <> VInt z) -> exists f, safe_convert v = Ok f) /\
  safe_convert (VStr "-") = Ok PyFloat.pzero /\
  safe_convert (VStr "") = Ok PyFloat.pzero /\
  safe_convert VNone = Ok PyFloat.pzero /\
  (forall s, safe_convert (VStr s) = safe_convert (VStr (remove_commas s))).
Proof.
  split; [vm_compute; reflexivity|].
  split; [exact safe_convert_raises_on_int_only|].
  split; [exact safe_convert_total_but_int|].
  split; [exact safe_convert_dash|].
  split; [exact safe_convert_empty|].
  split; [exact safe_convert_None | exact safe_convert_strip_commas].
Qed.

(** ** Dictionaries *)

Lemma dict_get_set {V : Type} (d : Dict.t V) (k k' : string) (v : V) :
  Dict.get (Dict.set d k v) k' = if String.eqb k k' then Some v else Dict.get d k'.
Proof.
  induction d as [|[k0 v0] r IH]; simpl.
  - reflexivity.
  - destruct (String.eqb k0 k) eqn:E0; simpl.
    + apply String.eqb_eq in E0. subst k0.
      destruct (String.eqb k k'); reflexivity.
    + destruct (String.eqb k0 k') eqn:E1.
      * apply String.eqb_eq in E1. subst k0.
        rewrite String.eqb_sym in E0. now rewrite E0.
      * exact IH.
Qed.

Lemma dict_get_modify {V : Type} (d : Dict.t V) (k k' : string) (f : V -> V) :
  Dict.get (dict_modify d k f) k' =
  if String.eqb k k' then option_map f (Dict.get d k') else Dict.get d k'.
Proof.
  unfold dict_modify. destruct (Dict.get d k) as [v|] eqn:Hk.
  - rewrite dict_get_set. destruct (String.eqb k k') eqn:E; [|reflexivity].
    apply String.eqb_eq in E. subst k'. now rewrite Hk.
  - destruct (String.eqb k k') eqn:E; [|reflexivity].
    apply String.eqb_eq in E. subst k'. now rewrite Hk.
Qed.

Lemma dict_keys_set {V : Type} (d : Dict.t V) (k : string) (v : V) :
  Dict.keys (Dict.set d k v) =
  if Dict.mem d k then Dict.keys d else (Dict.keys d ++ [k])%list.
Proof.
  unfold Dict.mem, Dict.keys. induction d as [|[k0 v0] r IH]; simpl.
  - reflexivity.
  - destruct (String.eqb k0 k) eqn:E0; simpl; [reflexivity|].
    rewrite IH. destruct (Dict.get r k); reflexivity.
Qed.

Lemma dict_mem_keys {V : Type} (d : Dict.t V) (k : string) :
  Dict.mem d k = true <-> In k (Dict.keys d).
Proof.
  unfold Dict.mem, Dict.keys. induction d as [|[k0 v0] r IH]; simpl.
  - split; [discriminate | easy].
  - destruct (String.eqb k0 k) eqn:E0.
    + apply String.eqb_eq in E0. split; auto.
    + apply String.eqb_neq in E0. rewrite IH. split; [auto | intros [H|H]; [easy | exact H]].
Qed.

Lemma find_app {A : Type} (p : A -> bool) (l1 l2 : list A) :
  find p (l1 ++ l2) = match find p l1 with Some x => Some x | None => find p l2 end.
Proof.
  induction l1 as [|a r IH]; simpl; [reflexivity|].
  destruct (p a); [reflexivity | exact IH].
Qed.

(** The dictionary comprehension keeps, for each account name, the LAST
    item of that name. *)
Lemma account_dict_last (data : list item) (k : string) :
  Dict.get (account_dict data) k = find (named k) (rev data).
Proof.
  unfold account_dict.
  assert (H : forall d0,
             Dict.get (fold_left (fun d it => Dict.set d (account_nm it) it) data d0) k =
             match find (named k) (rev data) with
             | Some it => Some it
             | None => Dict.get d0 k
             end).
  { induction data as [|a r IH]; intros d0; [reflexivity|].
    cbn [fold_left rev]. rewrite IH, find_app, dict_get_set.
    destruct (find (named k) (rev r)); [reflexivity|].
    cbn [find]. unfold named.
    destruct (String.eqb (account_nm a) k); reflexivity. }
  rewrite H. simpl. destruct (find (named k) (rev data)); reflexivity.
Qed.

(** The loop of the bar charts keeps the FIRST item of each name. *)
Lemma unique_by_account_first (data : list item) (k : string) :
  Dict.get (unique_by_account data) k = find (named k) data.
Proof.
  unfold unique_by_account.
  assert (H : forall d0,
             Dict.get (fold_left
                         (fun d it => if Dict.mem d (account_nm it) then d
                                      else Dict.set d (account_nm it) it) data d0) k =
             match Dict.get d0 k with
             | Some it => Some it
             | None => find (named k) data
             end).
  { induction data as [|a r IH]; intros d0; cbn [fold_left find].
    - destruct (Dict.get d0 k); reflexivity.
    - rewrite IH. unfold Dict.mem.
      change (named k a) with (String.eqb (account_nm a) k).
      destruct (Dict.get d0 (account_nm a)) as [v|] eqn:Ha.
      + destruct (Dict.get d0 k) as [w|] eqn:Hk; [reflexivity|].
        destruct (String.eqb (account_nm a) k) eqn:E; [|reflexivity].
        apply String.eqb_eq in E. congruence.
      + rewrite dict_get_set.
        destruct (String.eqb (account_nm a) k) eqn:E.
        * apply String.eqb_eq in E. subst k. now rewrite Ha.
        * reflexivity. }
  rewrite H. reflexivity.
Qed.

(** ** The statement partitioner [group_by_year] *)

Ltac string_cases :=
  repeat match goal with
    | H : String.eqb _ _ = true |- _ => apply String.eqb_eq in H
    | H : String.eqb _ _ = false |- _ => apply String.eqb_neq in H
    end.

Lemma route_BS (row : item) (g : year_groups) :
  BS (route row g) =
  if String.eqb (fs_div row) "BS" || String.eqb (fs_div row) "CFS"
  then (BS g ++ [row])%list else BS g.
Proof.
  unfold route, in_list. cbn [existsb].
  destruct (String.eqb (fs_div row) "BS") eqn:E1;
    destruct (String.eqb (fs_div row) "IS") eqn:E2;
    destruct (String.eqb (fs_div row) "CFS") eqn:E3; try reflexivity;
    string_cases; congruence.
Qed.

Lemma route_IS (row : item) (g : year_groups) :
  IS (route row g) =
  if String.eqb (fs_div row) "IS" || String.eqb (fs_div row) "CFS"
  then (IS g ++ [row])%list else IS g.
Proof.
  unfold route, in_list. cbn [existsb].
  destruct (String.eqb (fs_div row) "BS") eqn:E1;
    destruct (String.eqb (fs_div row) "IS") eqn:E2;
    destruct (String.eqb (fs_div row) "CFS") eqn:E3; try reflexivity;
    string_cases; congruence.
Qed.

Lemma get_group_row (d : Dict.t year_groups) (row : item) (y : string) :
  Dict.get (group_row d row) y =
  if String.eqb (bsns_year row) y
  then Some (route row (match Dict.get d y with Some g => g | None => empty_groups end))
  else Dict.get d y.
Proof.
  unfold group_row, route.
  set (year := bsns_year row). set (fs := fs_div row).
  set (d1 := if Dict.mem d year then d else Dict.set d year {| BS := []; IS := [] |}).
  assert (H1 : Dict.get d1 y =
               if String.eqb year y
               then Some (match Dict.get d y with Some g => g | None => empty_groups end)
               else Dict.get d y).
  { subst d1. unfold Dict.mem. destruct (Dict.get d year) as [g|] eqn:Hy.
    - destruct (String.eqb year y) eqn:E; [|reflexivity].
      apply String.eqb_eq in E. subst y. now rewrite Hy.
    - rewrite dict_get_set. destruct (String.eqb year y) eqn:E; [|reflexivity].
      apply String.eqb_eq in E. subst y. now rewrite Hy. }
  destruct (in_list fs ["BS"; "IS"; "CFS"]).
  - destruct (String.eqb fs "CFS").
    + rewrite !dict_get_modify, H1. destruct (String.eqb year y); reflexivity.
    + destruct (String.eqb fs "BS");
        rewrite dict_get_modify, H1; destruct (String.eqb year y); reflexivity.
  - exact H1.
Qed.

Lemma group_by_year_snoc (data : list item) (row : item) :
  group_by_year (data ++ [row]) = group_row (group_by_year data) row.
Proof. unfold group_by_year. now rewrite fold_left_app. Qed.

Lemma filter_no_year (y : string) (data : list item) :
  existsb (in_year y) data = false ->
  filter (to_BS y) data = [] /\ filter (to_IS y) data = [].
Proof.
  induction data as [|row data IH]; cbn [existsb filter]; [easy|].
  intros H. apply orb_false_iff in H. destruct H as [Hr Hd].
  unfold to_BS at 1, to_IS at 1. unfold in_year in Hr. rewrite Hr. cbn [andb].
  exact (IH Hd).
Qed.

(** The groups of a year are the rows of that year, in input order,
    filtered by their tag. *)
Lemma group_by_year_get (data : list item) (y : string) :
  Dict.get (group_by_year data) y =
  if existsb (in_year y) data
  then Some {| BS := filter (to_BS y) data; IS := filter (to_IS y) data |}
  else None.
Proof.
  induction data as [|row data IH] using rev_ind; [reflexivity|].
  rewrite group_by_year_snoc, get_group_row, IH, existsb_app, !filter_app.
  cbn [existsb filter].
  assert (Hy : in_year y row = String.eqb (bsns_year row) y) by reflexivity.
  assert (HB : to_BS y row = String.eqb (bsns_year row) y &&
                 (String.eqb (fs_div row) "BS" || String.eqb (fs_div row) "CFS"))
    by reflexivity.
  assert (HI : to_IS y row = String.eqb (bsns_year row) y &&
                 (String.eqb (fs_div row) "IS" || String.eqb (fs_div row) "CFS"))
    by reflexivity.
  rewrite Hy, HB, HI. clear Hy HB HI.
  destruct (String.eqb (bsns_year row) y) eqn:Ey; cbn [andb orb].
  - rewrite orb_true_r.
    assert (Hg : forall g, route row g =
                   {| BS := BS (route row g); IS := IS (route row g) |})
      by (intros g; destruct (route row g); reflexivity).
    rewrite Hg, route_BS, route_IS. f_equal.
    destruct (existsb (in_year y) data) eqn:He; cbn [BS IS empty_groups];
      [|destruct (filter_no_year _ _ He) as [-> ->]];
      destruct (String.eqb (fs_div row) "BS" || String.eqb (fs_div row) "CFS");
      destruct (String.eqb (fs_div row) "IS" || String.eqb (fs_div row) "CFS");
      rewrite ?app_nil_r; reflexivity.
  - rewrite orb_false_r, !app_nil_r. reflexivity.
Qed.

Lemma dict_keys_modify {V : Type} (d : Dict.t V) (k : string) (f : V -> V) :
  Dict.keys (dict_modify d k f) = Dict.keys d.
Proof.
  unfold dict_modify. destruct (Dict.get d k) as [v|] eqn:Hk; [|reflexivity].
  rewrite dict_keys_set. unfold Dict.mem. now rewrite Hk.
Qed.

Lemma keys_group_row (d : Dict.t year_groups) (row : item) :
  Dict.keys (group_row d row) =
  if Dict.mem d (bsns_year row) then Dict.keys d
  else (Dict.keys d ++ [bsns_year row])%list.
Proof.
  unfold group_row.
  set (d1 := if Dict.mem d (bsns_year row) then d
             else Dict.set d (bsns_year row) {| BS := []; IS := [] |}).
  assert (H1 : Dict.keys d1 =
               if Dict.mem d (bsns_year row) then Dict.keys d
               else (Dict.keys d ++ [bsns_year row])%list).
  { subst d1. destruct (Dict.mem d (bsns_year row)) eqn:Hm; [reflexivity|].
    rewrite dict_keys_set, Hm. reflexivity. }
  destruct (in_list (fs_div row) ["BS"; "IS"; "CFS"]); [|exact H1].
  destruct (String.eqb (fs_div row) "CFS"); [|destruct (String.eqb (fs_div row) "BS")];
    rewrite ?dict_keys_modify; exact H1.
Qed.

(** The keys of the grouping are the years of the input, each once. *)
Lemma keys_group_by_year_NoDup (data : list item) :
  NoDup (Dict.keys (group_by_year data)).
Proof.
  induction data as [|row data IH] using rev_ind; [constructor|].
  rewrite group_by_year_snoc, keys_group_row.
  destruct (Dict.mem (group_by_year data) (bsns_year row)) eqn:Hm; [exact IH|].
  rewrite <- (rev_involutive (_ ++ _)%list). apply NoDup_rev.
  rewrite rev_app_distr. simpl.
  constructor; [|apply NoDup_rev; exact IH].
  intros Hin. apply in_rev in Hin. apply dict_mem_keys in Hin. congruence.
Qed.

Lemma keys_group_by_year_In (data : list item) (y : string) :
  In y (Dict.keys (group_by_year data)) <-> exists row, In row data /\ bsns_year row = y.
Proof.
  rewrite <- dict_mem_keys. unfold Dict.mem. rewrite group_by_year_get.
  destruct (existsb (in_year y) data) eqn:He.
  - apply existsb_exists in He. destruct He as [row [Hin Hy]].
    apply String.eqb_eq in Hy. split; eauto.
  - split; [discriminate|]. intros [row [Hin Hy]].
    assert (existsb (in_year y) data = true); [|congruence].
    apply existsb_exists. exists row. split; [exact Hin|]. now apply String.eqb_eq.
Qed.

(** C6: the partitioner routes every row by its [fs_div] code.  The two
    groups of a year are the rows of that year, in input order, whose
    code is BS or CFS (balance sheet) and IS or CFS (income statement).
    So a BS row is in the balance sheet group of its year only, an IS row
    in the income statement group only, a CFS row in both, a row of any
    other code in neither, and no row is in a group of another year. *)
Theorem partitioner_routes_by_fs_div (data : list item) (row : item) :
  In row data ->
  exists g,
    Dict.get (group_by_year data) (bsns_year row) = Some g /\
    BS g = filter (to_BS (bsns_year row)) data /\
    IS g = filter (to_IS (bsns_year row)) data /\
    (fs_div row = "BS" -> In row (BS g) /\ ~ In row (IS g)) /\
    (fs_div row = "IS" -> In row (IS g) /\ ~ In row (BS g)) /\
    (fs_div row = "CFS" -> In row (BS g) /\ In row (IS g)) /\
    (fs_div row <> "BS" -> fs_div row <> "IS" -> fs_div row <> "CFS" ->
     ~ In row (BS g) /\ ~ In row (IS g)) /\
    (forall y' g', Dict.get (group_by_year data) y' = Some g' -> y' <> bsns_year row ->
                   ~ In row (BS g') /\ ~ In row (IS g')).
Proof.
  intros Hin.
  assert (He : existsb (in_year (bsns_year row)) data = true).
  { apply existsb_exists. exists row. split; [exact Hin|]. apply String.eqb_refl. }
  exists {| BS := filter (to_BS (bsns_year row)) data;
            IS := filter (to_IS (bsns_year row)) data |}.
  rewrite group_by_year_get, He. cbn [BS IS].
  assert (HB : forall y, In row (filter (to_BS y) data) <->
                         bsns_year row = y /\ (fs_div row = "BS" \/ fs_div row = "CFS")).
  { intros y. rewrite filter_In. unfold to_BS.
    rewrite andb_true_iff, orb_true_iff, !String.eqb_eq. tauto. }
  assert (HI : forall y, In row (filter (to_IS y) data) <->
                         bsns_year row = y /\ (fs_div row = "IS" \/ fs_div row = "CFS")).
  { intros y. rewrite filter_In. unfold to_IS.
    rewrite andb_true_iff, orb_true_iff, !String.eqb_eq. tauto. }
  repeat split; try reflexivity.
  - apply HB. auto.
  - rewrite HI. intros [_ [E|E]]; congruence.
  - apply HI. auto.
  - rewrite HB. intros [_ [E|E]]; congruence.
  - apply HB. auto.
  - apply HI. auto.
  - rewrite HB. tauto.
  - rewrite HI. tauto.
  - rewrite group_by_year_get in H. destruct (existsb (in_year y') data); [|discriminate].
    injection H as <-. cbn [BS]. rewrite HB. intros [E _]. congruence.
  - rewrite group_by_year_get in H. destruct (existsb (in_year y') data); [|discriminate].
    injection H as <-. cbn [IS]. rewrite HI. intros [E _]. congruence.
Qed.

Lemma partitioner_routes_by_fs_div_witness :
  exists g, Dict.get (group_by_year sample_rows) "2022" = Some g /\
            In sample_cfs_row (BS g) /\ In sample_cfs_row (IS g).
Proof.
  destruct (partitioner_routes_by_fs_div sample_rows sample_cfs_row)
    as [g [Hg [_ [_ [_ [_ [Hc _]]]]]]].
  - simpl. tauto.
  - exists g. split; [exact Hg | exact (Hc eq_refl)].
Defined.

(** ** The ratio deriver [profitability_ratios] *)

Lemma bind_ok {A B : Type} (r : result A) (k : A -> result B) (b : B) :
  bind r k = Ok b -> exists a, r = Ok a /\ k a = Ok b.
Proof. destruct r as [a|e]; simpl; [eauto | discriminate]. Qed.

Lemma ratio_block_ok (name form : string) (num base : PyFloat.t) (r : list ratio_record) :
  ratio_block name form num base = Ok r ->
  (PyFloat.gt0 base = false /\ r = []) \/
  (PyFloat.gt0 base = true /\
   exists n b, r = [{| ratio_name := name; ratio := percent num base; formula := form;
                       numerator_amount := n; base_amount := b |}]).
Proof.
  unfold ratio_block. destruct (PyFloat.gt0 base).
  - intros H. apply bind_ok in H. destruct H as [n [_ H]].
    apply bind_ok in H. destruct H as [b [_ H]]. injection H as <-.
    right. eauto.
  - intros H. injection H as <-. left. auto.
Qed.

Lemma ratio_block_names (name form : string) (num base : PyFloat.t)
    (r : list ratio_record) (x : string) :
  ratio_block name form num base = Ok r -> In x (map ratio_name r) ->
  x = name /\ PyFloat.gt0 base = true.
Proof.
  intros H Hin. apply ratio_block_ok in H.
  destruct H as [[_ ->]|[Hg [n [b ->]]]]; simpl in Hin; [easy|].
  destruct Hin as [<-|[]]. auto.
Qed.

(** The computation behind a list of ratio records. *)
Lemma profitability_ratios_ok (bs_data is_data : list item) (recs : list ratio_record) :
  profitability_ratios bs_data is_data = Ok recs ->
  (recs = [] /\ (bs_data = [] \/ is_data = [])) \/
  (bs_data <> [] /\ is_data <> [] /\
   exists ni te ta oi rv r1 r2 r3 r4,
     normalized is_data acc_net_income = Ok ni /\
     normalized bs_data acc_total_equity = Ok te /\
     normalized bs_data acc_total_assets = Ok ta /\
     normalized is_data acc_operating_income = Ok oi /\
     normalized is_data acc_revenue = Ok rv /\
     ratio_block name_roe "당기순이익 / 자본총계" ni te = Ok r1 /\
     ratio_block name_roa "당기순이익 / 자산총계" ni ta = Ok r2 /\
     ratio_block name_operating_margin "영업이익 / 매출액" oi rv = Ok r3 /\
     ratio_block name_net_margin "당기순이익 / 매출액" ni rv = Ok r4 /\
     recs = (r1 ++ r2 ++ r3 ++ r4)%list).
Proof.
  unfold profitability_ratios, normalized.
  destruct bs_data as [|b0 bs]; [intros H; injection H as <-; auto|].
  destruct is_data as [|i0 is_]; [intros H; injection H as <-; auto|].
  intros H. right. split; [discriminate|]. split; [discriminate|].
  apply bind_ok in H. destruct H as [ni [Hni H]].
  apply bind_ok in H. destruct H as [te [Hte H]].
  apply bind_ok in H. destruct H as [r1 [Hr1 H]].
  apply bind_ok in H. destruct H as [ta [Hta H]].
  apply bind_ok in H. destruct H as [r2 [Hr2 H]].
  apply bind_ok in H. destruct H as [oi [Hoi H]].
  apply bind_ok in H. destruct H as [rv [Hrv H]].
  apply bind_ok in H. destruct H as [r3 [Hr3 H]].
  apply bind_ok in H. destruct H as [r4 [Hr4 H]].
  injection H as <-.
  exists ni, te, ta, oi, rv, r1, r2, r3, r4. repeat split; assumption.
Qed.

Lemma ratio_names_distinct :
  name_roe <> name_roa /\ name_roe <> name_operating_margin /\
  name_roe <> name_net_margin /\ name_roa <> name_operating_margin /\
  name_roa <> name_net_margin /\ name_operating_margin <> name_net_margin.
Proof. repeat split; intros H; apply String.eqb_eq in H; vm_compute in H; discriminate. Qed.

(** Which guard lets a ratio of a given name into the output. *)
Lemma emits_guard (bs_data is_data : list item) (x : string) :
  emits x (profitability_ratios bs_data is_data) ->
  exists ni te ta oi rv,
    normalized is_data acc_net_income = Ok ni /\
    normalized bs_data acc_total_equity = Ok te /\
    normalized bs_data acc_total_assets = Ok ta /\
    normalized is_data acc_operating_income = Ok oi /\
    normalized is_data acc_revenue = Ok rv /\
    ((x = name_roe /\ PyFloat.gt0 te = true) \/
     (x = name_roa /\ PyFloat.gt0 ta = true) \/
     (x = name_operating_margin /\ PyFloat.gt0 rv = true) \/
     (x = name_net_margin /\ PyFloat.gt0 rv = true)).
Proof.
  unfold emits. destruct (profitability_ratios bs_data is_data) as [recs|e] eqn:H; [|easy].
  apply profitability_ratios_ok in H.
  destruct H as [[-> _]|[_ [_ H]]]; [easy|].
  destruct H as (ni & te & ta & oi & rv & r1 & r2 & r3 & r4 &
                 Hni & Hte & Hta & Hoi & Hrv & H1 & H2 & H3 & H4 & ->).
  intros Hin. exists ni, te, ta, oi, rv. repeat (split; [assumption|]).
  rewrite !map_app, !in_app_iff in Hin.
  destruct Hin as [Hin|[Hin|[Hin|Hin]]].
  - left. exact (ratio_block_names _ _ _ _ _ _ H1 Hin).
  - right; left. exact (ratio_block_names _ _ _ _ _ _ H2 Hin).
  - right; right; left. exact (ratio_block_names _ _ _ _ _ _ H3 Hin).
  - right; right; right. exact (ratio_block_names _ _ _ _ _ _ H4 Hin).
Qed.

Ltac same_amount :=
  repeat match goal with
    | H1 : normalized ?d ?n = Ok ?a, H2 : normalized ?d ?n = Ok ?b |- _ =>
        assert (a = b) by congruence; subst b; clear H2
    end.

Lemma omitted_roe (bs_data is_data : list item) (te : PyFloat.t) :
  normalized bs_data acc_total_equity = Ok te -> PyFloat.gt0 te = false ->
  ~ emits name_roe (profitability_ratios bs_data is_data).
Proof.
  intros Hte Hg He. apply emits_guard in He.
  destruct He as (ni & te' & ta & oi & rv & _ & Hte' & _ & _ & _ & Hc).
  same_amount. pose proof ratio_names_distinct as Hd.
  destruct Hc as [[_ H]|[[H _]|[[H _]|[H _]]]]; [congruence | tauto..].
Qed.

Lemma omitted_roa (bs_data is_data : list item) (ta : PyFloat.t) :
  normalized bs_data acc_total_assets = Ok ta -> PyFloat.gt0 ta = false ->
  ~ emits name_roa (profitability_ratios bs_data is_data).
Proof.
  intros Hta Hg He. apply emits_guard in He.
  destruct He as (ni & te & ta' & oi & rv & _ & _ & Hta' & _ & _ & Hc).
  same_amount. pose proof ratio_names_distinct as Hd.
  destruct Hc as [[H _]|[[_ H]|[[H _]|[H _]]]];
    [symmetry in H; tauto | congruence | tauto..].
Qed.

Lemma omitted_margins (bs_data is_data : list item) (rv : PyFloat.t) :
  normalized is_data acc_revenue = Ok rv -> PyFloat.gt0 rv = false ->
  ~ emits name_operating_margin (profitability_ratios bs_data is_data) /\
  ~ emits name_net_margin (profitability_ratios bs_data is_data).
Proof.
  intros Hrv Hg. pose proof ratio_names_distinct as Hd.
  split; intros He; apply emits_guard in He;
    destruct He as (ni & te & ta & oi & rv' & _ & _ & _ & _ & Hrv' & Hc);
    same_amount;
    destruct Hc as [[H _]|[[H _]|[[H1 H2]|[H1 H2]]]];
    try congruence; try (symmetry in H; tauto); try (symmetry in H1; tauto); tauto.
Qed.






Lemma to_int_finite (x : PyFloat.t) :
  is_finite x = true -> exists n, PyFloat.to_int x = Ok n.
Proof. destruct x; simpl; intros H; try discriminate; eauto. Qed.





(** With total assets "1e400", read as an infinity, the deriver raises:
    there is no output. *)
Example infinite_amount_no_output :
  profitability_ratios
    (mk_item "2022" "BS" "BS" acc_total_assets "1e400" :: equity_only_bs) revenue_only_is
  = Raise OverflowError.
Proof. vm_compute. reflexivity. Qed.

(** ** Duplicate account names *)

(** C2 (defect): the account dictionary of the ratio deriver and of the
    summary holds, for each account name, the LAST item of that name,
    where the loop of the bar charts keeps the first.  With total equity
    listed twice (100, then 200), ROE is 50 / 200 = 25 percent and the
    summary reports total equity 200, while the bar chart of the same
    request shows 100. *)
Theorem ratio_lookup_keeps_last_duplicate :
  let bs_data := single_year_bs duplicate_equity_rows in
  let is_data := single_year_is duplicate_equity_rows in
  (forall data k, Dict.get (account_dict data) k = find (named k) (rev data)) /\
  (forall data k, Dict.get (unique_by_account data) k = find (named k) data) /\
  current_amount (account_dict bs_data) acc_total_equity = VStr "200" /\
  (exists r, profitability_ratios bs_data is_data = Ok [r] /\
             ratio_name r = name_roe /\
             ratio r = PyFloat.of_small_int 25 /\ base_amount r = 200) /\
  (exists b, create_balance_sheet_chart bs_data =
               Ok [("balance_sheet", BarChart b); ("balance_sheet_table", BarChart b)] /\
             bar_current_text b = [100]) /\
  (exists s m, _create_analysis_summary duplicate_equity_rows "2022" "2022" = Some s /\
               Dict.get (key_metrics s) "2022" = Some m /\
               total_equity m = PyFloat.of_small_int 200).
Proof.
  cbv zeta. split; [exact account_dict_last|]. split; [exact unique_by_account_first|].
  split; [reflexivity|]. split; [|split].
  - eexists. split; [vm_compute; reflexivity|]. repeat split.
  - eexists. split; [vm_compute; reflexivity|]. reflexivity.
  - eexists. eexists. split; [vm_compute; reflexivity|]. split; reflexivity.
Qed.

(** ** Amounts in the summary *)

(** The builtin [float] rejects every string that holds a comma. *)
Lemma py_float_rejects_commas (s : string) :
  In ","%char (list_ascii_of_string s) -> py_float (VStr s) = Raise ValueError.
Proof.
  intros Hin. simpl. destruct (PyFloat.of_string s) as [f|] eqn:Hs; [|reflexivity].
  exfalso. exact (of_string_no_comma _ _ Hs Hin).
Qed.

(** C3 (defect): the summary does not normalize its amounts.  It calls
    the builtin [float], which raises on "600,000" and on "-"; the
    exception is caught by the method and the summary is [None].  The
    trend chart of the same rows normalizes with [safe_convert] and is
    produced. *)
Theorem summary_lost_on_unnormalized_amount :
  safe_convert (VStr "600,000") = PyFloat.of_int 600000 /\
  py_float (VStr "600,000") = Raise ValueError /\
  py_float (VStr "-") = Raise ValueError /\
  _create_analysis_summary comma_amount_rows "2022" "2022" = None /\
  _create_analysis_summary dash_amount_rows "2022" "2022" = None /\
  (exists c, create_period_charts comma_amount_rows = Ok c /\
             Dict.mem c "ratio_trend" = true).
Proof.
  repeat split; try (vm_compute; reflexivity).
  eexists. split; vm_compute; reflexivity.
Qed.

(** ** The single-year path *)





(** A row tagged CFS in both fields reaches both groups of the
    multi-year path and no list of the single-year path. *)
Example combined_row_single_year :
  let row := mk_item "2022" "CFS" "CFS" acc_revenue "500,000" in
  single_year_bs [row] = [] /\ single_year_is [row] = [] /\
  create_financial_charts [row] = Ok Dict.empty /\
  Dict.get (group_by_year [row]) "2022" = Some {| BS := [row]; IS := [row] |}.
Proof. repeat split. Qed.

(** ** [sorted] on year strings *)

Lemma ltb_leb (a b : string) : String.ltb a b = true -> str_le a b.
Proof.
  unfold String.ltb, str_le, String.leb. destruct (String.compare a b); congruence.
Qed.

Lemma not_ltb_leb (a b : string) : String.ltb a b = false -> str_le b a.
Proof.
  unfold String.ltb, str_le, String.leb. rewrite (String.compare_antisym a b).
  destruct (String.compare b a); simpl; congruence.
Qed.

Lemma insert_sorted_perm (x : string) (l : list string) :
  Permutation (insert_sorted x l) (x :: l).
Proof.
  induction l as [|y r IH]; simpl; [reflexivity|].
  destruct (String.ltb x y); [reflexivity|].
  rewrite IH. apply perm_swap.
Qed.

Lemma sorted_perm (l : list string) : Permutation (sorted l) l.
Proof.
  unfold sorted.
  assert (H : forall acc, Permutation (fold_left (fun a x => insert_sorted x a) l acc)
                            (acc ++ l)).
  { induction l as [|x r IH]; intros acc; simpl.
    - now rewrite app_nil_r.
    - rewrite IH, insert_sorted_perm. apply Permutation_middle. }
  exact (H []).
Qed.

Lemma insert_sorted_HdRel (y x : string) (l : list string) :
  HdRel str_le y l -> str_le y x -> HdRel str_le y (insert_sorted x l).
Proof.
  intros Hl Hx. destruct l as [|z r]; simpl.
  - constructor. exact Hx.
  - destruct (String.ltb x z); constructor; [exact Hx|].
    inversion Hl. assumption.
Qed.

Lemma insert_sorted_Sorted (x : string) (l : list string) :
  Sorted str_le l -> Sorted str_le (insert_sorted x l).
Proof.
  induction l as [|y r IH]; simpl; intros Hs.
  - repeat constructor.
  - destruct (String.ltb x y) eqn:Hxy.
    + constructor; [exact Hs|]. constructor. exact (ltb_leb _ _ Hxy).
    + inversion Hs as [|? ? Hr Hhd]; subst.
      constructor; [exact (IH Hr)|].
      apply insert_sorted_HdRel; [exact Hhd | exact (not_ltb_leb _ _ Hxy)].
Qed.

Lemma sorted_Sorted (l : list string) : Sorted str_le (sorted l).
Proof.
  unfold sorted.
  assert (H : forall acc, Sorted str_le acc ->
                          Sorted str_le (fold_left (fun a x => insert_sorted x a) l acc)).
  { induction l as [|x r IH]; intros acc Ha; simpl; [exact Ha|].
    apply IH, insert_sorted_Sorted, Ha. }
  apply H. constructor.
Qed.

Lemma digits_value_cons (c : ascii) (r : list ascii) :
  PyFloat.digits_value (c :: r) =
  PyFloat.digit_val c * 10 ^ Z.of_nat (List.length r) + PyFloat.digits_value r.
Proof.
  unfold PyFloat.digits_value. cbn [fold_left].
  assert (H : forall acc,
             fold_left (fun a d => 10 * a + PyFloat.digit_val d) r acc =
             acc * 10 ^ Z.of_nat (List.length r) +
             fold_left (fun a d => 10 * a + PyFloat.digit_val d) r 0).
  { induction r as [|d r IH]; intros acc.
    - simpl. lia.
    - cbn [fold_left List.length]. rewrite IH, (IH (10 * 0 + PyFloat.digit_val d)).
      rewrite Nat2Z.inj_succ, Z.pow_succ_r by lia. ring. }
  rewrite H. ring.
Qed.

Lemma digit_val_range (c : ascii) :
  PyFloat.is_digit c = true -> 0 <= PyFloat.digit_val c <= 9.
Proof.
  unfold PyFloat.is_digit, PyFloat.digit_val. intros H.
  apply andb_true_iff in H. destruct H as [H1 H2].
  apply Nat.leb_le in H1, H2. lia.
Qed.

Lemma digits_value_range (l : list ascii) :
  Forall (fun c => PyFloat.is_digit c = true) l ->
  0 <= PyFloat.digits_value l < 10 ^ Z.of_nat (List.length l).
Proof.
  induction 1 as [|c r Hc Hr IH].
  - unfold PyFloat.digits_value. simpl. lia.
  - rewrite digits_value_cons. cbn [List.length].
    rewrite Nat2Z.inj_succ, Z.pow_succ_r by lia.
    pose proof (digit_val_range c Hc) as Hd.
    set (P := 10 ^ Z.of_nat (List.length r)) in *.
    assert (PyFloat.digit_val c * P <= 9 * P) by (apply Z.mul_le_mono_nonneg_r; lia).
    assert (0 <= PyFloat.digit_val c * P) by (apply Z.mul_nonneg_nonneg; lia).
    lia.
Qed.

Lemma ascii_compare_digit_val (c d : ascii) :
  Ascii.compare c d = Lt -> PyFloat.digit_val c < PyFloat.digit_val d.
Proof.
  unfold Ascii.compare, PyFloat.digit_val, nat_of_ascii. intros H.
  rewrite N.compare_lt_iff in H. rewrite !N_nat_Z. lia.
Qed.

(** On digit strings of one width the order of [str] is the order of
    the numbers. *)
Lemma str_le_numeric (a b : string) :
  String.length a = String.length b ->
  Forall (fun c => PyFloat.is_digit c = true) (list_ascii_of_string a) ->
  Forall (fun c => PyFloat.is_digit c = true) (list_ascii_of_string b) ->
  str_le a b -> year_number a <= year_number b.
Proof.
  unfold str_le, String.leb, year_number.
  revert b. induction a as [|c a IH]; intros [|d b];
    cbn [String.length list_ascii_of_string].
  - intros _ _ _ _. apply Z.le_refl.
  - discriminate.
  - discriminate.
  - intros Hlen Ha Hb Hle. cbn [String.compare] in Hle. injection Hlen as Hlen.
    inversion Ha as [|? ? Hc Ha']; subst. inversion Hb as [|? ? Hd Hb']; subst.
    rewrite !digits_value_cons.
    assert (Hl : List.length (list_ascii_of_string a) = List.length (list_ascii_of_string b)).
    { clear -Hlen. revert b Hlen. induction a as [|x a IHa]; intros [|y b]; simpl;
        intros H; try discriminate; [reflexivity|]. f_equal. apply IHa. now injection H. }
    rewrite Hl.
    pose proof (digits_value_range _ Ha') as Ra. rewrite Hl in Ra.
    pose proof (digits_value_range _ Hb') as Rb.
    destruct (Ascii.compare c d) eqn:Hcd.
    + apply Ascii.compare_eq_iff in Hcd. subst d.
      specialize (IH b Hlen Ha' Hb' Hle). lia.
    + apply ascii_compare_digit_val in Hcd.
      set (P := 10 ^ Z.of_nat (List.length (list_ascii_of_string b))) in *.
      assert ((PyFloat.digit_val c + 1) * P <= PyFloat.digit_val d * P)
        by (apply Z.mul_le_mono_nonneg_r; lia).
      lia.
    + discriminate.
Qed.

Lemma Sorted_weaken {A : Type} (R S : A -> A -> Prop) (l : list A) :
  (forall a b, In a l -> In b l -> R a b -> S a b) -> Sorted R l -> Sorted S l.
Proof.
  intros H Hs. induction Hs as [|a l Hs IH Hhd]; [constructor|].
  constructor.
  - apply IH. intros x y Hx Hy. apply H; now right.
  - destruct Hhd as [|b l' Hab]; constructor.
    apply H; [now left | right; now left | exact Hab].
Qed.

(** ** The aggregation summary *)

Lemma nonempty_true {A : Type} (l : list A) : nonempty l = true <-> l <> [].
Proof. destruct l; simpl; split; congruence. Qed.

Lemma skip_test (g : year_groups) :
  negb (nonempty (BS g)) || negb (nonempty (IS g)) = negb (nonempty (BS g) && nonempty (IS g)).
Proof. now rewrite negb_andb. Qed.

Lemma summary_metrics_bundles (yd : Dict.t year_groups) (ys : list string) :
  forall km0 km, summary_metrics yd ys km0 = Ok km ->
  forall y b, Dict.get km y = Some b ->
    Dict.get km0 y = Some b \/
    (In y ys /\ exists g, Dict.get yd y = Some g /\
                          BS g <> [] /\ IS g <> [] /\ bundle_of g b).
Proof.
  induction ys as [|year rest IH]; intros km0 km H y b Hget.
  - simpl in H. injection H as <-. now left.
  - cbn [summary_metrics] in H.
    destruct (Dict.get yd year) as [g|] eqn:Hg; [|discriminate].
    rewrite skip_test in H.
    destruct (nonempty (BS g) && nonempty (IS g)) eqn:Hne; cbn [negb] in H.
    + apply bind_ok in H. destruct H as [rv [Hrv H]].
      apply bind_ok in H. destruct H as [ni [Hni H]].
      apply bind_ok in H. destruct H as [ta [Hta H]].
      apply bind_ok in H. destruct H as [te [Hte H]].
      destruct (IH _ _ H _ _ Hget) as [Hl|[Hin Hr]].
      * rewrite dict_get_set in Hl.
        destruct (String.eqb year y) eqn:E; [|now left].
        apply String.eqb_eq in E. subst y. injection Hl as <-.
        right. split; [now left|]. exists g.
        apply andb_true_iff in Hne. destruct Hne as [Hb Hi].
        apply nonempty_true in Hb, Hi.
        repeat split; assumption.
      * right. split; [now right | exact Hr].
    + destruct (IH _ _ H _ _ Hget) as [Hl|[Hin Hr]]; [now left|].
      right. split; [now right | exact Hr].
Qed.

Lemma summary_metrics_keys (yd : Dict.t year_groups) (ys : list string) :
  forall km0 km, summary_metrics yd ys km0 = Ok km ->
  NoDup ys -> (forall y, In y ys -> ~ In y (Dict.keys km0)) ->
  Dict.keys km = (Dict.keys km0 ++ filter (included yd) ys)%list.
Proof.
  induction ys as [|year rest IH]; intros km0 km H Hnd Hfresh.
  - simpl in H. injection H as <-. simpl. now rewrite app_nil_r.
  - cbn [summary_metrics] in H. cbn [filter]. unfold included at 1.
    inversion Hnd as [|? ? Hnotin Hnd']; subst.
    destruct (Dict.get yd year) as [g|] eqn:Hg; [|discriminate].
    rewrite skip_test in H.
    destruct (nonempty (BS g) && nonempty (IS g)) eqn:Hne; cbn [negb] in H.
    + apply bind_ok in H. destruct H as [rv [Hrv H]].
      apply bind_ok in H. destruct H as [ni [Hni H]].
      apply bind_ok in H. destruct H as [ta [Hta H]].
      apply bind_ok in H. destruct H as [te [Hte H]].
      assert (Hm : Dict.mem km0 year = false).
      { destruct (Dict.mem km0 year) eqn:Hm; [|reflexivity].
        apply dict_mem_keys in Hm. exfalso. apply (Hfresh year); [now left | exact Hm]. }
      rewrite (IH _ _ H Hnd'), dict_keys_set, Hm.
      * now rewrite <- app_assoc.
      * intros y Hy. rewrite dict_keys_set, Hm, in_app_iff.
        intros [Hk|[->|[]]]; [|exact (Hnotin Hy)].
        apply (Hfresh y); [now right | exact Hk].
    + apply (IH _ _ H Hnd'). intros y Hy. apply Hfresh. now right.
Qed.

(** What a produced summary holds. *)
Lemma summary_fields (data : list item) (sy ey : string) (s : summary) :
  _create_analysis_summary data sy ey = Some s ->
  years s = sorted (Dict.keys (group_by_year data)) /\
  total_years s = Dict.len (group_by_year data) /\
  period s = sy ++ "년 ~ " ++ ey ++ "년" /\
  summary_metrics (group_by_year data) (sorted (Dict.keys (group_by_year data)))
    Dict.empty = Ok (key_metrics s).
Proof.
  unfold _create_analysis_summary, analysis_summary_body.
  destruct (summary_metrics (group_by_year data)
              (sorted (Dict.keys (group_by_year data))) Dict.empty) as [km|e];
    simpl; [|discriminate].
  intros H. injection H as <-. simpl. auto.
Qed.

Lemma summary_bundle (data : list item) (sy ey : string) (s : summary)
    (y : string) (b : metrics) :
  _create_analysis_summary data sy ey = Some s ->
  Dict.get (key_metrics s) y = Some b ->
  exists g, Dict.get (group_by_year data) y = Some g /\
            BS g <> [] /\ IS g <> [] /\ bundle_of g b.
Proof.
  intros Hs Hb. apply summary_fields in Hs. destruct Hs as (_ & _ & _ & Hm).
  destruct (summary_metrics_bundles _ _ _ _ Hm _ _ Hb) as [H|[_ H]];
    [discriminate | exact H].
Qed.

Lemma sorted_NoDup (l : list string) : NoDup l -> NoDup (sorted l).
Proof.
  intros H. apply (Permutation_NoDup (l := l)); [|exact H].
  symmetry. apply sorted_perm.
Qed.

Lemma sorted_In (l : list string) (y : string) : In y (sorted l) <-> In y l.
Proof.
  split; apply Permutation_in; [apply sorted_perm | symmetry; apply sorted_perm].
Qed.

Lemma summary_key_order (data : list item) (sy ey : string) (s : summary) :
  _create_analysis_summary data sy ey = Some s ->
  Dict.keys (key_metrics s) = filter (included (group_by_year data)) (years s).
Proof.
  intros Hs. apply summary_fields in Hs. destruct Hs as (-> & _ & _ & Hm).
  apply summary_metrics_keys in Hm; [exact Hm | | easy].
  apply sorted_NoDup, keys_group_by_year_NoDup.
Qed.

(** The years of [key_metrics] are the years with both groups non-empty. *)
Lemma key_metrics_years (data : list item) (sy ey : string) (s : summary) (y : string) :
  _create_analysis_summary data sy ey = Some s ->
  (In y (Dict.keys (key_metrics s)) <->
   exists g, Dict.get (group_by_year data) y = Some g /\ BS g <> [] /\ IS g <> []).
Proof.
  intros Hs. pose proof (summary_key_order _ _ _ _ Hs) as Hk.
  pose proof (summary_fields _ _ _ _ Hs) as (Hy & _ & _ & _).
  rewrite Hk, filter_In, Hy, sorted_In. unfold included.
  split.
  - intros [_ Hi]. destruct (Dict.get (group_by_year data) y) as [g|]; [|discriminate].
    apply andb_true_iff in Hi. destruct Hi as [Hb Hi].
    apply nonempty_true in Hb, Hi. eauto.
  - intros [g [Hg [Hb Hi]]]. split.
    + apply dict_mem_keys. unfold Dict.mem. now rewrite Hg.
    + rewrite Hg. apply andb_true_iff. split; now apply nonempty_true.
Qed.

(** C1 (as stated, refuted): for the range 2021-2022 in which 2021 has no
    balance sheet group, the summary still lists 2021 in [years] and
    counts it: [total_years] is 2, not 1.  Only [key_metrics] leaves the
    year out. *)
Lemma summary_lists_year_without_balance_sheet :
  exists s g,
    _create_analysis_summary income_only_2021_rows "2021" "2022" = Some s /\
    Dict.get (group_by_year income_only_2021_rows) "2021" = Some g /\ BS g = [] /\
    years s = ["2021"; "2022"] /\ total_years s = 2%nat /\
    Dict.keys (key_metrics s) = ["2022"].
Proof.
  eexists. eexists. split; [vm_compute; reflexivity|].
  split; [vm_compute; reflexivity|]. repeat split.
Qed.

(** C1 (amended): in a produced summary, the per-year metric bundle
    [key_metrics] holds a year exactly when both its balance sheet group
    and its income statement group are non-empty; [years] lists every
    year that occurs in the input, each once, and [total_years] is the
    length of that list. *)
Theorem summary_year_inclusion (data : list item) (sy ey : string) (s : summary) :
  _create_analysis_summary data sy ey = Some s ->
  (forall y, In y (Dict.keys (key_metrics s)) <->
             exists g, Dict.get (group_by_year data) y = Some g /\
                       BS g <> [] /\ IS g <> []) /\
  (forall y, In y (years s) <-> exists row, In row data /\ bsns_year row = y) /\
  NoDup (years s) /\
  total_years s = List.length (years s).
Proof.
  intros Hs.
  pose proof (summary_fields _ _ _ _ Hs) as (Hy & Ht & _ & _).
  split; [|split; [|split]].
  - intros y. exact (key_metrics_years _ _ _ _ y Hs).
  - intros y. rewrite Hy, sorted_In. apply keys_group_by_year_In.
  - rewrite Hy. apply sorted_NoDup, keys_group_by_year_NoDup.
  - rewrite Ht, Hy. unfold Dict.len, Dict.keys.
    rewrite (Permutation_length (sorted_perm _)), length_map. reflexivity.
Qed.

Lemma summary_year_inclusion_witness :
  exists s, _create_analysis_summary income_only_2021_rows "2021" "2022" = Some s /\
            ~ In "2021" (Dict.keys (key_metrics s)) /\ In "2021" (years s).
Proof.
  eexists. split; [vm_compute; reflexivity|].
  destruct (summary_year_inclusion income_only_2021_rows "2021" "2022" _ eq_refl)
    as (Hk & Hy & _ & _).
  split.
  - intros H. apply Hk in H. destruct H as [g [Hg [Hb _]]].
    vm_compute in Hg. injection Hg as <-. now apply Hb.
  - apply Hy. eexists. split; [left; reflexivity | reflexivity].
Defined.

(** ** Year order *)

(** C8 (as stated, refuted): the years "999" and "2021" are listed as
    ["2021"; "999"], the order of the strings, where the integers ascend
    as 999, 2021. *)
Lemma summary_years_not_numeric :
  exists s, _create_analysis_summary mixed_width_rows "999" "2021" = Some s /\
            years s = ["2021"; "999"] /\
            year_number "999" < year_number "2021".
Proof.
  eexists. split; [vm_compute; reflexivity|]. split; reflexivity.
Qed.

(** C8 (amended): the summary lists the years of the input in ascending
    order of the strings (code point by code point), and fills
    [key_metrics] in that order; when all years are digit strings of one
    width, this is the ascending order of the numbers. *)
Theorem summary_years_sorted_as_strings (data : list item) (sy ey : string)
    (s : summary) :
  _create_analysis_summary data sy ey = Some s ->
  Sorted str_le (years s) /\
  Permutation (years s) (Dict.keys (group_by_year data)) /\
  Dict.keys (key_metrics s) = filter (included (group_by_year data)) (years s) /\
  (forall n, (forall row, In row data -> digits_of_width n (bsns_year row)) ->
             Sorted (fun a b => year_number a <= year_number b) (years s)).
Proof.
  intros Hs. pose proof (summary_fields _ _ _ _ Hs) as (Hy & _ & _ & _).
  split; [rewrite Hy; apply sorted_Sorted|].
  split; [rewrite Hy; apply sorted_perm|].
  split; [exact (summary_key_order _ _ _ _ Hs)|].
  intros n Hn.
  assert (Hw : forall y, In y (years s) -> digits_of_width n y).
  { intros y Hin. rewrite Hy, sorted_In in Hin.
    apply keys_group_by_year_In in Hin. destruct Hin as [row [Hin <-]]. auto. }
  apply (Sorted_weaken str_le); [|rewrite Hy; apply sorted_Sorted].
  intros a b Ha Hb Hab.
  destruct (Hw a Ha) as [La Da]. destruct (Hw b Hb) as [Lb Db].
  apply str_le_numeric; congruence.
Qed.

Lemma summary_years_sorted_as_strings_witness :
  exists s, _create_analysis_summary three_year_rows "2019" "2021" = Some s /\
            years s = ["2019"; "2020"; "2021"] /\
            Sorted (fun a b => year_number a <= year_number b) (years s).
Proof.
  eexists. split; [vm_compute; reflexivity|]. split; [reflexivity|].
  destruct (summary_years_sorted_as_strings three_year_rows "2019" "2021" _ eq_refl)
    as (_ & _ & _ & Hn).
  apply (Hn 4%nat). intros row Hin. simpl in Hin.
  destruct Hin as [<-|[<-|[<-|[]]]]; split; try reflexivity;
    repeat constructor.
Defined.

(** ** The two null policies *)

(** When the summary has a bundle for a year, the amounts it read with
    [float] are the amounts the ratio deriver reads with [safe_convert]. *)
Lemma bundle_normalized (g : year_groups) (b : metrics) :
  bundle_of g b ->
  normalized (IS g) acc_net_income = Ok (net_income b) /\
  normalized (BS g) acc_total_equity = Ok (total_equity b) /\
  normalized (BS g) acc_total_assets = Ok (total_assets b) /\
  normalized (IS g) acc_revenue = Ok (revenue b).
Proof.
  intros (Hrv & Hni & Hta & Hte & _ & _). unfold normalized.
  repeat split; apply safe_convert_of_py_float; assumption.
Qed.

Lemma ratio_or_zero_guard (num base : PyFloat.t) :
  PyFloat.gt0 base = false -> ratio_or_zero num base = VInt 0.
Proof. unfold ratio_or_zero. now intros ->. Qed.




(** C9 (as stated, refuted for the ratios over revenue): with revenue
    -10 both margins are absent from the output of the ratio deriver, and
    the bundle of the year in the summary has the six entries revenue,
    net_income, total_assets, total_equity, roe and roa, none of which is
    0: no margin is reported as 0. *)
Lemma summary_reports_no_margin :
  exists s g b rv,
    _create_analysis_summary negative_revenue_rows "2022" "2022" = Some s /\
    Dict.get (group_by_year negative_revenue_rows) "2022" = Some g /\
    Dict.get (key_metrics s) "2022" = Some b /\
    normalized (IS g) acc_revenue = Ok rv /\ PyFloat.lt0 rv = true /\
    ~ emits name_operating_margin (profitability_ratios (BS g) (IS g)) /\
    ~ emits name_net_margin (profitability_ratios (BS g) (IS g)) /\
    Dict.keys (metrics_dict b) =
      ["revenue"; "net_income"; "total_assets"; "total_equity"; "roe"; "roa"] /\
    forallb (fun kv => negb (is_zero_value (snd kv))) (metrics_dict b) = true.
Proof.
  eexists. eexists. eexists. eexists.
  split; [vm_compute; reflexivity|].
  split; [vm_compute; reflexivity|].
  split; [vm_compute; reflexivity|].
  split; [vm_compute; reflexivity|].
  split; [reflexivity|].
  split; [|split; [|split; reflexivity]];
    eapply omitted_margins; try (vm_compute; reflexivity); reflexivity.
Qed.

(** C9 (amended): the guard is [denominator > 0], not [denominator != 0].
    When total equity, total assets or revenue normalizes to a strictly
    negative (so nonzero) number, the ratios over it (ROE; ROA; operating
    margin and net margin) are absent from the output of the ratio
    deriver; and in every bundle of a produced summary ROE (ROA) is the
    number 0 when total equity (total assets) is strictly negative.  The
    bundle of the summary holds no ratio over revenue. *)
Theorem negative_denominator_guard :
  (forall bs_data is_data te,
     normalized bs_data acc_total_equity = Ok te -> PyFloat.lt0 te = true ->
     PyFloat.is_zero te = false /\
     ~ emits name_roe (profitability_ratios bs_data is_data)) /\
  (forall bs_data is_data ta,
     normalized bs_data acc_total_assets = Ok ta -> PyFloat.lt0 ta = true ->
     PyFloat.is_zero ta = false /\
     ~ emits name_roa (profitability_ratios bs_data is_data)) /\
  (forall bs_data is_data rv,
     normalized is_data acc_revenue = Ok rv -> PyFloat.lt0 rv = true ->
     PyFloat.is_zero rv = false /\
     ~ emits name_operating_margin (profitability_ratios bs_data is_data) /\
     ~ emits name_net_margin (profitability_ratios bs_data is_data)) /\
  (forall data sy ey s y g b,
     _create_analysis_summary data sy ey = Some s ->
     Dict.get (group_by_year data) y = Some g ->
     Dict.get (key_metrics s) y = Some b ->
     (forall te, normalized (BS g) acc_total_equity = Ok te ->
                 PyFloat.lt0 te = true -> roe b = VInt 0) /\
     (forall ta, normalized (BS g) acc_total_assets = Ok ta ->
                 PyFloat.lt0 ta = true -> roa b = VInt 0)).
Proof.
  split; [|split; [|split]].
  - intros bs_data is_data te Hte Hn. split; [exact (neg_not_zero _ Hn)|].
    exact (omitted_roe _ _ _ Hte (gt0_not_neg _ Hn)).
  - intros bs_data is_data ta Hta Hn. split; [exact (neg_not_zero _ Hn)|].
    exact (omitted_roa _ _ _ Hta (gt0_not_neg _ Hn)).
  - intros bs_data is_data rv Hrv Hn. split; [exact (neg_not_zero _ Hn)|].
    exact (omitted_margins _ _ _ Hrv (gt0_not_neg _ Hn)).
  - intros data sy ey s y g b Hs Hg Hb.
    destruct (summary_bundle _ _ _ _ _ _ Hs Hb) as [g' [Hg' [_ [_ Hbd]]]].
    assert (g' = g) by congruence. subst g'.
    destruct (bundle_normalized _ _ Hbd) as (_ & Hte' & Hta' & _).
    destruct Hbd as (_ & _ & _ & _ & -> & ->).
    split.
    + intros te Hte Hn. assert (total_equity b = te) by congruence. subst te.
      apply ratio_or_zero_guard, gt0_not_neg, Hn.
    + intros ta Hta Hn. assert (total_assets b = ta) by congruence. subst ta.
      apply ratio_or_zero_guard, gt0_not_neg, Hn.
Qed.

Lemma negative_denominator_guard_witness :
  exists s g b,
    _create_analysis_summary negative_equity_rows "2022" "2022" = Some s /\
    Dict.get (group_by_year negative_equity_rows) "2022" = Some g /\
    Dict.get (key_metrics s) "2022" = Some b /\
    ~ emits name_roe (profitability_ratios (BS g) (IS g)) /\
    ~ emits name_net_margin (profitability_ratios (BS g) (IS g)) /\
    roe b = VInt 0.
Proof.
  destruct negative_denominator_guard as (Hroe & _ & Hm & Hsum).
  eexists. eexists. eexists.
  split; [vm_compute; reflexivity|].
  split; [vm_compute; reflexivity|].
  split; [vm_compute; reflexivity|].
  split; [|split].
  - eapply Hroe; [vm_compute; reflexivity | reflexivity].
  - eapply Hm; [vm_compute; reflexivity | reflexivity].
  - eapply (Hsum negative_equity_rows "2022" "2022" _ "2022" _ _ eq_refl eq_refl eq_refl);
      [vm_compute; reflexivity | reflexivity].
Defined.

(** ** The summary and amounts with separators *)

(** A summary is lost as soon as one amount it reads, in a year that has
    both groups, is a string with a comma. *)
Lemma summary_lost_on_comma (data : list item) (sy ey : string) (y : string)
    (g : year_groups) (amount : string) :
  Dict.get (group_by_year data) y = Some g -> BS g <> [] -> IS g <> [] ->
  (current_amount (account_dict (BS g)) acc_total_equity = VStr amount \/
   current_amount (account_dict (BS g)) acc_total_assets = VStr amount \/
   current_amount (account_dict (IS g)) acc_revenue = VStr amount \/
   current_amount (account_dict (IS g)) acc_net_income = VStr amount) ->
  In ","%char (list_ascii_of_string amount) ->
  _create_analysis_summary data sy ey = None.
Proof.
  intros Hg Hb Hi Hamt Hc.
  destruct (_create_analysis_summary data sy ey) as [s|] eqn:Hs; [|reflexivity].
  exfalso.
  assert (Hin : In y (Dict.keys (key_metrics s)))
    by (apply (key_metrics_years _ _ _ _ y Hs); eauto).
  apply dict_mem_keys in Hin. unfold Dict.mem in Hin.
  destruct (Dict.get (key_metrics s) y) as [b|] eqn:Hb'; [|discriminate].
  destruct (summary_bundle _ _ _ _ _ _ Hs Hb') as [g' [Hg' [_ [_ Hbd]]]].
  assert (g' = g) by congruence. subst g'.
  destruct Hbd as (Hrv & Hni & Hta & Hte & _ & _).
  pose proof (py_float_rejects_commas _ Hc) as Hf.
  destruct Hamt as [E|[E|[E|E]]]; rewrite E in *; congruence.
Qed.

(** ** Worked examples *)

(** [float] agrees with CPython on decimal strings. *)
Example float_one_tenth :
  PyFloat.of_string "0.1" = Some (S754_finite false 7205759403792794 (-56)).
Proof. vm_compute. reflexivity. Qed.

Example float_1e23 :
  PyFloat.of_string "1e23" = Some (S754_finite false 5960464477539062 24).
Proof. vm_compute. reflexivity. Qed.

Example float_underscore_and_space :
  PyFloat.of_string " -1_000.50 " = PyFloat.of_string "-1000.5".
Proof. vm_compute. reflexivity. Qed.

Example float_overflow_is_inf :
  PyFloat.of_string "1e400" = Some (S754_infinity false).
Proof. vm_compute. reflexivity. Qed.

Example float_rejects :
  PyFloat.of_string "1,234" = None /\ PyFloat.of_string "-" = None /\
  PyFloat.of_string "" = None /\ PyFloat.of_string "1e" = None /\
  PyFloat.of_string "." = None /\ PyFloat.of_string "1__0" = None.
Proof. repeat split. Qed.

Example float_of_largest_int :
  PyFloat.of_int (2 ^ 1024 - 2 ^ 970 - 1) = Ok (S754_finite false 9007199254740991 971) /\
  PyFloat.of_int (2 ^ 1024 - 2 ^ 970) = Raise OverflowError.
Proof. split; vm_compute; reflexivity. Qed.

Example spec_example_ratios :
  exists recs, profitability_ratios spec_example_bs spec_example_is = Ok recs /\
    map (fun r => (ratio_name r, ratio r)) recs =
    [ (name_roe, PyFloat.of_small_int 10);
      (name_roa, PyFloat.of_small_int 6);
      (name_operating_margin, PyFloat.of_small_int 20);
      (name_net_margin, PyFloat.of_small_int 12) ].
Proof. eexists. split; vm_compute; reflexivity. Qed.

(** * Further properties of the code *)

(** ** The ratio deriver: order, pairing, exceptions *)

Lemma ratio_block_name_list (name form : string) (num base : PyFloat.t)
    (r : list ratio_record) :
  ratio_block name form num base = Ok r ->
  map ratio_name r = if PyFloat.gt0 base then [name] else [].
Proof.
  intros H. apply ratio_block_ok in H.
  destruct H as [[-> ->]|[-> [n [b ->]]]]; reflexivity.
Qed.

(** The ratios of the radar chart come in the fixed order ROE, ROA,
    operating margin, net margin; each is present exactly when its
    denominator is positive, so the two margins are present together. *)
Theorem radar_ratio_order (bs_data is_data : list item) (recs : list ratio_record)
    (te ta rv : PyFloat.t) :
  profitability_ratios bs_data is_data = Ok recs ->
  bs_data <> [] -> is_data <> [] ->
  normalized bs_data acc_total_equity = Ok te ->
  normalized bs_data acc_total_assets = Ok ta ->
  normalized is_data acc_revenue = Ok rv ->
  map ratio_name recs =
    ((if PyFloat.gt0 te then [name_roe] else []) ++
     (if PyFloat.gt0 ta then [name_roa] else []) ++
     (if PyFloat.gt0 rv then [name_operating_margin; name_net_margin] else []))%list.
Proof.
  intros Hok Hbs His Hte Hta Hrv.
  apply profitability_ratios_ok in Hok.
  destruct Hok as [[_ [E|E]]|[_ [_ H]]]; [congruence..|].
  destruct H as (ni & te' & ta' & oi & rv' & r1 & r2 & r3 & r4 &
                 Hni & Hte' & Hta' & Hoi & Hrv' & H1 & H2 & H3 & H4 & ->).
  assert (te' = te) by congruence. assert (ta' = ta) by congruence.
  assert (rv' = rv) by congruence. subst te' ta' rv'.
  rewrite !map_app.
  rewrite (ratio_block_name_list _ _ _ _ _ H1), (ratio_block_name_list _ _ _ _ _ H2),
    (ratio_block_name_list _ _ _ _ _ H3), (ratio_block_name_list _ _ _ _ _ H4).
  destruct (PyFloat.gt0 rv); reflexivity.
Qed.

Lemma radar_ratio_order_witness :
  exists recs, profitability_ratios spec_example_bs spec_example_is = Ok recs /\
               map ratio_name recs =
               [name_roe; name_roa; name_operating_margin; name_net_margin].
Proof.
  eexists. split; [vm_compute; reflexivity|].
  eapply (radar_ratio_order spec_example_bs spec_example_is _
            (S754_finite false 5153960755200000 (-33))
            (S754_finite false 8589934592000000 (-33))
            (S754_finite false 8589934592000000 (-34)));
    try discriminate; vm_compute; reflexivity.
Defined.

(** The radar chart is computed, without an exception, whenever the five
    amounts it reads normalize to numbers. *)
Theorem radar_returns_on_finite_amounts (bs_data is_data : list item)
    (ni te ta oi rv : PyFloat.t) :
  normalized is_data acc_net_income = Ok ni ->
  normalized bs_data acc_total_equity = Ok te ->
  normalized bs_data acc_total_assets = Ok ta ->
  normalized is_data acc_operating_income = Ok oi ->
  normalized is_data acc_revenue = Ok rv ->
  is_finite ni = true -> is_finite te = true -> is_finite ta = true ->
  is_finite oi = true -> is_finite rv = true ->
  exists recs, profitability_ratios bs_data is_data = Ok recs.
Proof.
  unfold normalized, profitability_ratios.
  intros Hni Hte Hta Hoi Hrv Fni Fte Fta Foi Frv.
  destruct bs_data as [|b0 bs]; [eauto|]. destruct is_data as [|i0 is_]; [eauto|].
  rewrite Hni, Hte, Hta, Hoi, Hrv. cbn [bind].
  destruct (to_int_finite _ Fni) as [nni Eni]. destruct (to_int_finite _ Fte) as [nte Ete].
  destruct (to_int_finite _ Fta) as [nta Eta]. destruct (to_int_finite _ Foi) as [noi Eoi].
  destruct (to_int_finite _ Frv) as [nrv Erv].
  unfold ratio_block. rewrite Eni, Ete, Eta, Eoi, Erv.
  destruct (PyFloat.gt0 te), (PyFloat.gt0 ta), (PyFloat.gt0 rv); cbn [bind]; eauto.
Qed.

Lemma radar_returns_on_finite_amounts_witness :
  exists recs, profitability_ratios equity_only_bs revenue_only_is = Ok recs.
Proof.
  eapply (radar_returns_on_finite_amounts equity_only_bs revenue_only_is);
    try (vm_compute; reflexivity); reflexivity.
Defined.

(** An amount such as "nan" passes the normalizer as NaN; as the net
    income over a positive total equity it makes the radar chart raise
    [ValueError], at [int(net_income)]. *)
Theorem radar_raises_on_nan_income (bs_data is_data : list item) (te : PyFloat.t) :
  bs_data <> [] -> is_data <> [] ->
  normalized is_data acc_net_income = Ok S754_nan ->
  normalized bs_data acc_total_equity = Ok te ->
  PyFloat.gt0 te = true ->
  profitability_ratios bs_data is_data = Raise ValueError /\
  create_profitability_radar_chart bs_data is_data = Raise ValueError.
Proof.
  unfold create_profitability_radar_chart, normalized, profitability_ratios.
  intros Hbs His Hni Hte Hg.
  destruct bs_data as [|b0 bs]; [congruence|]. destruct is_data as [|i0 is_]; [congruence|].
  rewrite Hni, Hte. cbn [bind]. unfold ratio_block. rewrite Hg. split; reflexivity.
Qed.

Lemma radar_raises_on_nan_income_witness :
  safe_convert (VStr "nan") = Ok S754_nan /\
  profitability_ratios equity_only_bs nan_income_is = Raise ValueError.
Proof.
  split; [reflexivity|].
  eapply (radar_raises_on_nan_income equity_only_bs nan_income_is);
    try discriminate; vm_compute; reflexivity.
Defined.

(** ** The trend charts and the summary *)

Lemma dict_set_fresh {V : Type} (d : Dict.t V) (k : string) (v : V) :
  Dict.mem d k = false -> Dict.set d k v = (d ++ [(k, v)])%list.
Proof.
  unfold Dict.mem. induction d as [|[k0 v0] r IH]; simpl; [reflexivity|].
  destruct (String.eqb k0 k); [discriminate|]. intros H. now rewrite IH.
Qed.

Lemma ratio_trend_lengths (yd : Dict.t year_groups) (ys : list string)
    (vs : list pyval * list pyval) :
  ratio_trend_values yd ys = Ok vs ->
  List.length (fst vs) = List.length (filter (included yd) ys) /\
  List.length (snd vs) = List.length (filter (included yd) ys).
Proof.
  revert vs. induction ys as [|year rest IH]; intros vs H.
  - simpl in H. injection H as <-. auto.
  - cbn [ratio_trend_values] in H. cbn [filter].
    destruct (Dict.get yd year) as [g|] eqn:Hg; [|discriminate].
    assert (Hi : included yd year = nonempty (BS g) && nonempty (IS g))
      by (unfold included; now rewrite Hg).
    rewrite Hi. rewrite skip_test in H.
    destruct (nonempty (BS g) && nonempty (IS g)); cbn [negb] in H.
    + apply bind_ok in H. destruct H as [ni [_ H]].
      apply bind_ok in H. destruct H as [te [_ H]].
      apply bind_ok in H. destruct H as [ta [_ H]].
      apply bind_ok in H. destruct H as [vs' [Hvs H]].
      injection H as <-. destruct (IH _ Hvs) as [H1 H2]. simpl. auto.
    + exact (IH _ H).
Qed.

(** The ratio trend chart puts every year of the data on its x axis, but
    holds one ROE and one ROA value only for the years that have both
    groups: when a year is skipped, the axes differ in length. *)
Theorem ratio_trend_axes (financial_data : list item) (c : Dict.t chart)
    (t : trend_chart) :
  create_ratio_trend_chart (group_by_year financial_data) = Ok c ->
  Dict.get c "ratio_trend" = Some (TrendChart t) ->
  trend_years t = sorted (Dict.keys (group_by_year financial_data)) /\
  (forall y, In y (trend_years t) <->
             exists row, In row financial_data /\ bsns_year row = y) /\
  List.length (trend_first t) =
    List.length (filter (included (group_by_year financial_data)) (trend_years t)) /\
  List.length (trend_second t) = List.length (trend_first t).
Proof.
  unfold create_ratio_trend_chart. intros H Hget.
  apply bind_ok in H. destruct H as [vs [Hvs H]].
  destruct (ratio_trend_lengths _ _ _ Hvs) as [L1 L2].
  destruct (fst vs) as [|v0 vr] eqn:Hf.
  - injection H as <-. discriminate.
  - injection H as <-. simpl in Hget. injection Hget as <-. cbn [trend_years trend_first trend_second].
    split; [reflexivity|]. split.
    + intros y. rewrite sorted_In. apply keys_group_by_year_In.
    + rewrite <- L1. split; [reflexivity | congruence].
Qed.

Lemma ratio_trend_axes_witness :
  exists c t,
    create_ratio_trend_chart (group_by_year income_only_2021_rows) = Ok c /\
    Dict.get c "ratio_trend" = Some (TrendChart t) /\
    List.length (trend_years t) = 2%nat /\ List.length (trend_first t) = 1%nat.
Proof.
  destruct (create_ratio_trend_chart (group_by_year income_only_2021_rows))
    as [c|e] eqn:Hc; [|vm_compute in Hc; discriminate].
  pose proof Hc as Hv. vm_compute in Hv. injection Hv as Hv.
  assert (Hg : exists t, Dict.get c "ratio_trend" = Some (TrendChart t))
    by (rewrite <- Hv; eexists; reflexivity).
  destruct Hg as [t Hg]. exists c, t. split; [reflexivity|]. split; [exact Hg|].
  destruct (ratio_trend_axes income_only_2021_rows c t Hc Hg) as (Hy & _ & H1 & _).
  rewrite H1, Hy. split; reflexivity.
Defined.

(** In step with the loop of the summary, the loop of the ratio trend
    chart computes the same ROE and ROA. *)
Lemma summary_metrics_trend (yd : Dict.t year_groups) (ys : list string) :
  forall km0 km, summary_metrics yd ys km0 = Ok km ->
  NoDup ys -> (forall y, In y ys -> ~ In y (Dict.keys km0)) ->
  exists added,
    km = (km0 ++ added)%list /\
    map fst added = filter (included yd) ys /\
    ratio_trend_values yd ys =
      Ok (map (fun kb => roe (snd kb)) added, map (fun kb => roa (snd kb)) added).
Proof.
  induction ys as [|year rest IH]; intros km0 km H Hnd Hfresh.
  - simpl in H. injection H as <-. exists []. rewrite app_nil_r. auto.
  - cbn [summary_metrics] in H. cbn [filter ratio_trend_values].
    inversion Hnd as [|? ? Hnotin Hnd']; subst.
    destruct (Dict.get yd year) as [g|] eqn:Hg; [|discriminate].
    assert (Hi : included yd year = nonempty (BS g) && nonempty (IS g))
      by (unfold included; now rewrite Hg).
    rewrite Hi. rewrite skip_test in *.
    destruct (nonempty (BS g) && nonempty (IS g)) eqn:Hne; cbn [negb] in *.
    + apply bind_ok in H. destruct H as [rv [Hrv H]].
      apply bind_ok in H. destruct H as [ni [Hni H]].
      apply bind_ok in H. destruct H as [ta [Hta H]].
      apply bind_ok in H. destruct H as [te [Hte H]].
      assert (Hm : Dict.mem km0 year = false).
      { destruct (Dict.mem km0 year) eqn:Hm; [|reflexivity].
        apply dict_mem_keys in Hm. exfalso. apply (Hfresh year); [now left | exact Hm]. }
      rewrite (dict_set_fresh _ _ _ Hm) in H.
      destruct (IH _ _ H Hnd') as [added [-> [Hk Ht]]].
      { intros y Hy. unfold Dict.keys. rewrite map_app, in_app_iff.
        intros [Hk|[<-|[]]]; [|exact (Hnotin Hy)].
        apply (Hfresh y); [now right | exact Hk]. }
      eexists. split; [rewrite <- app_assoc; reflexivity|].
      split; [simpl; now rewrite Hk|].
      rewrite (safe_convert_of_py_float _ _ Hni), (safe_convert_of_py_float _ _ Hte),
        (safe_convert_of_py_float _ _ Hta), Ht.
      reflexivity.
    + apply (IH _ _ H Hnd'). intros y Hy. apply Hfresh. now right.
Qed.

(** Whenever the summary is produced, the ratio trend chart of the same
    data is produced too and plots, year by year, the ROE and ROA of the
    summary's bundles. *)
Theorem trend_chart_plots_summary_ratios (financial_data : list item)
    (sy ey : string) (s : summary) :
  _create_analysis_summary financial_data sy ey = Some s ->
  ratio_trend_values (group_by_year financial_data) (years s) =
    Ok (map (fun kb => roe (snd kb)) (key_metrics s),
        map (fun kb => roa (snd kb)) (key_metrics s)).
Proof.
  intros Hs. apply summary_fields in Hs. destruct Hs as (-> & _ & _ & Hm).
  apply summary_metrics_trend in Hm.
  - destruct Hm as [added [-> [_ Ht]]]. exact Ht.
  - apply sorted_NoDup, keys_group_by_year_NoDup.
  - easy.
Qed.

Lemma trend_chart_plots_summary_ratios_witness :
  exists s vs,
    _create_analysis_summary zero_equity_rows "2022" "2022" = Some s /\
    ratio_trend_values (group_by_year zero_equity_rows) (years s) = Ok vs /\
    fst vs = [VInt 0].
Proof.
  eexists. eexists. split; [vm_compute; reflexivity|].
  split; [exact (trend_chart_plots_summary_ratios zero_equity_rows "2022" "2022" _ eq_refl)|].
  reflexivity.
Defined.

Lemma summary_metrics_raise_iff (yd : Dict.t year_groups) (ys : list string) :
  (forall y, In y ys -> Dict.mem yd y = true) ->
  forall km0,
    (exists e, summary_metrics yd ys km0 = Raise e) <->
    (exists y g, In y ys /\ Dict.get yd y = Some g /\
                 nonempty (BS g) && nonempty (IS g) = true /\
                 amounts_readable g = false).
Proof.
  induction ys as [|year rest IH]; intros Hkeys km0.
  - simpl. split; [intros [e H]; discriminate | intros (y & g & [] & _)].
  - cbn [summary_metrics].
    assert (Hy : Dict.mem yd year = true) by (apply Hkeys; now left).
    unfold Dict.mem in Hy. destruct (Dict.get yd year) as [g|] eqn:Hg; [|discriminate].
    assert (Hrest : forall y, In y rest -> Dict.mem yd y = true)
      by (intros y Hin; apply Hkeys; now right).
    rewrite skip_test.
    destruct (nonempty (BS g) && nonempty (IS g)) eqn:Hne; cbn [negb].
    + destruct (amounts_readable g) eqn:Hr.
      * pose proof Hr as Hr0. unfold amounts_readable in Hr.
        destruct (py_float (current_amount (account_dict (IS g)) acc_revenue)) as [rv|];
          [|discriminate].
        destruct (py_float (current_amount (account_dict (IS g)) acc_net_income)) as [ni|];
          [|discriminate].
        destruct (py_float (current_amount (account_dict (BS g)) acc_total_assets)) as [ta|];
          [|discriminate].
        destruct (py_float (current_amount (account_dict (BS g)) acc_total_equity)) as [te|];
          [|discriminate].
        cbn [bind]. rewrite (IH Hrest). split.
        -- intros (y & g' & Hin & H). exists y, g'. split; [now right | exact H].
        -- intros (y & g' & [<-|Hin] & Hg' & Hn & Hr').
           ++ assert (g' = g) by congruence. subst g'. congruence.
           ++ exists y, g'. auto.
      * split; [intros _; exists year, g; repeat split; auto; now left|].
        intros _. unfold amounts_readable in Hr.
        destruct (py_float (current_amount (account_dict (IS g)) acc_revenue)) as [rv|e1];
          [|exists e1; reflexivity].
        destruct (py_float (current_amount (account_dict (IS g)) acc_net_income)) as [ni|e2];
          [|exists e2; reflexivity].
        destruct (py_float (current_amount (account_dict (BS g)) acc_total_assets)) as [ta|e3];
          [|exists e3; reflexivity].
        destruct (py_float (current_amount (account_dict (BS g)) acc_total_equity)) as [te|e4];
          [discriminate | exists e4; reflexivity].
    + rewrite (IH Hrest). split.
      * intros (y & g' & Hin & H). exists y, g'. split; [now right | exact H].
      * intros (y & g' & [<-|Hin] & Hg' & Hn & Hr').
        -- assert (g' = g) by congruence. subst g'. congruence.
        -- exists y, g'. auto.
Qed.

(** For rows whose current amounts are texts, the summary is lost
    ([None]) exactly when some year with both groups
    has, among the four amounts the summary reads, one that the builtin
    [float] rejects. *)
Theorem summary_none_iff (financial_data : list item) (sy ey : string) :
  amounts_are_text financial_data = true ->
  (_create_analysis_summary financial_data sy ey = None <->
   exists y g, Dict.get (group_by_year financial_data) y = Some g /\
               BS g <> [] /\ IS g <> [] /\ amounts_readable g = false).
Proof.
  intros _.
  unfold _create_analysis_summary, analysis_summary_body.
  set (yd := group_by_year financial_data).
  pose proof (summary_metrics_raise_iff yd (sorted (Dict.keys yd))) as Hiff.
  assert (Hkeys : forall y, In y (sorted (Dict.keys yd)) -> Dict.mem yd y = true).
  { intros y Hin. apply dict_mem_keys. now apply sorted_In. }
  specialize (Hiff Hkeys Dict.empty).
  split.
  - intros H.
    destruct (summary_metrics yd (sorted (Dict.keys yd)) Dict.empty) as [km|e] eqn:Hm;
      [discriminate|].
    destruct Hiff as [Hiff _]. destruct (Hiff (ex_intro _ e eq_refl))
      as (y & g & _ & Hg & Hn & Hr).
    apply andb_true_iff in Hn. destruct Hn as [Hb Hi].
    exists y, g. repeat split; try assumption; now apply nonempty_true.
  - intros (y & g & Hg & Hb & Hi & Hr).
    destruct Hiff as [_ Hiff]. destruct Hiff as [e He].
    + exists y, g. split.
      * apply sorted_In, dict_mem_keys. unfold Dict.mem. now rewrite Hg.
      * repeat split; try assumption.
        apply andb_true_iff. split; now apply nonempty_true.
    + rewrite He. reflexivity.
Qed.

Lemma summary_none_iff_witness :
  _create_analysis_summary comma_amount_rows "2022" "2022" = None.
Proof.
  apply (summary_none_iff comma_amount_rows "2022" "2022"); [reflexivity|].
  exists "2022". eexists. split; [vm_compute; reflexivity|].
  split; [discriminate|]. split; [discriminate|]. vm_compute. reflexivity.
Defined.

(** ** The single-year charts *)






Lemma statement_chart_shape (key_accounts : list string) (name : string)
    (data : list item) (d : Dict.t chart) :
  statement_chart key_accounts name data = Ok d ->
  d = [] \/ exists b, d = [(name, BarChart b); (name ++ "_table", BarChart b)].
Proof.
  unfold statement_chart. destruct data as [|a0 data0]; [intros H; injection H as <-; auto|].
  destruct (filter _ (a0 :: data0)); [intros H; injection H as <-; auto|].
  intros H.
  apply bind_ok in H. destruct H as [rows [_ H]].
  apply bind_ok in H. destruct H as [max_val [_ H]].
  apply bind_ok in H. destruct H as [cur_text [_ H]].
  apply bind_ok in H. destruct H as [prev_text [_ H]].
  apply bind_ok in H. destruct H as [delta_text [_ H]].
  injection H as <-. right. eexists. reflexivity.
Qed.

Lemma radar_chart_shape (bs_data is_data : list item) (d : Dict.t chart) :
  create_profitability_radar_chart bs_data is_data = Ok d ->
  d = [] \/ exists l, d = [("profitability_radar", RadarChart l)].
Proof.
  unfold create_profitability_radar_chart. intros H.
  apply bind_ok in H. destruct H as [ratios [_ H]].
  destruct ratios; injection H as <-; eauto.
Qed.

Lemma donut_chart_shape (bs_data : list item) (d : Dict.t chart) :
  create_debt_ratio_donut_chart bs_data = Ok d ->
  d = [] \/ exists x, d = [("debt_ratio_donut", DonutChart x)].
Proof.
  unfold create_debt_ratio_donut_chart. destruct bs_data as [|b0 bs].
  - intros H. injection H as <-. auto.
  - intros H.
    apply bind_ok in H. destruct H as [debt [_ H]].
    apply bind_ok in H. destruct H as [equity [_ H]].
    destruct (PyFloat.is_zero debt && PyFloat.is_zero equity).
    + injection H as <-. auto.
    + apply bind_ok in H. destruct H as [dt [_ H]].
      apply bind_ok in H. destruct H as [et [_ H]].
      injection H as <-. eauto.
Qed.

(** The charts of a single year are the charts of the four builders put
    one after the other, in the order balance sheet, income statement,
    radar, donut; the ratio charts exist only when both lists are
    non-empty, and the repeated fourth step (the combined ratio charts)
    changes nothing. *)
Theorem financial_charts_compose (financial_data : list item) (c : Dict.t chart) :
  create_financial_charts financial_data = Ok c ->
  let bs_data := single_year_bs financial_data in
  let is_data := single_year_is financial_data in
  exists d1 d2 d3 d4,
    (if nonempty bs_data then create_balance_sheet_chart bs_data = Ok d1 else d1 = []) /\
    (if nonempty is_data then create_income_statement_chart is_data = Ok d2 else d2 = []) /\
    (if nonempty bs_data && nonempty is_data
     then create_profitability_radar_chart bs_data is_data = Ok d3 /\
          create_debt_ratio_donut_chart bs_data = Ok d4
     else d3 = [] /\ d4 = []) /\
    c = (d1 ++ d2 ++ d3 ++ d4)%list.
Proof.
  intros H bs_data is_data.
  assert (Hc : financial_charts_of bs_data is_data = Ok c).
  { unfold create_financial_charts in H. destruct financial_data; [|exact H].
    injection H as <-. reflexivity. }
  clear H. unfold financial_charts_of in Hc.
  apply bind_ok in Hc. destruct Hc as [c1 [H1 Hc]].
  apply bind_ok in Hc. destruct Hc as [c2 [H2 Hc]].
  apply bind_ok in Hc. destruct Hc as [c3 [H3 Hc]].
  apply bind_ok in Hc. destruct Hc as [c4 [H4 Hc]].
  injection Hc as <-.
  assert (E1 : exists d1, (if nonempty bs_data then create_balance_sheet_chart bs_data = Ok d1
                           else d1 = []) /\ c1 = dict_update Dict.empty d1 /\
                          (d1 = [] \/ exists b, d1 = [("balance_sheet", BarChart b);
                                                       ("balance_sheet_table", BarChart b)])).
  { destruct (nonempty bs_data).
    - apply bind_ok in H1. destruct H1 as [d1 [Hd1 H1]]. injection H1 as <-.
      exists d1. repeat split; [exact Hd1|].
      exact (statement_chart_shape _ _ _ _ Hd1).
    - injection H1 as <-. exists []. auto. }
  destruct E1 as [d1 [Hd1 [-> S1]]].
  assert (E2 : exists d2, (if nonempty is_data then create_income_statement_chart is_data = Ok d2
                           else d2 = []) /\
                          c2 = dict_update (dict_update Dict.empty d1) d2 /\
                          (d2 = [] \/ exists b, d2 = [("income_statement", BarChart b);
                                                       ("income_statement_table", BarChart b)])).
  { destruct (nonempty is_data).
    - apply bind_ok in H2. destruct H2 as [d2 [Hd2 H2]]. injection H2 as <-.
      exists d2. repeat split; [exact Hd2|].
      exact (statement_chart_shape _ _ _ _ Hd2).
    - injection H2 as <-. exists []. auto. }
  destruct E2 as [d2 [Hd2 [-> S2]]].
  exists d1, d2.
  destruct (nonempty bs_data && nonempty is_data).
  - apply bind_ok in H3. destruct H3 as [d3 [Hd3 H3]].
    apply bind_ok in H3. destruct H3 as [d4 [Hd4 H3]]. injection H3 as <-.
    unfold create_combined_financial_ratios_chart in H4. rewrite Hd3, Hd4 in H4.
    cbn [bind] in H4. injection H4 as <-.
    exists d3, d4. split; [exact Hd1|]. split; [exact Hd2|]. split; [auto|].
    apply radar_chart_shape in Hd3. apply donut_chart_shape in Hd4.
    destruct S1 as [->|[b1 ->]], S2 as [->|[b2 ->]],
      Hd3 as [->|[l ->]], Hd4 as [->|[x ->]]; reflexivity.
  - injection H3 as <-. injection H4 as <-.
    exists [], []. split; [exact Hd1|]. split; [exact Hd2|]. split; [auto|].
    destruct S1 as [->|[b1 ->]], S2 as [->|[b2 ->]]; reflexivity.
Qed.

Lemma financial_charts_compose_witness :
  exists c, create_financial_charts duplicate_equity_rows = Ok c /\
            Dict.keys c = ["balance_sheet"; "balance_sheet_table"; "income_statement";
                           "income_statement_table"; "profitability_radar";
                           "debt_ratio_donut"].
Proof.
  destruct (create_financial_charts duplicate_equity_rows) as [c|e] eqn:Hc;
    [|vm_compute in Hc; discriminate].
  exists c. split; [reflexivity|].
  destruct (financial_charts_compose _ _ Hc) as (d1 & d2 & d3 & d4 & H1 & H2 & [H3 H4] & ->).
  vm_compute in H1, H2, H3, H4.
  injection H1 as <-. injection H2 as <-. injection H3 as <-. injection H4 as <-.
  reflexivity.
Defined.

(** ** [str(n)] and [int(s)] *)

Lemma digit_char_ok (d : Z) :
  0 <= d <= 9 ->
  PyFloat.is_digit (digit_char d) = true /\ PyFloat.digit_val (digit_char d) = d /\
  Ascii.eqb (digit_char d) "_" = false /\ Ascii.eqb (digit_char d) "," = false /\
  PyFloat.is_space (digit_char d) = false /\
  Ascii.eqb (digit_char d) "-" = false /\ Ascii.eqb (digit_char d) "+" = false.
Proof.
  intros H.
  assert (E : d = 0 \/ d = 1 \/ d = 2 \/ d = 3 \/ d = 4 \/ d = 5 \/ d = 6 \/ d = 7 \/
              d = 8 \/ d = 9) by lia.
  repeat (destruct E as [->|E]; [repeat split|]); subst; repeat split.
Qed.

Lemma digits_value_snoc (l : list ascii) (c : ascii) :
  PyFloat.digits_value (l ++ [c]) = 10 * PyFloat.digits_value l + PyFloat.digit_val c.
Proof. unfold PyFloat.digits_value. now rewrite fold_left_app. Qed.

Lemma digits_of_spec (fuel : nat) :
  forall n acc, 0 <= n < 10 ^ Z.of_nat fuel -> (0 < fuel)%nat ->
  exists digs, digits_of fuel n acc = (digs ++ acc)%list /\
               plain_digits digs /\ digs <> [] /\ PyFloat.digits_value digs = n.
Proof.
  induction fuel as [|f IH]; intros n acc Hn Hf; [lia|].
  cbn [digits_of].
  assert (Hm : 0 <= n mod 10 <= 9) by (pose proof (Z.mod_pos_bound n 10); lia).
  destruct (n <? 10) eqn:Hlt.
  - apply Z.ltb_lt in Hlt. exists [digit_char (n mod 10)].
    split; [reflexivity|]. split; [repeat constructor; eauto|]. split; [discriminate|].
    unfold PyFloat.digits_value. simpl.
    destruct (digit_char_ok _ Hm) as (_ & -> & _). rewrite Z.mod_small; lia.
  - apply Z.ltb_ge in Hlt.
    assert (Hf' : (0 < f)%nat).
    { destruct f; [|lia]. simpl in Hn. lia. }
    assert (Hq : 0 <= n / 10 < 10 ^ Z.of_nat f).
    { rewrite Nat2Z.inj_succ, Z.pow_succ_r in Hn by lia.
      split; [apply Z.div_pos; lia | apply Z.div_lt_upper_bound; lia]. }
    destruct (IH (n / 10) (digit_char (n mod 10) :: acc) Hq Hf')
      as (digs & Hd & Hp & _ & Hv).
    exists (digs ++ [digit_char (n mod 10)])%list.
    split; [rewrite Hd, <- app_assoc; reflexivity|].
    split; [apply Forall_app; split; [exact Hp | repeat constructor; eauto]|].
    split; [destruct digs; discriminate|].
    rewrite digits_value_snoc, Hv.
    destruct (digit_char_ok _ Hm) as (_ & -> & _).
    pose proof (Z.div_mod n 10). lia.
Qed.

Lemma decimal_digits_spec (n : Z) :
  0 <= n ->
  plain_digits (decimal_digits n) /\ decimal_digits n <> [] /\
  PyFloat.digits_value (decimal_digits n) = n.
Proof.
  intros Hn. unfold decimal_digits.
  destruct (digits_of_spec (S (Z.to_nat (Z.log2 n))) n []) as (digs & Hd & Hp & Hne & Hv).
  - split; [exact Hn|].
    rewrite Nat2Z.inj_succ, Z2Nat.id by apply Z.log2_nonneg.
    destruct (Z.eq_dec n 0) as [->|Hz]; [reflexivity|].
    assert (Hpos : 0 < n) by lia.
    pose proof (Z.log2_spec n Hpos) as [_ Hup].
    eapply Z.lt_le_trans; [exact Hup|].
    apply Z.pow_le_mono_l. pose proof (Z.log2_nonneg n). lia.
  - lia.
  - rewrite app_nil_r in Hd. rewrite Hd. auto.
Qed.

Lemma plain_digits_are_digits (l : list ascii) :
  plain_digits l -> Forall (fun c => PyFloat.is_digit c = true) l.
Proof.
  intros H. eapply Forall_impl; [|exact H].
  intros c [d [Hd ->]]. now destruct (digit_char_ok _ Hd).
Qed.

Lemma span_all (p : ascii -> bool) (l : list ascii) :
  Forall (fun c => p c = true) l -> PyFloat.span p l = (l, []).
Proof.
  induction 1 as [|c r Hc Hr IH]; simpl; [reflexivity|]. now rewrite Hc, IH.
Qed.

Lemma remove_underscores_none (l : list ascii) :
  Forall (fun c => Ascii.eqb c "_" = false) l ->
  forall prev, Ascii.eqb prev "_" = false -> PyFloat.remove_underscores prev l = Some l.
Proof.
  induction 1 as [|c r Hc Hr IH]; intros prev Hp; simpl.
  - now rewrite Hp.
  - rewrite Hc, Hp. cbn [andb]. now rewrite (IH c Hc).
Qed.

Lemma drop_while_head (p : ascii -> bool) (c : ascii) (r : list ascii) :
  p c = false -> PyFloat.drop_while p (c :: r) = c :: r.
Proof. simpl. now intros ->. Qed.

Lemma strip_no_space_ends (l : list ascii) :
  (forall c r, l = c :: r -> PyFloat.is_space c = false) ->
  (forall c r, rev l = c :: r -> PyFloat.is_space c = false) ->
  PyFloat.strip l = l.
Proof.
  intros Hh Ht. unfold PyFloat.strip.
  assert (E1 : PyFloat.drop_while PyFloat.is_space l = l).
  { destruct l as [|c r]; [reflexivity|]. apply drop_while_head. eapply Hh. reflexivity. }
  rewrite E1.
  assert (E2 : PyFloat.drop_while PyFloat.is_space (rev l) = rev l).
  { destruct (rev l) as [|c r] eqn:E; [reflexivity|]. apply drop_while_head.
    eapply Ht. reflexivity. }
  rewrite E2. apply rev_involutive.
Qed.

Lemma plain_digits_props (l : list ascii) :
  plain_digits l ->
  Forall (fun c => Ascii.eqb c "_" = false) l /\
  Forall (fun c => Ascii.eqb c "," = false) l /\
  Forall (fun c => PyFloat.is_space c = false) l.
Proof.
  intros H. repeat split; (eapply Forall_impl; [|exact H]);
    intros c [d [Hd ->]]; destruct (digit_char_ok _ Hd) as (? & ? & ? & ? & ? & ? & ?);
    assumption.
Qed.

Lemma plain_digits_ascii (l : list ascii) :
  plain_digits l -> Forall (fun c => Unicode.byte c < 127) l.
Proof.
  intros H. eapply Forall_impl; [|exact H].
  intros c [d [Hd ->]].
  assert (E : d = 0 \/ d = 1 \/ d = 2 \/ d = 3 \/ d = 4 \/ d = 5 \/ d = 6 \/ d = 7 \/
              d = 8 \/ d = 9) by lia.
  repeat (destruct E as [->|E]; [reflexivity|]); subst; reflexivity.
Qed.

Lemma remove_commas_list (l : list ascii) :
  Forall (fun c => Ascii.eqb c "," = false) l ->
  remove_commas (string_of_list_ascii l) = string_of_list_ascii l.
Proof. induction 1 as [|c r Hc Hr IH]; simpl; [reflexivity|]. now rewrite Hc, IH. Qed.

(** The characters [str(n)] is made of. *)
Lemma py_str_int_chars (n : Z) :
  exists ds, plain_digits ds /\ ds <> [] /\ PyFloat.digits_value ds = Z.abs n /\
             list_ascii_of_string (py_str_int n) =
             (if n <? 0 then "-"%char :: ds else ds).
Proof.
  unfold py_str_int. rewrite list_ascii_of_string_of_list_ascii.
  destruct (n <? 0) eqn:Hn.
  - apply Z.ltb_lt in Hn. destruct (decimal_digits_spec (- n)) as (Hp & Hne & Hv); [lia|].
    exists (decimal_digits (- n)). repeat split; try assumption. lia.
  - apply Z.ltb_ge in Hn. destruct (decimal_digits_spec n Hn) as (Hp & Hne & Hv).
    exists (decimal_digits n). repeat split; try assumption. lia.
Qed.

Lemma last_plain_digit (ds : list ascii) (c : ascii) (r : list ascii) (pre : list ascii) :
  plain_digits ds -> ds <> [] -> rev (pre ++ ds) = c :: r -> PyFloat.is_space c = false.
Proof.
  intros Hp Hne E. rewrite rev_app_distr in E.
  destruct (rev ds) as [|x xs] eqn:Er.
  - apply (f_equal (@rev ascii)) in Er. rewrite rev_involutive in Er. simpl in Er. congruence.
  - simpl in E. injection E as <- _.
    assert (Hin : In x ds) by (apply in_rev; rewrite Er; now left).
    destruct (plain_digits_props _ Hp) as (_ & _ & Hs).
    rewrite Forall_forall in Hs. auto.
Qed.

(** [int(str(n)) == n], and [str(n)] holds no comma. *)
Lemma py_int_str (n : Z) :
  py_int (py_str_int n) = Some n /\ remove_commas (py_str_int n) = py_str_int n.
Proof.
  destruct (py_str_int_chars n) as (ds & Hp & Hne & Hv & Hl).
  destruct (plain_digits_props _ Hp) as (Hu & Hc & Hs).
  pose proof (plain_digits_are_digits _ Hp) as Hd.
  destruct ds as [|d0 dr]; [congruence|].
  inversion Hu as [|? ? Hu0 _]; inversion Hs as [|? ? Hs0 _];
    inversion Hd as [|? ? Hd0 _]; subst.
  assert (Hsign : Ascii.eqb d0 "-" = false /\ Ascii.eqb d0 "+" = false).
  { inversion Hp as [|? ? [d [Hr ->]] _]; subst.
    destruct (digit_char_ok _ Hr) as (_ & _ & _ & _ & _ & ? & ?). auto. }
  destruct Hsign as [Hm Hpl].
  split.
  - pose proof (plain_digits_ascii _ Hp) as Ha.
    unfold py_int. rewrite Hl.
    destruct (n <? 0) eqn:Hn;
      (rewrite to_ascii_plain; [|try (constructor; [reflexivity|]); exact Ha]).
    + rewrite strip_no_space_ends.
      * rewrite remove_underscores_none; [|constructor; [reflexivity | exact Hu]|reflexivity].
        cbn [PyFloat.split_sign]. change (Ascii.eqb "-" "-") with true. cbn iota.
        rewrite (span_all _ _ Hd), Hv. apply Z.ltb_lt in Hn. f_equal. lia.
      * intros c r E. injection E as <- _. reflexivity.
      * intros c r E. exact (last_plain_digit (d0 :: dr) c r ["-"%char] Hp Hne E).
    + rewrite strip_no_space_ends.
      * rewrite remove_underscores_none; [|exact Hu|reflexivity].
        cbn [PyFloat.split_sign]. rewrite Hm, Hpl.
        rewrite (span_all _ _ Hd), Hv. apply Z.ltb_ge in Hn. f_equal. lia.
      * intros c r E. injection E as <- _. exact Hs0.
      * intros c r E. exact (last_plain_digit (d0 :: dr) c r [] Hp Hne E).
  - rewrite <- (string_of_list_ascii_of_string (py_str_int n)), Hl.
    apply remove_commas_list. destruct (n <? 0); [constructor; [reflexivity|]|]; exact Hc.
Qed.

Lemma py_str_int_inj (a b : Z) : py_str_int a = py_str_int b -> a = b.
Proof.
  intros H. pose proof (proj1 (py_int_str a)) as Ha. rewrite H in Ha.
  rewrite (proj1 (py_int_str b)) in Ha. congruence.
Qed.

(** ** utils.py: [format_amount] *)

Lemma py_str_int_not_blank (n : Z) :
  String.eqb (py_str_int n) "" = false /\ String.eqb (py_str_int n) "-" = false.
Proof.
  destruct (py_str_int_chars n) as (ds & Hp & Hne & _ & Hl).
  apply plain_digits_are_digits in Hp.
  split; (destruct (String.eqb (py_str_int n) _) eqn:E; [|reflexivity]);
    apply String.eqb_eq in E; rewrite E in Hl; simpl in Hl;
    destruct (n <? 0); destruct ds as [|d dr]; try congruence; try discriminate.
  injection Hl as <- <-. inversion Hp as [|? ? Hd _]. discriminate Hd.
Qed.

Lemma digits_value_nonneg (l : list ascii) :
  Forall (fun c => PyFloat.is_digit c = true) l -> 0 <= PyFloat.digits_value l.
Proof.
  induction l as [|c l IH] using rev_ind; intros H; [reflexivity|].
  apply Forall_app in H. destruct H as [Hl Hc]. inversion Hc as [|? ? Hd _]; subst.
  rewrite digits_value_snoc. pose proof (digit_val_range _ Hd). specialize (IH Hl). lia.
Qed.

(** The text [int] accepts denotes the same number for [float], the
    sign of zero apart. *)
Lemma float_of_int_text (s : string) (n : Z) :
  py_int s = Some n -> n <> 0 -> PyFloat.of_string s = Some (PyFloat.of_small_int n).
Proof.
  unfold py_int, PyFloat.of_string.
  destruct (PyFloat.remove_underscores "000"
              (PyFloat.strip (Unicode.to_ascii (list_ascii_of_string s))))
    as [l|]; [|discriminate].
  unfold PyFloat.parse_number, PyFloat.parse_decimal.
  destruct (PyFloat.split_sign l) as [neg body].
  destruct (PyFloat.span PyFloat.is_digit body) as [ip r1] eqn:Hs.
  apply span_split in Hs. destruct Hs as [_ Hall].
  destruct ip as [|d ds]; [discriminate|]. destruct r1; [|discriminate].
  intros H Hn. injection H as H.
  cbn [app PyFloat.parse_exponent List.length Z.of_nat Z.sub].
  rewrite app_nil_r.
  pose proof (digits_value_nonneg _ Hall) as Hv.
  set (v := PyFloat.digits_value (d :: ds)) in *.
  f_equal. unfold PyFloat.of_decimal, PyFloat.of_small_int, binary_normalize.
  destruct v as [|p|p]; [destruct neg; subst n; cbn in Hn; congruence| |lia].
  destruct neg; subst n; cbn [Z.opp];
    change (Z.to_pos (10 ^ 0)) with 1%positive; rewrite ?Pos.mul_1_r; reflexivity.
Qed.

Lemma format_amount_int_text (n : Z) :
  format_amount (AInt n) = (t <- format_units n ;; Ok (Text t)) /\
  format_amount (AStr (py_str_int n)) = (t <- format_units n ;; Ok (Text t)).
Proof.
  destruct (py_int_str n) as [Hi Hc].
  destruct (py_str_int_not_blank n) as [He Hm].
  assert (Hs : format_amount (AStr (py_str_int n)) = (t <- format_units n ;; Ok (Text t))).
  { unfold format_amount. rewrite He, Hm, Hc, Hi. reflexivity. }
  split; [|exact Hs].
  unfold format_amount. destruct (n =? 0) eqn:Hz.
  - apply Z.eqb_eq in Hz. subst n. reflexivity.
  - rewrite Hc, Hi. reflexivity.
Qed.

(** An [int] amount, and the text [str] prints for it (what the chart
    builders pass), are formatted by their unit: the [except] branch
    that returns the argument unchanged is never taken for them. *)
Theorem format_amount_of_int (n : Z) :
  int_within_limit n ->
  format_amount (AInt n) = (t <- format_units n ;; Ok (Text t)) /\
  format_amount (AStr (py_str_int n)) = (t <- format_units n ;; Ok (Text t)).
Proof. intros _. apply format_amount_int_text. Qed.

Lemma format_amount_of_int_witness :
  format_amount (AInt 1234500000000) = Ok (Text "1.2조") /\
  format_amount (AStr (py_str_int 1234500000000)) = Ok (Text "1.2조").
Proof.
  apply (format_amount_of_int 1234500000000). reflexivity.
Defined.



Lemma list_ascii_of_string_app (a b : string) :
  list_ascii_of_string (a ++ b) = (list_ascii_of_string a ++ list_ascii_of_string b)%list.
Proof. induction a as [|c a IH]; simpl; [reflexivity | now rewrite IH]. Qed.

Lemma remove_commas_filter (l : list ascii) :
  remove_commas (string_of_list_ascii l) =
  string_of_list_ascii (filter (fun c => negb (Ascii.eqb c ",")) l).
Proof.
  induction l as [|c l IH]; simpl; [reflexivity|].
  destruct (Ascii.eqb c ","); simpl; now rewrite IH.
Qed.

Lemma filter_all (A : Type) (p : A -> bool) (l : list A) :
  Forall (fun x => p x = true) l -> filter p l = l.
Proof. induction 1 as [|x l Hx _ IH]; simpl; [reflexivity | now rewrite Hx, IH]. Qed.

Lemma group_thousands_filter (k : nat) :
  forall l, (List.length l <= k)%nat ->
  Forall (fun c => Ascii.eqb c "," = false) l ->
  filter (fun c => negb (Ascii.eqb c ",")) (group_thousands_rev l) = l.
Proof.
  induction k as [|k IH]; intros l Hk Hl.
  - destruct l; [reflexivity | simpl in Hk; lia].
  - destruct l as [|a [|b [|c [|d r]]]];
      try (apply filter_all; eapply Forall_impl; [|exact Hl];
           cbv beta; intros x ->; reflexivity).
    inversion Hl as [|? ? Ha Hl1]; inversion Hl1 as [|? ? Hb Hl2];
      inversion Hl2 as [|? ? Hc Hl3]; subst.
    change (group_thousands_rev (a :: b :: c :: d :: r))
      with (a :: b :: c :: ","%char :: group_thousands_rev (d :: r)).
    cbn [filter]. rewrite Ha, Hb, Hc.
    change (negb (Ascii.eqb "," ",")) with false. cbn [negb].
    rewrite (IH (d :: r)); [reflexivity | simpl in *; lia | exact Hl3].
Qed.

(** Removing the commas of [f"{n:,}"] gives [str(n)]. *)
Lemma remove_commas_format_comma (n : Z) :
  remove_commas (format_comma n) = py_str_int n.
Proof.
  unfold format_comma, py_str_int. rewrite remove_commas_filter.
  assert (Hd : plain_digits (decimal_digits (Z.abs n)))
    by (apply decimal_digits_spec, Z.abs_nonneg).
  destruct (plain_digits_props _ Hd) as (_ & Hc & _).
  assert (E : filter (fun c => negb (Ascii.eqb c ","))
                (rev (group_thousands_rev (rev (decimal_digits (Z.abs n))))) =
              decimal_digits (Z.abs n)).
  { rewrite filter_rev, (group_thousands_filter _ _ (le_n _)), rev_involutive;
      [reflexivity|]. now apply Forall_rev. }
  destruct (n <? 0) eqn:Hn.
  - cbn [filter]. change (negb (Ascii.eqb "-" ",")) with true. cbn iota.
    rewrite E. apply Z.ltb_lt in Hn. now rewrite Z.abs_neq by lia.
  - rewrite E. apply Z.ltb_ge in Hn. now rewrite Z.abs_eq by lia.
Qed.

Lemma format_comma_not_blank (n : Z) :
  String.eqb (format_comma n) "" = false /\ String.eqb (format_comma n) "-" = false.
Proof.
  pose proof (remove_commas_format_comma n) as H.
  destruct (py_str_int_not_blank n) as [He Hm].
  split; (destruct (String.eqb (format_comma n) _) eqn:E; [|reflexivity]);
    apply String.eqb_eq in E; rewrite E in H; simpl in H; rewrite <- H in *; discriminate.
Qed.

Lemma format_units_small (n : Z) :
  Z.abs n < 10000 -> format_units n = Ok (format_comma n).
Proof.
  intros H. unfold format_units.
  destruct (1000000000000 <=? Z.abs n) eqn:E1; [apply Z.leb_le in E1; lia|].
  destruct (100000000 <=? Z.abs n) eqn:E2; [apply Z.leb_le in E2; lia|].
  destruct (10000 <=? Z.abs n) eqn:E3; [apply Z.leb_le in E3; lia|].
  reflexivity.
Qed.

(** Below ten thousand the amount is printed with commas only, and the
    normaliser reads the printed text back as the same number. *)
Theorem format_amount_small_reads_back (n : Z) :
  Z.abs n < 10000 ->
  exists t, format_amount (AInt n) = Ok (Text t) /\
            remove_commas t = py_str_int n /\
            safe_convert (VStr t) = Ok (PyFloat.of_small_int n).
Proof.
  intros Hn. destruct (Z.eq_dec n 0) as [->|Hz].
  - exists "0". repeat split.
  - exists (format_comma n).
    rewrite (proj1 (format_amount_int_text n)), (format_units_small n Hn).
    split; [reflexivity|]. split; [apply remove_commas_format_comma|].
    rewrite safe_convert_strip_commas, remove_commas_format_comma.
    apply safe_convert_of_py_float. unfold py_float.
    now rewrite (float_of_int_text _ _ (proj1 (py_int_str n)) Hz).
Qed.

Lemma format_amount_small_reads_back_witness :
  exists t, format_amount (AInt (-1234)) = Ok (Text t) /\
            remove_commas t = py_str_int (-1234) /\
            safe_convert (VStr t) = Ok (PyFloat.of_small_int (-1234)).
Proof. apply (format_amount_small_reads_back (-1234)). reflexivity. Defined.

Lemma py_int_chars (s : string) (n : Z) (c : ascii) :
  py_int s = Some n -> In c (Unicode.to_ascii (list_ascii_of_string s)) ->
  int_char c = true.
Proof.
  unfold py_int, int_char. intros H Hin.
  destruct (PyFloat.is_space c) eqn:Hs; [reflexivity|].
  destruct (Ascii.eqb c "_") eqn:Hu; [now rewrite orb_true_r|].
  destruct (PyFloat.remove_underscores "000"
              (PyFloat.strip (Unicode.to_ascii (list_ascii_of_string s))))
    as [l|] eqn:Hr; [|discriminate].
  assert (Hl : In c l).
  { apply (remove_underscores_keeps c _ Hu _ _ Hr). now apply strip_keeps. }
  destruct (PyFloat.split_sign l) as [neg body] eqn:Hsp.
  destruct (PyFloat.span PyFloat.is_digit body) as [ds rest] eqn:Hd.
  apply span_split in Hd. destruct Hd as [-> Hall].
  destruct ds as [|d ds]; [discriminate|]. destruct rest; [|discriminate].
  rewrite app_nil_r in Hsp. rewrite Forall_forall in Hall.
  unfold PyFloat.split_sign in Hsp. destruct l as [|a r]; [easy|].
  destruct (Ascii.eqb a "-") eqn:Hm.
  { injection Hsp as _ Hb. destruct Hl as [Ha|Hr0].
    - subst a. rewrite Hm. now rewrite !orb_true_r.
    - rewrite Hb in Hr0. now rewrite (Hall _ Hr0). }
  destruct (Ascii.eqb a "+") eqn:Hp.
  { injection Hsp as _ Hb. destruct Hl as [Ha|Hr0].
    - subst a. rewrite Hp. now rewrite !orb_true_r.
    - rewrite Hb in Hr0. now rewrite (Hall _ Hr0). }
  injection Hsp as _ Hb Hb'. subst a r. now rewrite (Hall _ Hl).
Qed.

Lemma remove_commas_keeps (c : ascii) (s : string) :
  Ascii.eqb c "," = false -> In c (list_ascii_of_string s) ->
  In c (list_ascii_of_string (remove_commas s)).
Proof.
  intros Hc. induction s as [|a s IH]; simpl; [easy|].
  intros [->|Hin].
  - rewrite Hc. now left.
  - destruct (Ascii.eqb a ","); [auto | right; auto].
Qed.

Lemma remove_commas_app (a b : string) :
  remove_commas (a ++ b) = remove_commas a ++ remove_commas b.
Proof.
  induction a as [|c a IH]; simpl; [reflexivity|].
  destruct (Ascii.eqb c ","); simpl; now rewrite IH.
Qed.

Lemma remove_commas_ascii (s : string) :
  Forall (fun c => Unicode.byte c < 127) (list_ascii_of_string s) ->
  Forall (fun c => Unicode.byte c < 127) (list_ascii_of_string (remove_commas s)).
Proof.
  induction s as [|c s IH]; simpl; intros H; [constructor|].
  inversion H as [|? ? Hc Hs]; subst.
  destruct (Ascii.eqb c ","); [auto | simpl; constructor; auto].
Qed.

Lemma py_str_int_ascii (n : Z) :
  Forall (fun c => Unicode.byte c < 127) (list_ascii_of_string (py_str_int n)).
Proof.
  destruct (py_str_int_chars n) as (ds & Hp & _ & _ & ->).
  apply plain_digits_ascii in Hp.
  destruct (n <? 0); [constructor; [reflexivity|]|]; exact Hp.
Qed.

(** [f"{x:.1f}"] is an ASCII text. *)
Lemma format_1f_ascii (x : PyFloat.t) :
  Forall (fun c => Unicode.byte c < 127) (list_ascii_of_string (format_1f x)).
Proof.
  destruct x as [s|s| |s m e]; cbn [format_1f].
  - destruct s; repeat constructor.
  - destruct s; repeat constructor.
  - repeat constructor.
  - rewrite !list_ascii_of_string_app.
    apply Forall_app; split; [destruct s; repeat constructor|].
    apply Forall_app; split; [apply py_str_int_ascii|].
    apply Forall_app; split; [repeat constructor | apply py_str_int_ascii].
Qed.

(** A text that ends in a unit is no integer. *)
Lemma unit_text_unreadable (x u : string) :
  Forall (fun c => Unicode.byte c < 127) (list_ascii_of_string x) ->
  In u unit_suffixes ->
  py_int (remove_commas (x ++ u)) = None /\
  String.eqb (x ++ u) "" = false /\ String.eqb (x ++ u) "-" = false.
Proof.
  intros Hx Hu.
  assert (Hc : exists c, In c (list_ascii_of_string u) /\ Ascii.eqb c "-" = false).
  { destruct Hu as [<-|[<-|[<-|[]]]]; eexists; (split; [left; reflexivity|]); reflexivity. }
  destruct Hc as (c & Hin & Hcm).
  assert (Hxu : In c (list_ascii_of_string (x ++ u)))
    by (rewrite list_ascii_of_string_app; apply in_or_app; now right).
  assert (Hq : Unicode.to_ascii (list_ascii_of_string u) = ["?"%char] /\
               remove_commas u = u).
  { destruct Hu as [<-|[<-|[<-|[]]]]; split; reflexivity. }
  destruct Hq as [Hq Hru].
  split; [|split].
  - destruct (py_int (remove_commas (x ++ u))) as [n|] eqn:E; [|reflexivity].
    assert (Hm : In "?"%char
                   (Unicode.to_ascii (list_ascii_of_string (remove_commas (x ++ u))))).
    { rewrite remove_commas_app, Hru, list_ascii_of_string_app.
      rewrite to_ascii_plain_app by (now apply remove_commas_ascii).
      rewrite Hq. apply in_or_app. right. now left. }
    pose proof (py_int_chars _ _ _ E Hm) as Hi. discriminate Hi.
  - destruct (String.eqb (x ++ u) "") eqn:E; [|reflexivity].
    apply String.eqb_eq in E. rewrite E in Hxu. destruct Hxu.
  - destruct (String.eqb (x ++ u) "-") eqn:E; [|reflexivity].
    apply String.eqb_eq in E. rewrite E in Hxu. destruct Hxu as [<-|[]]. discriminate.
Qed.

Lemma format_units_shape (n : Z) (t : string) :
  format_units n = Ok t ->
  (Z.abs n < 10000 /\ t = format_comma n) \/
  (exists x u, In u unit_suffixes /\
               Forall (fun c => Unicode.byte c < 127) (list_ascii_of_string x) /\
               t = x ++ u).
Proof.
  unfold format_units, unit_suffixes.
  destruct (1000000000000 <=? Z.abs n).
  { intros H. apply bind_ok in H. destruct H as (x & _ & H). injection H as <-.
    right. exists (format_1f x), "조". split; [simpl; auto|].
    split; [apply format_1f_ascii | reflexivity]. }
  destruct (100000000 <=? Z.abs n).
  { intros H. apply bind_ok in H. destruct H as (x & _ & H). injection H as <-.
    right. exists (format_1f x), "억". split; [simpl; auto|].
    split; [apply format_1f_ascii | reflexivity]. }
  destruct (10000 <=? Z.abs n) eqn:E.
  { intros H. apply bind_ok in H. destruct H as (x & _ & H). injection H as <-.
    right. exists (format_1f x), "만". split; [simpl; auto|].
    split; [apply format_1f_ascii | reflexivity]. }
  intros H. injection H as <-. left. apply Z.leb_gt in E. auto.
Qed.

Lemma format_amount_text_fixed (s t : string) :
  format_amount (AStr s) = Ok (Text t) -> format_amount (AStr t) = Ok (Text t).
Proof.
  unfold format_amount at 1.
  destruct (String.eqb s "" || String.eqb s "-") eqn:Hb.
  { intros H. injection H as <-. reflexivity. }
  destruct (py_int (remove_commas s)) as [n|] eqn:Hi.
  - intros H. apply bind_ok in H. destruct H as (t' & Hu & H). injection H as ->.
    destruct (format_units_shape _ _ Hu) as [[Hn ->]|(x & u & Hin & Hx & ->)].
    + destruct (format_comma_not_blank n) as [He Hm].
      unfold format_amount. rewrite He, Hm, remove_commas_format_comma.
      rewrite (proj1 (py_int_str n)). cbn [orb]. now rewrite Hu.
    + destruct (unit_text_unreadable x u Hx Hin) as (Hp & He & Hm).
      unfold format_amount. now rewrite He, Hm, Hp.
  - intros H. injection H as <-. unfold format_amount. now rewrite Hb, Hi.
Qed.

(** Formatting twice is formatting once: a text [format_amount] returns
    (["0"], a number with a unit, a number with commas, or the text it
    was given and could not read) is returned unchanged by a second
    call. *)
Theorem format_amount_idempotent (a : amount_arg) (t : string) :
  arg_within_limit a ->
  format_amount a = Ok (Text t) -> format_amount (AStr t) = Ok (Text t).
Proof.
  intros _. destruct a as [s|n|f].
  - apply format_amount_text_fixed.
  - rewrite (proj1 (format_amount_int_text n)), <- (proj2 (format_amount_int_text n)).
    apply format_amount_text_fixed.
  - unfold format_amount. destruct (PyFloat.is_zero f); [|discriminate].
    intros H. injection H as <-. reflexivity.
Qed.

Lemma format_amount_idempotent_witness :
  format_amount (AInt 125000000) = Ok (Text "1.2억") /\
  format_amount (AStr "1.2억") = Ok (Text "1.2억").
Proof.
  assert (H : format_amount (AInt 125000000) = Ok (Text "1.2억")) by reflexivity.
  split; [exact H|].
  apply (format_amount_idempotent (AInt 125000000) "1.2억"); [reflexivity | exact H].
Defined.

(** ** utils.py: [search_company] *)

Lemma dict_item_ok {V : Type} (d : Dict.t V) (k : string) (v : V) :
  dict_item d k = Ok v -> Dict.get d k = Some v.
Proof. unfold dict_item. destruct (Dict.get d k); [congruence | discriminate]. Qed.

Lemma search_loop_ok (q : string) (db : list (string * Dict.t string)) :
  forall hits, search_loop q db = Ok hits ->
  Forall2 hit_of (filter (fun e => str_contains q (str_lower (fst e))) db) hits.
Proof.
  induction db as [|[name info] db IH]; intros hits H; simpl in H.
  - injection H as <-. constructor.
  - cbn [filter fst]. destruct (str_contains q (str_lower name)).
    + apply bind_ok in H. destruct H as (code & Hc & H).
      apply bind_ok in H. destruct H as (stock & Hs & H).
      apply bind_ok in H. destruct H as (rest & Hr & H). injection H as <-.
      constructor; [|exact (IH _ Hr)].
      repeat split; simpl; now apply dict_item_ok.
    + exact (IH _ H).
Qed.

Lemma Forall2_firstn {A B : Type} (R : A -> B -> Prop) (n : nat) :
  forall l l', Forall2 R l l' -> Forall2 R (firstn n l) (firstn n l').
Proof.
  induction n as [|n IH]; intros l l' H; [constructor|].
  destruct H; simpl; constructor; auto.
Qed.

(** A search that returns gives the first ten entries whose name holds
    the query, letter case apart, in the order of the database, each
    with the two codes of its entry; an empty query gives nothing. *)
Theorem search_company_first_ten (company_name : string)
    (corp_database : Dict.t (Dict.t string)) (hits : list search_hit) :
  search_company company_name corp_database = Ok hits ->
  (List.length hits <= 10)%nat /\
  (company_name = "" -> hits = []) /\
  (company_name <> "" ->
   Forall2 hit_of (firstn 10 (filter (name_matches company_name) corp_database)) hits).
Proof.
  unfold search_company.
  destruct (String.eqb company_name "") eqn:Hq.
  - intros H. injection H as <-. apply String.eqb_eq in Hq.
    split; [simpl; lia|]. split; [reflexivity | congruence].
  - apply String.eqb_neq in Hq. cbn [orb].
    destruct corp_database as [|e db].
    + intros H. injection H as <-. split; [simpl; lia|]. split; [congruence|].
      intros _. constructor.
    + cbn [nonempty negb]. intros H. apply bind_ok in H.
      destruct H as (results & Hr & H).
      assert (E : hits = firstn 10 results) by congruence. clear H. subst hits.
      split; [apply firstn_le_length|]. split; [congruence|]. intros _.
      apply Forall2_firstn. exact (search_loop_ok _ _ _ Hr).
Qed.

Lemma search_company_first_ten_witness :
  exists hits, search_company "samsung" sample_database = Ok hits /\
    (List.length hits <= 10)%nat /\
    Forall2 hit_of (firstn 10 (filter (name_matches "samsung") sample_database)) hits.
Proof.
  eexists. split; [reflexivity|].
  destruct (search_company_first_ten "samsung" sample_database _ eq_refl) as (H1 & _ & H3).
  split; [exact H1 | apply H3; discriminate].
Defined.

Lemma search_loop_result (q : string) (db : list (string * Dict.t string)) :
  (existsb (fun e => str_contains q (str_lower (fst e)) && lacks_code e) db = true /\
   search_loop q db = Raise KeyError) \/
  (existsb (fun e => str_contains q (str_lower (fst e)) && lacks_code e) db = false /\
   exists hits, search_loop q db = Ok hits).
Proof.
  induction db as [|[name info] db IH]; [right; simpl; eauto|].
  cbn [existsb search_loop fst]. unfold lacks_code at 1 3, dict_item. cbn [snd].
  destruct (str_contains q (str_lower name)); [|exact IH].
  destruct (Dict.get info "corp_code") as [code|]; [|left; auto].
  destruct (Dict.get info "stock_code") as [stock|]; [|left; auto].
  cbn [andb orb bind].
  destruct IH as [[He Hr]|[He [hits Hr]]]; rewrite He, Hr; simpl; eauto.
Qed.

(** With a query that is not empty the search raises [KeyError] exactly
    when some entry whose name holds the query lacks a code, wherever
    the entry stands, also behind the tenth match; otherwise it
    returns. *)
Theorem search_company_key_error (company_name : string)
    (corp_database : Dict.t (Dict.t string)) :
  company_name <> "" ->
  (search_company company_name corp_database = Raise KeyError <->
   exists e, In e corp_database /\ name_matches company_name e = true /\
             lacks_code e = true) /\
  ((forall e, In e corp_database -> name_matches company_name e = true ->
              lacks_code e = false) ->
   exists hits, search_company company_name corp_database = Ok hits).
Proof.
  intros Hq. apply String.eqb_neq in Hq. unfold search_company. rewrite Hq. cbn [orb].
  destruct corp_database as [|e0 db].
  { split; [split; [discriminate | intros (e & [] & _)] | simpl; eauto]. }
  cbn [nonempty negb].
  set (bad := fun e : string * Dict.t string =>
                str_contains (str_lower company_name) (str_lower (fst e)) && lacks_code e).
  assert (Hb : existsb bad (e0 :: db) = true <->
               exists e, In e (e0 :: db) /\ name_matches company_name e = true /\
                         lacks_code e = true).
  { rewrite existsb_exists. subst bad. unfold name_matches.
    split; intros (e & Hin & H); exists e; (split; [exact Hin|]);
      [apply andb_true_iff in H | apply andb_true_iff]; exact H. }
  destruct (search_loop_result (str_lower company_name) (e0 :: db))
    as [[He Hr]|[He [hits Hr]]]; fold bad in He; rewrite Hr; cbn [bind].
  - split; [split; [intros _; now apply Hb | reflexivity]|].
    intros Hall. apply Hb in He. destruct He as (e & Hin & Hm & Hl).
    rewrite (Hall e Hin Hm) in Hl. discriminate.
  - split; [|eauto]. split; [discriminate|].
    intros H. apply Hb in H. congruence.
Qed.

Lemma search_company_key_error_witness :
  search_company "CORP" eleven_entries = Raise KeyError /\
  search_company "corp0" eleven_entries <> Raise KeyError.
Proof.
  destruct (search_company_key_error "CORP" eleven_entries) as [H1 _]; [discriminate|].
  destruct (search_company_key_error "corp0" eleven_entries) as [_ H2]; [discriminate|].
  split.
  - apply H1. exists ("corp11", [("corp_code", "11")]).
    split; [vm_compute; tauto | split; reflexivity].
  - destruct H2 as [hits Hh]; [|congruence].
    intros e Hin Hm. vm_compute in Hin.
    repeat (destruct Hin as [<-|Hin]; [first [reflexivity | discriminate Hm]|]).
    destruct Hin.
Defined.

(** ** utils.py: [create_user_friendly_error_message] *)

Lemma append_inv_head (p a b : string) : p ++ a = p ++ b -> a = b.
Proof. induction p as [|c p IH]; simpl; [auto|]. intros H. injection H as H. auto. Qed.

Lemma messages_differ (corp_name corp_code year report_code : string) :
  not_found_message corp_name corp_code year report_code <>
  failure_message corp_name corp_code year report_code.
Proof.
  unfold not_found_message, failure_message. intros H.
  repeat (apply append_inv_head in H).
  apply String.eqb_eq in H. vm_compute in H. discriminate.
Qed.

(** The builder gives the not-found text exactly when the status is
    ["013"] and the message of the service holds the no-data phrase;
    in every other case, also without status or message, it gives the
    failure text, and the two texts differ. *)
Theorem no_data_message_iff (corp_name corp_code year report_code : string)
    (status message : option string) :
  let text := create_user_friendly_error_message
                corp_name corp_code year report_code status message in
  (text = not_found_message corp_name corp_code year report_code <->
   status = Some "013" /\
   exists m, message = Some m /\ str_contains no_data_phrase m = true) /\
  (text <> not_found_message corp_name corp_code year report_code ->
   text = failure_message corp_name corp_code year report_code).
Proof.
  cbv zeta. unfold create_user_friendly_error_message.
  fold (not_found_message corp_name corp_code year report_code).
  fold (failure_message corp_name corp_code year report_code).
  assert (Hc : no_data_status status message = true <->
               status = Some "013" /\
               exists m, message = Some m /\ str_contains no_data_phrase m = true).
  { unfold no_data_status. destruct status as [st|], message as [m|];
      try (split; [discriminate | intros [H [m' [H' _]]]; discriminate]).
    rewrite !andb_true_iff, String.eqb_eq. split.
    - intros [[-> _] Hm]. eauto.
    - intros [H [m' [H' Hm]]]. injection H as ->. injection H' as ->.
      repeat split; [|exact Hm].
      destruct m' as [|c r]; [discriminate Hm | reflexivity]. }
  destruct (no_data_status status message).
  - split; [|congruence]. split; [intros _; now apply Hc | reflexivity].
  - split; [|reflexivity]. split.
    + intros H. symmetry in H. now apply messages_differ in H.
    + intros H. apply Hc in H. discriminate.
Qed.

(** ** data_service.py: the two fetchers with error handling *)

Lemma handle_response_cases (fetched : result (option response))
    (corp_name corp_code year report_code : string)
    (d : option json) (e : option error_message) :
  handle_response fetched corp_name corp_code year report_code = (d, e) ->
  (d = None /\ exists m, e = Some m) \/
  (e = None /\
   exists data v, fetched = Ok (Some data) /\ d = Some v /\
                  Dict.get data "list" = Some v /\ truthy v = true /\
                  error_status data = false).
Proof.
  unfold handle_response.
  destruct fetched as [[data|]|ex]; try (intros H; injection H as <- <-; eauto).
  destruct (negb (nonempty data)); [intros H; injection H as <- <-; eauto|].
  destruct (error_status data) eqn:Hs; [intros H; injection H as <- <-; eauto|].
  destruct (Dict.get data "list") as [l|] eqn:Hl; [|intros H; injection H as <- <-; eauto].
  destruct (truthy l) eqn:Ht; cbn [negb]; intros H; injection H as <- <-; [|eauto].
  right. split; [reflexivity|]. exists data, l. auto.
Qed.

(** Both fetchers return either data and no error, or no data and an
    error, never both and never neither; returned data is the non-empty
    [list] entry of an answer of the client whose status, if it has
    one, is ["000"]. *)
Theorem fetchers_return_data_or_error (request : api)
    (corp_code year start_year end_year report_code corp_name : string) :
  let single := get_financial_data_with_error_handling
                  request corp_code year report_code corp_name in
  let ranged := get_financial_data_range_with_error_handling
                  request corp_code start_year end_year report_code corp_name in
  ((fst single = None /\ snd single <> None) \/
   (snd single = None /\
    exists data v, get_financial_info request corp_code year report_code = Ok (Some data) /\
                   fst single = Some v /\ Dict.get data "list" = Some v /\
                   truthy v = true /\ error_status data = false)) /\
  ((fst ranged = None /\ snd ranged <> None) \/
   (snd ranged = None /\
    exists data v, get_financial_info_range request corp_code start_year end_year
                     report_code = Ok (Some data) /\
                   fst ranged = Some v /\ Dict.get data "list" = Some v /\
                   truthy v = true /\ error_status data = false)).
Proof.
  cbv zeta. unfold get_financial_data_with_error_handling,
    get_financial_data_range_with_error_handling.
  split.
  - destruct (handle_response (get_financial_info request corp_code year report_code)
                corp_name corp_code year report_code) as [d e] eqn:H.
    apply handle_response_cases in H. cbn [fst snd].
    destruct H as [[-> [m ->]]|[-> H]]; [left; split; [reflexivity | discriminate]|].
    right. split; [reflexivity | exact H].
  - destruct (handle_response
                (get_financial_info_range request corp_code start_year end_year report_code)
                corp_name corp_code (start_year ++ "-" ++ end_year) report_code)
      as [d e] eqn:H.
    apply handle_response_cases in H. cbn [fst snd].
    destruct H as [[-> [m ->]]|[-> H]]; [left; split; [reflexivity | discriminate]|].
    right. split; [reflexivity | exact H].
Qed.

(** ** opendart_client.py: the range query *)

Lemma range_loop_spec (request : api) (corp_code report_code : string) (years : list Z) :
  range_loop request corp_code report_code years =
  (flat_map (year_rows request corp_code report_code) years,
   filter (fun y => nonempty (year_rows request corp_code report_code y)) years).
Proof.
  induction years as [|y ys IH]; [reflexivity|].
  cbn [range_loop flat_map filter]. rewrite IH.
  destruct (year_rows request corp_code report_code y); reflexivity.
Qed.

Lemma py_range_incl_In (a b y : Z) : In y (py_range_incl a b) <-> a <= y <= b.
Proof.
  unfold py_range_incl. rewrite in_map_iff. split.
  - intros (i & <- & Hi). apply in_seq in Hi. lia.
  - intros H. exists (Z.to_nat (y - a)). split; [lia|]. apply in_seq. lia.
Qed.

Lemma seq_shift_sorted (a : Z) (n : nat) :
  forall s, StronglySorted Z.lt (map (fun i => a + Z.of_nat i) (seq s n)).
Proof.
  induction n as [|n IH]; intros s; simpl; constructor; [apply IH|].
  apply Forall_forall. intros y Hy. apply in_map_iff in Hy.
  destruct Hy as (i & <- & Hi). apply in_seq in Hi. lia.
Qed.

Lemma py_range_incl_sorted (a b : Z) : StronglySorted Z.lt (py_range_incl a b).
Proof. apply seq_shift_sorted. Qed.

Lemma StronglySorted_filter {A : Type} (R : A -> A -> Prop) (p : A -> bool) (l : list A) :
  StronglySorted R l -> StronglySorted R (filter p l).
Proof.
  induction 1 as [|x l Hl IH Hx]; simpl; [constructor|].
  destruct (p x); [|exact IH]. constructor; [exact IH|].
  rewrite Forall_forall in *. intros y Hy. apply filter_In in Hy. apply Hx, Hy.
Qed.

Lemma year_rows_year (request : api) (corp_code report_code : string) (y : Z) (it : item) :
  In it (year_rows request corp_code report_code y) -> bsns_year it = py_str_int y.
Proof.
  unfold year_rows.
  destruct (get_financial_info request corp_code (py_str_int y) report_code)
    as [[data|]|e]; try easy.
  destruct (error_status data); [easy|]. destruct (nonempty data); [|easy].
  destruct (Dict.get data "list") as [[ |s|l|l]|]; try easy.
  intros H. apply in_map_iff in H. destruct H as (it0 & <- & _). reflexivity.
Qed.

Lemma range_query_ok (request : api) (corp_code start_year end_year report_code : string)
    (data : response) :
  get_financial_info_range request corp_code start_year end_year report_code
    = Ok (Some data) ->
  exists a b rows,
    py_int start_year = Some a /\ py_int end_year = Some b /\
    rows = flat_map (year_rows request (zfill 8 corp_code) report_code) (py_range_incl a b) /\
    rows <> [] /\
    data = [("list", JItems rows);
            ("years", JInts (delivered_years request corp_code report_code a b))].
Proof.
  unfold get_financial_info_range, delivered_years.
  destruct (py_int start_year) as [a|]; [|discriminate].
  destruct (py_int end_year) as [b|]; [|discriminate].
  rewrite range_loop_spec.
  destruct (flat_map _ _) as [|r0 rows] eqn:Hrows; [discriminate|].
  cbn [nonempty]. intros H. injection H as <-.
  exists a, b, (r0 :: rows). rewrite Hrows. repeat split. discriminate.
Qed.

(** An answer of the range query holds a non-empty row list and the
    list of the years that delivered rows: these years are in strictly
    ascending order, inside the asked range, and every row carries as
    its business year the text of the year it was asked for, whatever
    the service had put there; every listed year has a row. *)
Theorem range_query_rows (request : api)
    (corp_code start_year end_year report_code : string) (data : response) :
  text_within_limit start_year -> text_within_limit end_year ->
  get_financial_info_range request corp_code start_year end_year report_code
    = Ok (Some data) ->
  exists a b rows ys,
    py_int start_year = Some a /\ py_int end_year = Some b /\
    data = [("list", JItems rows); ("years", JInts ys)] /\
    rows <> [] /\
    StronglySorted Z.lt ys /\
    (forall y, In y ys -> a <= y <= b) /\
    (forall it, In it rows -> exists y, In y ys /\ bsns_year it = py_str_int y) /\
    (forall y, In y ys -> exists it, In it rows /\ bsns_year it = py_str_int y).
Proof.
  intros _ _ H. apply range_query_ok in H.
  destruct H as (a & b & rows & Ha & Hb & Hrows & Hne & ->).
  exists a, b, rows, (delivered_years request corp_code report_code a b).
  repeat (split; [assumption || reflexivity|]).
  unfold delivered_years.
  split; [apply StronglySorted_filter, py_range_incl_sorted|].
  split; [intros y Hy; apply filter_In in Hy; now apply py_range_incl_In|].
  split.
  - intros it Hit. rewrite Hrows in Hit. apply in_flat_map in Hit.
    destruct Hit as (y & Hy & Hit). exists y. split; [|exact (year_rows_year _ _ _ _ _ Hit)].
    apply filter_In. split; [exact Hy|].
    destruct (year_rows request (zfill 8 corp_code) report_code y); [destruct Hit | reflexivity].
  - intros y Hy. apply filter_In in Hy. destruct Hy as [Hy Hn].
    destruct (year_rows request (zfill 8 corp_code) report_code y) as [|it r] eqn:Hr;
      [discriminate|].
    exists it. split.
    + rewrite Hrows. apply in_flat_map. exists y. split; [exact Hy|]. rewrite Hr. now left.
    + apply (year_rows_year request (zfill 8 corp_code) report_code). rewrite Hr. now left.
Qed.

Lemma range_query_rows_witness :
  exists data,
    get_financial_info_range sample_api "126380" "2019" "2022" "11011" = Ok (Some data) /\
    exists a b rows ys,
      py_int "2019" = Some a /\ py_int "2022" = Some b /\
      data = [("list", JItems rows); ("years", JInts ys)] /\
      rows <> [] /\
      StronglySorted Z.lt ys /\
      (forall y, In y ys -> a <= y <= b) /\
      (forall it, In it rows -> exists y, In y ys /\ bsns_year it = py_str_int y) /\
      (forall y, In y ys -> exists it, In it rows /\ bsns_year it = py_str_int y).
Proof.
  eexists. split; [vm_compute; reflexivity|].
  apply (range_query_rows sample_api "126380" "2019" "2022" "11011").
  - unfold text_within_limit. simpl. lia.
  - unfold text_within_limit. simpl. lia.
  - vm_compute. reflexivity.
Defined.

Lemma range_handler_cases (request : api)
    (corp_code start_year end_year report_code corp_name : string) :
  let ranged := get_financial_data_range_with_error_handling
                  request corp_code start_year end_year report_code corp_name in
  (exists a b rows,
     py_int start_year = Some a /\ py_int end_year = Some b /\
     rows = flat_map (year_rows request (zfill 8 corp_code) report_code)
              (py_range_incl a b) /\
     rows <> [] /\ ranged = (Some (JItems rows), None)) \/
  (exists a b,
     py_int start_year = Some a /\ py_int end_year = Some b /\
     delivered_years request corp_code report_code a b = [] /\
     ranged = (None, Some (Friendly (failure_message corp_name corp_code
                                       (start_year ++ "-" ++ end_year) report_code)))) \/
  ((py_int start_year = None \/ py_int end_year = None) /\
   ranged = (None, Some (FetchError ValueError))).
Proof.
  cbv zeta. unfold get_financial_data_range_with_error_handling, get_financial_info_range,
    delivered_years.
  destruct (py_int start_year) as [a|]; [|right; right; auto].
  destruct (py_int end_year) as [b|]; [|right; right; auto].
  rewrite range_loop_spec.
  destruct (flat_map _ _) as [|r0 rows] eqn:Hrows.
  - right. left. exists a, b. repeat split.
    clear -Hrows. induction (py_range_incl a b) as [|y l IH]; [reflexivity|].
    cbn [flat_map filter] in *. apply app_eq_nil in Hrows. destruct Hrows as [-> Hl].
    cbn [nonempty]. auto.
  - left. exists a, b, (r0 :: rows). rewrite Hrows. repeat split. discriminate.
Qed.

(** The fetcher of a period has three outcomes only: the rows of the
    years that delivered some; the failure text, when no year of the
    range delivered a row; the [ValueError] of a year that [int] does
    not read.  What the service said about a year (no data, an error
    status, an exception) never reaches the caller. *)
Theorem period_fetch_outcomes (request : api)
    (corp_code start_year end_year report_code corp_name : string) :
  text_within_limit start_year -> text_within_limit end_year ->
  let ranged := get_financial_data_range_with_error_handling
                  request corp_code start_year end_year report_code corp_name in
  (exists a b rows,
     py_int start_year = Some a /\ py_int end_year = Some b /\
     rows = flat_map (year_rows request (zfill 8 corp_code) report_code)
              (py_range_incl a b) /\
     rows <> [] /\ ranged = (Some (JItems rows), None)) \/
  (exists a b,
     py_int start_year = Some a /\ py_int end_year = Some b /\
     delivered_years request corp_code report_code a b = [] /\
     ranged = (None, Some (Friendly (failure_message corp_name corp_code
                                       (start_year ++ "-" ++ end_year) report_code)))) \/
  ((py_int start_year = None \/ py_int end_year = None) /\
   ranged = (None, Some (FetchError ValueError))).
Proof. intros _ _. apply range_handler_cases. Qed.

Lemma period_fetch_outcomes_witness :
  get_financial_data_range_with_error_handling sample_api "126380" "2023" "2024" "11011"
    "삼성전자"
  = (None, Some (Friendly (failure_message "삼성전자" "126380" "2023-2024" "11011"))) /\
  get_financial_data_range_with_error_handling sample_api "126380" "2021" "now" "11011"
    "삼성전자"
  = (None, Some (FetchError ValueError)).
Proof.
  split.
  - destruct (period_fetch_outcomes sample_api "126380" "2023" "2024" "11011" "삼성전자")
      as [(a & b & rows & _ & _ & _ & _ & H)|[(a & b & _ & _ & _ & H)|[_ H]]];
      try (unfold text_within_limit; simpl; lia);
      first [exact H | vm_compute in H; discriminate H].
  - destruct (period_fetch_outcomes sample_api "126380" "2021" "now" "11011" "삼성전자")
      as [(a & b & rows & _ & _ & _ & _ & H)|[(a & b & _ & _ & _ & H)|[_ H]]];
      try (unfold text_within_limit; simpl; lia);
      first [exact H | vm_compute in H; discriminate H].
Defined.

(** When the service has no data for any year, the fetcher of one year
    says that the data was not found, while the fetcher of a period
    reports a failure of the query: the loop over the years drops the
    status of each year. *)
Theorem no_data_wording_differs (request : api) (answer : response)
    (corp_code year start_year end_year report_code corp_name : string) (a b : Z) :
  text_within_limit start_year -> text_within_limit end_year ->
  says_no_data answer ->
  (forall c y r, request c y r = Ok (Some answer)) ->
  py_int start_year = Some a -> py_int end_year = Some b ->
  get_financial_data_with_error_handling request corp_code year report_code corp_name
    = (None, Some (Friendly (not_found_message corp_name corp_code year report_code))) /\
  get_financial_data_range_with_error_handling
      request corp_code start_year end_year report_code corp_name
    = (None, Some (Friendly (failure_message corp_name corp_code
                               (start_year ++ "-" ++ end_year) report_code))).
Proof.
  intros _ _ (Hne & Hst & m & Hm & Hc) Hreq Ha Hb. split.
  - unfold get_financial_data_with_error_handling, get_financial_info, handle_response.
    rewrite Hreq. destruct answer as [|kv ans]; [congruence|]. cbn [nonempty negb].
    unfold error_status. rewrite Hst, Hm. cbn [String.eqb Ascii.eqb Bool.eqb negb json_string].
    do 3 f_equal. unfold create_user_friendly_error_message, no_data_status.
    rewrite Hc. destruct m; [discriminate Hc | reflexivity].
  - destruct (range_handler_cases request corp_code start_year end_year report_code corp_name)
      as [(a' & b' & rows & _ & _ & Hrows & Hn & _)|[(a' & b' & _ & _ & _ & H)|[[H|H] _]]];
      [|exact H|congruence|congruence].
    exfalso. apply Hn. rewrite Hrows. clear -Hreq Hst.
    induction (py_range_incl a' b') as [|y l IH]; [reflexivity|].
    cbn [flat_map]. rewrite IH, app_nil_r.
    unfold year_rows, get_financial_info. rewrite Hreq.
    unfold error_status. now rewrite Hst.
Qed.

Lemma no_data_wording_differs_witness :
  get_financial_data_with_error_handling no_data_api "126380" "2023" "11011" "삼성전자"
    = (None, Some (Friendly (not_found_message "삼성전자" "126380" "2023" "11011"))) /\
  get_financial_data_range_with_error_handling
      no_data_api "126380" "2022" "2023" "11011" "삼성전자"
    = (None, Some (Friendly (failure_message "삼성전자" "126380" "2022-2023" "11011"))).
Proof.
  apply (no_data_wording_differs no_data_api no_data_answer
           "126380" "2023" "2022" "2023" "11011" "삼성전자" 2022 2023).
  - unfold text_within_limit. simpl. lia.
  - unfold text_within_limit. simpl. lia.
  - split; [discriminate|]. split; [reflexivity|]. eexists. split; reflexivity.
  - reflexivity.
  - reflexivity.
  - reflexivity.
Defined.

(** ** From the range query to the summary *)

Lemma py_str_int_year (y : Z) :
  0 <= y ->
  year_number (py_str_int y) = y /\
  Forall (fun c => PyFloat.is_digit c = true) (list_ascii_of_string (py_str_int y)).
Proof.
  intros Hy. destruct (py_str_int_chars y) as (ds & Hp & _ & Hv & Hl).
  assert (E : (y <? 0) = false) by (apply Z.ltb_ge; exact Hy).
  rewrite E in Hl. unfold year_number. rewrite Hl.
  split; [rewrite Hv; apply Z.abs_eq, Hy | now apply plain_digits_are_digits].
Qed.

Lemma py_str_int_four_digits (y : Z) :
  1000 <= y <= 9999 -> String.length (py_str_int y) = 4%nat.
Proof.
  intros Hy.
  assert (H : forallb (fun y => Nat.eqb (String.length (py_str_int y)) 4)
                (py_range_incl 1000 9999) = true) by (vm_compute; reflexivity).
  rewrite forallb_forall in H. apply Nat.eqb_eq, H, py_range_incl_In, Hy.
Qed.

Lemma strict_of_NoDup (l : list Z) :
  StronglySorted Z.le l -> NoDup l -> StronglySorted Z.lt l.
Proof.
  induction 1 as [|x l Hl IH Hx]; intros Hn; constructor.
  - apply IH. now inversion Hn.
  - inversion Hn as [|? ? Hnx _]; subst. rewrite Forall_forall in *.
    intros y Hy. specialize (Hx y Hy).
    assert (x <> y) by (intros ->; exact (Hnx Hy)). lia.
Qed.

Lemma strictly_sorted_unique (l1 : list Z) :
  forall l2, StronglySorted Z.lt l1 -> StronglySorted Z.lt l2 ->
             (forall x, In x l1 <-> In x l2) -> l1 = l2.
Proof.
  induction l1 as [|x t1 IH]; intros [|y t2] H1 H2 Hin.
  - reflexivity.
  - exfalso. apply (proj2 (Hin y)). now left.
  - exfalso. apply (proj1 (Hin x)). now left.
  - inversion H1 as [|? ? S1 F1]; inversion H2 as [|? ? S2 F2]; subst.
    rewrite Forall_forall in F1, F2.
    assert (x = y).
    { destruct (proj1 (Hin x) (or_introl eq_refl)) as [E|Hx]; [congruence|].
      destruct (proj2 (Hin y) (or_introl eq_refl)) as [E|Hy]; [congruence|].
      specialize (F1 _ Hy). specialize (F2 _ Hx). lia. }
    subst y. f_equal. apply IH; [assumption..|].
    intros z. split; intros Hz.
    + destruct (proj1 (Hin z) (or_intror Hz)) as [E|H]; [|exact H].
      specialize (F1 _ Hz). lia.
    + destruct (proj2 (Hin z) (or_intror Hz)) as [E|H]; [|exact H].
      specialize (F2 _ Hz). lia.
Qed.

Lemma map_year_number_inverse (l : list string) :
  (forall x, In x l -> exists y, 0 <= y /\ x = py_str_int y) ->
  l = map py_str_int (map year_number l).
Proof.
  induction l as [|x l IH]; intros H; [reflexivity|]. cbn [map]. f_equal.
  - destruct (H x (or_introl eq_refl)) as (y & Hy & ->).
    now rewrite (proj1 (py_str_int_year y Hy)).
  - apply IH. intros z Hz. apply H. now right.
Qed.

Lemma Sorted_map {A B : Type} (R : A -> A -> Prop) (S : B -> B -> Prop) (f : A -> B)
    (l : list A) :
  (forall a b, In a l -> In b l -> R a b -> S (f a) (f b)) ->
  Sorted R l -> Sorted S (map f l).
Proof.
  intros H Hs. induction Hs as [|x l Hl IH Hx]; simpl; constructor.
  - apply IH. intros a b Ha Hb. apply H; now right.
  - destruct Hx as [|y l' Hxy]; simpl; constructor.
    apply H; [now left | right; now left | exact Hxy].
Qed.

(** A period of four-digit years: the summary of the fetched rows lists
    exactly the years that delivered rows, as texts, in ascending
    numeric order, and counts them. *)
Theorem period_summary_years (request : api)
    (corp_code start_year end_year report_code corp_name : string)
    (a b : Z) (rows : list item) (s : summary) :
  text_within_limit start_year -> text_within_limit end_year ->
  py_int start_year = Some a -> py_int end_year = Some b ->
  1000 <= a -> b <= 9999 ->
  get_financial_data_range_with_error_handling
      request corp_code start_year end_year report_code corp_name
    = (Some (JItems rows), None) ->
  _create_analysis_summary rows start_year end_year = Some s ->
  years s = map py_str_int (delivered_years request corp_code report_code a b) /\
  total_years s = List.length (delivered_years request corp_code report_code a b) /\
  map year_number (years s) = delivered_years request corp_code report_code a b /\
  StronglySorted Z.lt (delivered_years request corp_code report_code a b).
Proof.
  intros _ _ Ha Hb Hlo Hhi Hf Hs.
  set (ys := delivered_years request corp_code report_code a b).
  assert (Hsorted : StronglySorted Z.lt ys)
    by (apply StronglySorted_filter, py_range_incl_sorted).
  assert (Hrange : forall y, In y ys -> 1000 <= y <= 9999).
  { intros y Hy. apply filter_In in Hy. destruct Hy as [Hy _].
    apply py_range_incl_In in Hy. lia. }
  assert (Hrows : rows = flat_map (year_rows request (zfill 8 corp_code) report_code)
                           (py_range_incl a b)).
  { destruct (range_handler_cases request corp_code start_year end_year report_code corp_name)
      as [(a' & b' & rows' & Ha' & Hb' & Hr & _ & H)|[(a' & b' & _ & _ & _ & H)|[_ H]]];
      rewrite Hf in H; try discriminate H.
    injection H as ->. congruence. }
  assert (Hkeys : forall x, In x (Dict.keys (group_by_year rows)) <->
                            exists y, In y ys /\ x = py_str_int y).
  { intros x. rewrite keys_group_by_year_In. split.
    - intros (row & Hin & <-). rewrite Hrows in Hin. apply in_flat_map in Hin.
      destruct Hin as (y & Hy & Hit). exists y.
      split; [|exact (year_rows_year _ _ _ _ _ Hit)].
      apply filter_In. split; [exact Hy|].
      destruct (year_rows request (zfill 8 corp_code) report_code y);
        [destruct Hit | reflexivity].
    - intros (y & Hy & ->). apply filter_In in Hy. destruct Hy as [Hy Hn].
      destruct (year_rows request (zfill 8 corp_code) report_code y) as [|it r] eqn:Hr;
        [discriminate|].
      exists it. split.
      + rewrite Hrows. apply in_flat_map. exists y. split; [exact Hy|]. rewrite Hr. now left.
      + apply (year_rows_year request (zfill 8 corp_code) report_code). rewrite Hr. now left. }
  pose proof (summary_fields _ _ _ _ Hs) as (Hy & Ht & _ & _).
  assert (Hel : forall x, In x (years s) -> exists y, In y ys /\ x = py_str_int y).
  { intros x Hx. rewrite Hy, sorted_In in Hx. now apply Hkeys. }
  assert (Hinv : years s = map py_str_int (map year_number (years s))).
  { apply map_year_number_inverse. intros x Hx.
    destruct (Hel x Hx) as (y & Hin & ->). exists y. split; [|reflexivity].
    specialize (Hrange y Hin). lia. }
  assert (Hnum : map year_number (years s) = ys).
  { apply strictly_sorted_unique; [|exact Hsorted|].
    - apply strict_of_NoDup.
      + apply Sorted_StronglySorted; [intros x y z; apply Z.le_trans|].
        apply (Sorted_map str_le); [|rewrite Hy; apply sorted_Sorted].
        intros x1 x2 H1 H2 Hle.
        destruct (Hel x1 H1) as (y1 & Hin1 & ->). destruct (Hel x2 H2) as (y2 & Hin2 & ->).
        pose proof (Hrange y1 Hin1). pose proof (Hrange y2 Hin2).
        apply str_le_numeric; [| |  |exact Hle].
        * now rewrite !py_str_int_four_digits.
        * apply py_str_int_year. lia.
        * apply py_str_int_year. lia.
      + apply (NoDup_map_inv py_str_int). rewrite <- Hinv, Hy.
        apply sorted_NoDup, keys_group_by_year_NoDup.
    - intros y. rewrite in_map_iff. split.
      + intros (x & <- & Hx). destruct (Hel x Hx) as (y & Hin & ->).
        specialize (Hrange y Hin).
        rewrite (proj1 (py_str_int_year y ltac:(lia))). exact Hin.
      + intros Hin. exists (py_str_int y). specialize (Hrange y Hin).
        split; [apply py_str_int_year; lia|].
        rewrite Hy, sorted_In. apply Hkeys. eauto. }
  split; [rewrite Hinv, Hnum; reflexivity|].
  split; [|split; [exact Hnum | exact Hsorted]].
  rewrite Ht. unfold Dict.len. rewrite <- Hnum, length_map, Hy.
  rewrite (Permutation_length (sorted_perm _)).
  unfold Dict.keys. now rewrite length_map.
Qed.

Lemma period_summary_years_witness :
  exists rows s,
    get_financial_data_range_with_error_handling
      sample_api "126380" "2019" "2022" "11011" "삼성전자" = (Some (JItems rows), None) /\
    _create_analysis_summary rows "2019" "2022" = Some s /\
    years s = ["2021"; "2022"] /\ total_years s = 2%nat.
Proof.
  do 2 eexists. split; [vm_compute; reflexivity|]. split; [vm_compute; reflexivity|].
  destruct (period_summary_years sample_api "126380" "2019" "2022" "11011" "삼성전자"
              2019 2022 _ _ ltac:(unfold text_within_limit; simpl; lia)
              ltac:(unfold text_within_limit; simpl; lia)
              eq_refl eq_refl ltac:(lia) ltac:(lia) eq_refl eq_refl)
    as (H1 & H2 & _).
  split; [exact H1 | exact H2].
Defined.

Lemma filter_other_year (request : api) (corp_code report_code : string) (y z : Z)
    (p : item -> bool) :
  (forall r, p r = true -> bsns_year r = py_str_int y) -> z <> y ->
  filter p (year_rows request corp_code report_code z) = [].
Proof.
  intros Hp Hz.
  assert (H : forall r, In r (year_rows request corp_code report_code z) -> p r = false).
  { intros r Hr. destruct (p r) eqn:E; [|reflexivity].
    apply Hp in E. rewrite (year_rows_year _ _ _ _ _ Hr) in E.
    apply py_str_int_inj in E. congruence. }
  induction (year_rows request corp_code report_code z) as [|r l IH]; [reflexivity|].
  simpl. rewrite (H r (or_introl eq_refl)). apply IH. intros r' Hr'. apply H. now right.
Qed.

Lemma filter_rows_of_year (request : api) (corp_code report_code : string) (y : Z)
    (p : item -> bool) (l : list Z) :
  (forall r, p r = true -> bsns_year r = py_str_int y) -> NoDup l ->
  filter p (flat_map (year_rows request corp_code report_code) l) =
  if existsb (Z.eqb y) l then filter p (year_rows request corp_code report_code y) else [].
Proof.
  intros Hp. induction 1 as [|z l Hz Hl IH]; [reflexivity|].
  cbn [flat_map existsb]. rewrite filter_app, IH.
  destruct (Z.eqb_spec y z) as [<-|Hne]; cbn [orb].
  - assert (E : existsb (Z.eqb y) l = false).
    { destruct (existsb (Z.eqb y) l) eqn:E; [|reflexivity].
      apply existsb_exists in E. destruct E as (x & Hx & Hxy).
      apply Z.eqb_eq in Hxy. subst x. contradiction. }
    rewrite E. apply app_nil_r.
  - rewrite (filter_other_year request corp_code report_code y z p Hp) by congruence.
    reflexivity.
Qed.

Lemma existsb_range (a b y : Z) :
  existsb (Z.eqb y) (py_range_incl a b) = (a <=? y) && (y <=? b).
Proof.
  destruct ((a <=? y) && (y <=? b)) eqn:E.
  - apply andb_true_iff in E. destruct E as [E1 E2]. apply Z.leb_le in E1, E2.
    apply existsb_exists. exists y. split; [apply py_range_incl_In; lia | apply Z.eqb_refl].
  - destruct (existsb (Z.eqb y) (py_range_incl a b)) eqn:Ex; [|reflexivity].
    apply existsb_exists in Ex. destruct Ex as (x & Hx & Hxy).
    apply Z.eqb_eq in Hxy. subst x. apply py_range_incl_In in Hx.
    apply andb_false_iff in E. destruct E as [E|E]; apply Z.leb_gt in E; lia.
Qed.

Lemma StronglySorted_lt_NoDup (l : list Z) : StronglySorted Z.lt l -> NoDup l.
Proof.
  induction 1 as [|x l Hl IH Hx]; constructor; [|exact IH].
  rewrite Forall_forall in Hx. intros Hin. specialize (Hx x Hin). lia.
Qed.

(** In the rows of a range query the groups of a year are made of the
    rows of that year's own answer only, routed by their tag: a year
    outside the range or without rows has no groups, and no year sees
    the rows of another. *)
Theorem period_groups_per_year (request : api)
    (corp_code start_year end_year report_code : string) (data : response)
    (rows : list item) (a b y : Z) :
  text_within_limit start_year -> text_within_limit end_year ->
  get_financial_info_range request corp_code start_year end_year report_code
    = Ok (Some data) ->
  Dict.get data "list" = Some (JItems rows) ->
  py_int start_year = Some a -> py_int end_year = Some b ->
  let own := year_rows request (zfill 8 corp_code) report_code y in
  Dict.get (group_by_year rows) (py_str_int y) =
    if (a <=? y) && (y <=? b) && nonempty own
    then Some {| BS := filter (to_BS (py_str_int y)) own;
                 IS := filter (to_IS (py_str_int y)) own |}
    else None.
Proof.
  intros _ _ Hq Hl Ha Hb own.
  apply range_query_ok in Hq.
  destruct Hq as (a' & b' & rows' & Ha' & Hb' & Hrows & _ & ->).
  simpl in Hl. injection Hl as <-.
  assert (a' = a) by congruence. assert (b' = b) by congruence. subst a' b'.
  pose proof (StronglySorted_lt_NoDup _ (py_range_incl_sorted a b)) as Hnd.
  rewrite group_by_year_get, Hrows.
  assert (HB : forall r, to_BS (py_str_int y) r = true -> bsns_year r = py_str_int y).
  { unfold to_BS. intros r H. apply andb_true_iff in H. now apply String.eqb_eq. }
  assert (HI : forall r, to_IS (py_str_int y) r = true -> bsns_year r = py_str_int y).
  { unfold to_IS. intros r H. apply andb_true_iff in H. now apply String.eqb_eq. }
  assert (HY : forall r, in_year (py_str_int y) r = true -> bsns_year r = py_str_int y).
  { unfold in_year. intros r H. now apply String.eqb_eq. }
  rewrite (filter_rows_of_year _ _ _ y _ _ HB Hnd), (filter_rows_of_year _ _ _ y _ _ HI Hnd).
  assert (E : existsb (in_year (py_str_int y))
                (flat_map (year_rows request (zfill 8 corp_code) report_code)
                   (py_range_incl a b)) =
              (a <=? y) && (y <=? b) && nonempty own).
  { pose proof (filter_rows_of_year request (zfill 8 corp_code) report_code y
                  (in_year (py_str_int y)) _ HY Hnd) as Hf.
    rewrite existsb_range in Hf. fold own in Hf.
    assert (Hown : filter (in_year (py_str_int y)) own = own).
    { apply filter_all. apply Forall_forall. intros r Hr. unfold in_year.
      apply String.eqb_eq. exact (year_rows_year _ _ _ _ _ Hr). }
    rewrite Hown in Hf.
    set (all := flat_map _ _) in *.
    assert (Hex : existsb (in_year (py_str_int y)) all =
                  nonempty (filter (in_year (py_str_int y)) all)).
    { clear. induction all as [|r l IH]; [reflexivity|]. simpl.
      destruct (in_year (py_str_int y) r); [reflexivity | exact IH]. }
    rewrite Hex, Hf. destruct ((a <=? y) && (y <=? b)); reflexivity. }
  rewrite E, existsb_range. fold own.
  destruct ((a <=? y) && (y <=? b)); reflexivity.
Qed.

Lemma period_groups_per_year_witness :
  exists data rows,
    get_financial_info_range sample_api "126380" "2019" "2022" "11011" = Ok (Some data) /\
    Dict.get data "list" = Some (JItems rows) /\
    Dict.get (group_by_year rows) "2022" =
      Some {| BS := [mk_item "2022" "BS" "BS" acc_total_equity "700"]; IS := [] |}.
Proof.
  do 2 eexists. split; [vm_compute; reflexivity|]. split; [reflexivity|].
  exact (period_groups_per_year sample_api "126380" "2019" "2022" "11011" _ _ 2019 2022 2022
           ltac:(unfold text_within_limit; simpl; lia)
           ltac:(unfold text_within_limit; simpl; lia)
           eq_refl eq_refl eq_refl eq_refl).
Defined.

(** ** chart_service.py: the charts of a period, the donut chart *)

Lemma indicator_trend_lengths (yd : Dict.t year_groups) (ys : list string)
    (vs : list pyval * list pyval) :
  indicator_trend_values yd ys = Ok vs ->
  List.length (fst vs) = List.length (filter (has_income yd) ys) /\
  List.length (snd vs) = List.length (filter (has_income yd) ys).
Proof.
  revert vs. induction ys as [|year rest IH]; intros vs H.
  - simpl in H. injection H as <-. auto.
  - cbn [indicator_trend_values] in H. cbn [filter].
    destruct (Dict.get yd year) as [g|] eqn:Hg; [|discriminate].
    assert (Hi : has_income yd year = nonempty (IS g))
      by (unfold has_income; now rewrite Hg).
    rewrite Hi. destruct (nonempty (IS g)); cbn [negb] in H.
    + apply bind_ok in H. destruct H as [rv [_ H]].
      apply bind_ok in H. destruct H as [ni [_ H]].
      apply bind_ok in H. destruct H as [vs' [Hvs H]].
      injection H as <-. destruct (IH _ Hvs) as [H1 H2]. simpl. auto.
    + exact (IH _ H).
Qed.

Lemma included_has_income (yd : Dict.t year_groups) (ys : list string) :
  (List.length (filter (included yd) ys) <= List.length (filter (has_income yd) ys))%nat.
Proof.
  induction ys as [|y ys IH]; [simpl; lia|]. cbn [filter].
  unfold included at 1, has_income at 1.
  destruct (Dict.get yd y) as [g|]; [|exact IH].
  destruct (nonempty (BS g)), (nonempty (IS g)); simpl; lia.
Qed.

(** The charts of a period are none, the indicator trend alone, or the
    ratio trend followed by the indicator trend: a ratio trend never
    comes without an indicator trend.  Both have every year of the data
    on the x axis; the ratio series hold the years with both groups,
    the indicator series the years with income-statement rows. *)
Theorem period_charts_shape (financial_data : list item) (c : Dict.t chart) :
  create_period_charts financial_data = Ok c ->
  let year_data := group_by_year financial_data in
  let all_years := sorted (Dict.keys year_data) in
  let both := List.length (filter (included year_data) all_years) in
  let income := List.length (filter (has_income year_data) all_years) in
  (c = [] /\ income = 0%nat) \/
  (exists t, c = [("indicator_trend", TrendChart t)] /\ both = 0%nat /\
             trend_years t = all_years /\
             List.length (trend_first t) = income /\
             List.length (trend_second t) = income /\ (0 < income)%nat) \/
  (exists r t, c = [("ratio_trend", TrendChart r); ("indicator_trend", TrendChart t)] /\
               trend_years r = all_years /\ trend_years t = all_years /\
               List.length (trend_first r) = both /\ List.length (trend_second r) = both /\
               List.length (trend_first t) = income /\
               List.length (trend_second t) = income /\
               (0 < both <= income)%nat).
Proof.
  unfold create_period_charts. destruct financial_data as [|row0 data].
  { intros H. injection H as <-. left. split; reflexivity. }
  set (yd := group_by_year (row0 :: data)). intros H. cbv zeta.
  apply bind_ok in H. destruct H as [rt [Hrt H]].
  apply bind_ok in H. destruct H as [it [Hit H]]. injection H as <-.
  unfold create_ratio_trend_chart in Hrt. unfold create_indicator_trend_chart in Hit.
  apply bind_ok in Hrt. destruct Hrt as [vr [Hvr Hrt]].
  apply bind_ok in Hit. destruct Hit as [vi [Hvi Hit]].
  destruct (ratio_trend_lengths _ _ _ Hvr) as [R1 R2].
  destruct (indicator_trend_lengths _ _ _ Hvi) as [I1 I2].
  pose proof (included_has_income yd (sorted (Dict.keys yd))) as Hle.
  destruct (fst vr) as [|r0 rr] eqn:Er; destruct (fst vi) as [|i0 ir] eqn:Ei;
    injection Hrt as <-; injection Hit as <-; cbn [List.length] in *.
  - left. split; [reflexivity | now symmetry].
  - right. left. eexists. split; [reflexivity|]. cbn [trend_years trend_first trend_second].
    cbn [List.length]. repeat split; try congruence; lia.
  - exfalso. lia.
  - right. right. do 2 eexists. split; [reflexivity|].
    cbn [trend_years trend_first trend_second]. cbn [List.length].
    repeat split; try congruence; lia.
Qed.

Lemma period_charts_shape_witness :
  exists c t, create_period_charts income_only_2021_rows = Ok c /\
              In ("indicator_trend", TrendChart t) c /\
              trend_years t = sorted (Dict.keys (group_by_year income_only_2021_rows)).
Proof.
  destruct (create_period_charts income_only_2021_rows) as [c|e] eqn:Hc;
    [|vm_compute in Hc; discriminate].
  pose proof Hc as Hv. vm_compute in Hv. injection Hv as Hv.
  destruct (period_charts_shape income_only_2021_rows c Hc)
    as [[H _]|[(t & H & _ & Ht & _)|(r & t & H & _ & Ht & _)]].
  - rewrite H in Hv. discriminate Hv.
  - exists c, t. rewrite H. split; [reflexivity|]. split; [now left | exact Ht].
  - exists c, t. rewrite H. split; [reflexivity|]. split; [right; now left | exact Ht].
Defined.

(** The donut chart tests for zero only: it is drawn exactly when debt
    and equity normalize to finite floats that are not both zero, also
    for a negative or zero equity (for which no ROE is computed); it is
    absent exactly when both are zero, and an infinite or NaN amount
    makes it raise. *)
Theorem donut_chart_iff (bs_data : list item) (debt equity : PyFloat.t) :
  bs_data <> [] ->
  normalized bs_data acc_total_liabilities = Ok debt ->
  normalized bs_data acc_total_equity = Ok equity ->
  ((exists x, create_debt_ratio_donut_chart bs_data = Ok [("debt_ratio_donut", DonutChart x)]
              /\ donut_debt x = debt /\ donut_equity x = equity) <->
   is_finite debt = true /\ is_finite equity = true /\
   PyFloat.is_zero debt && PyFloat.is_zero equity = false) /\
  (create_debt_ratio_donut_chart bs_data = Ok [] <->
   PyFloat.is_zero debt && PyFloat.is_zero equity = true) /\
  ((exists e, create_debt_ratio_donut_chart bs_data = Raise e) <->
   PyFloat.is_zero debt && PyFloat.is_zero equity = false /\
   is_finite debt && is_finite equity = false).
Proof.
  unfold normalized, create_debt_ratio_donut_chart. intros Hne Hd He.
  destruct bs_data as [|b0 bs]; [congruence|]. rewrite Hd, He. cbn [bind].
  destruct (PyFloat.is_zero debt && PyFloat.is_zero equity) eqn:Hz.
  - split; [|split].
    + split; [intros (x & H & _); discriminate H | intros (_ & _ & H); discriminate H].
    + split; reflexivity.
    + split; [intros (e & H); discriminate H | intros (H & _); discriminate H].
  - destruct debt as [sd|sd| |sd md ed]; destruct equity as [se|se| |se me ee];
      cbn [PyFloat.to_int bind is_finite andb];
      (split; [|split]);
      try (split; [intros (x & H & _); discriminate H | intros (H1 & H2 & _); discriminate]);
      try (split; [intros H; discriminate H | intros H; discriminate H]);
      try (split; [intros (e & H); discriminate H | intros (_ & H); discriminate H]);
      try (split; [intros _; split; reflexivity | intros _; eexists; reflexivity]);
      try (split; [intros _; repeat split | intros _; eexists; split; [reflexivity|split; reflexivity]]).
Qed.

Lemma donut_chart_iff_witness :
  exists x, create_debt_ratio_donut_chart negative_equity_bs
              = Ok [("debt_ratio_donut", DonutChart x)] /\
            PyFloat.lt0 (donut_equity x) = true.
Proof.
  destruct (donut_chart_iff negative_equity_bs
              (PyFloat.of_small_int 500) (PyFloat.of_small_int (-100)))
    as [[_ H] _]; [discriminate | vm_compute; reflexivity | vm_compute; reflexivity |].
  destruct H as (x & Hx & _ & He); [repeat split|].
  exists x. split; [exact Hx|]. rewrite He. reflexivity.
Defined.

(** ** data_service.py: the fetcher without messages *)

(** [get_financial_data] and the fetcher with error handling read the
    answer alike but for the status: the plain fetcher does not look at
    it.  Whatever the one with error handling returns as data, the
    plain one returns too; the plain one returns data the other refuses
    exactly for an answer whose status is not ["000"]. *)
Theorem plain_fetcher_ignores_status (request : api)
    (corp_code year report_code corp_name : string) :
  let handled := get_financial_data_with_error_handling
                   request corp_code year report_code corp_name in
  let plain := get_financial_data request corp_code year report_code in
  (forall v, fst handled = Some v -> plain = Some v) /\
  (forall v, plain = Some v ->
     fst handled = Some v \/
     (fst handled = None /\
      exists data, get_financial_info request corp_code year report_code = Ok (Some data) /\
                   error_status data = true /\ Dict.get data "list" = Some v)) /\
  (forall data v,
     get_financial_info request corp_code year report_code = Ok (Some data) ->
     error_status data = true -> Dict.get data "list" = Some v -> truthy v = true ->
     plain = Some v /\ fst handled = None).
Proof.
  cbv zeta. unfold get_financial_data_with_error_handling, get_financial_data,
    handle_response.
  destruct (get_financial_info request corp_code year report_code) as [[data|]|e];
    cbn [fst]; try (split; [|split]; intros; discriminate).
  split; [|split].
  - intros v. destruct (negb (nonempty data)); cbn [fst]; [discriminate|].
    destruct (error_status data); cbn [fst]; [discriminate|].
    destruct (Dict.get data "list") as [l|]; cbn [fst]; [|discriminate].
    destruct (negb (truthy l)); cbn [fst]; [discriminate | auto].
  - intros v. destruct (negb (nonempty data)); cbn [fst]; [discriminate|].
    destruct (error_status data) eqn:Hs; cbn [fst].
    + intros H. right. split; [reflexivity|]. exists data.
      destruct (Dict.get data "list") as [l|]; [|discriminate H].
      destruct (negb (truthy l)); [discriminate H|]. injection H as <-. auto.
    + destruct (Dict.get data "list") as [l|]; cbn [fst]; [|discriminate].
      destruct (negb (truthy l)); cbn [fst]; [discriminate | auto].
  - intros d v H Hs Hl Ht. injection H as <-.
    assert (Hne : nonempty data = true) by (destruct data; [discriminate Hl | reflexivity]).
    rewrite Hne, Hs, Hl, Ht. cbn [negb fst]. auto.
Qed.

(** ** opendart_client.py: padding, and a year of the range *)

Lemma char_count_app (a b : list ascii) :
  Unicode.char_count (a ++ b) = (Unicode.char_count a + Unicode.char_count b)%nat.
Proof. unfold Unicode.char_count. now rewrite filter_app, length_app. Qed.

Lemma char_count_zeros (k : nat) : Unicode.char_count (repeat "0"%char k) = k.
Proof. induction k as [|k IH]; [reflexivity|]. cbn [repeat]. unfold Unicode.char_count in *.
  cbn [filter]. change (negb (Unicode.is_cont "0")) with true. cbn [List.length]. now rewrite IH.
Qed.

(** The padded text has [width] code points, or those it had. *)
Lemma zfill_length (width : nat) (s : string) :
  Unicode.char_count (list_ascii_of_string (zfill width s)) =
  Nat.max width (Unicode.char_count (list_ascii_of_string s)).
Proof.
  unfold zfill. cbv zeta.
  remember (Unicode.char_count (list_ascii_of_string s)) as n eqn:En.
  destruct (Nat.leb_spec width n) as [H|H].
  { rewrite <- En. symmetry. now apply Nat.max_r. }
  rewrite Nat.max_l by (apply Nat.lt_le_incl, H).
  destruct s as [|c r].
  { rewrite list_ascii_of_string_of_list_ascii, char_count_zeros.
    change (Unicode.char_count (list_ascii_of_string "")) with 0%nat in En.
    subst n. apply Nat.sub_0_r. }
  assert (Hcons : forall l, Unicode.is_cont c = false ->
            Unicode.char_count (c :: l) = S (Unicode.char_count l)).
  { intros l Hc. unfold Unicode.char_count. cbn [filter]. now rewrite Hc. }
  destruct (Ascii.eqb c "+" || Ascii.eqb c "-") eqn:Hs.
  - assert (Hc : Unicode.is_cont c = false).
    { apply orb_true_iff in Hs. destruct Hs as [Hs|Hs]; apply Ascii.eqb_eq in Hs;
        subst c; reflexivity. }
    cbn [list_ascii_of_string] in *. rewrite (Hcons _ Hc) in En.
    rewrite (Hcons _ Hc), list_ascii_of_string_app, list_ascii_of_string_of_list_ascii.
    rewrite char_count_app, char_count_zeros.
    set (m := Unicode.char_count (list_ascii_of_string r)) in *.
    subst n. apply Nat.lt_le_incl in H.
    rewrite <- Nat.add_succ_r. now apply Nat.sub_add.
  - rewrite list_ascii_of_string_app, list_ascii_of_string_of_list_ascii.
    rewrite char_count_app, char_count_zeros, <- En.
    apply Nat.sub_add, Nat.lt_le_incl, H.
Qed.

Lemma zfill_idempotent (width : nat) (s : string) :
  zfill width (zfill width s) = zfill width s.
Proof.
  unfold zfill at 1. cbv zeta. rewrite zfill_length.
  destruct (Nat.leb_spec width
              (Nat.max width (Unicode.char_count (list_ascii_of_string s)))) as [H|H];
    [reflexivity | lia].
Qed.

(** The rows a year adds to a range query are the rows the fetcher of
    one year returns for that year and the same company code (padding
    the code twice is padding it once), with their business year
    overwritten; a year for which that fetcher has an error, or data
    that is no list of rows, adds nothing. *)
Theorem range_year_is_single_query (request : api)
    (corp_code report_code corp_name : string) (y : Z) :
  int_within_limit y ->
  year_rows request (zfill 8 corp_code) report_code y =
    match get_financial_data_with_error_handling
            request corp_code (py_str_int y) report_code corp_name with
    | (Some (JItems l), _) => map (set_year y) l
    | _ => []
    end.
Proof.
  intros _. unfold year_rows, get_financial_data_with_error_handling, handle_response,
    get_financial_info.
  rewrite zfill_idempotent.
  destruct (request (zfill 8 corp_code) (py_str_int y) report_code) as [[data|]|e];
    try reflexivity.
  destruct (nonempty data); cbn [negb]; [|now destruct (error_status data)].
  destruct (error_status data); [reflexivity|].
  destruct (Dict.get data "list") as [[ |s|l|l]|]; try reflexivity.
  - cbn [truthy]. destruct (negb (String.eqb s "")); reflexivity.
  - cbn [truthy]. destruct l; reflexivity.
  - cbn [truthy]. destruct l; reflexivity.
Qed.

Lemma range_year_is_single_query_witness :
  year_rows sample_api (zfill 8 "126380") "11011" 2022 =
    [mk_item "2022" "BS" "BS" acc_total_equity "700"] /\
  fst (get_financial_data_with_error_handling sample_api "126380" "2022" "11011" "삼성전자")
    = Some (JItems [mk_item "2021" "BS" "BS" acc_total_equity "700"]).
Proof.
  split; [|reflexivity].
  rewrite (range_year_is_single_query sample_api "126380" "11011" "삼성전자" 2022);
    reflexivity.
Defined.

Example plain_fetcher_returns_error_rows :
  let request : api := fun _ _ _ => Ok (Some error_with_rows) in
  get_financial_data request "126380" "2022" "11011" = Dict.get error_with_rows "list" /\
  fst (get_financial_data_with_error_handling request "126380" "2022" "11011" "삼성전자")
    = None.
Proof. split; reflexivity. Qed.
